(** * Delegation backend: authentication, delegation CRUD and analytics

    A shallow embedding of [auth_server.cjs]: every Express handler is a
    function in a state-and-exception monad over a relational store with the
    two tables the server creates at start-up.  The collaborators the
    server calls but does not define (the PostgreSQL driver's text encoding,
    bcrypt, jsonwebtoken, the store's ordering of timestamps) are fields of
    one record, [Externals], over which every definition is parametric.

    A request arrives with its body already parsed by the JSON body parser.
    Console logging, CORS, the listening socket and the start-up statements
    that create the tables are left out: the tables exist, with the columns
    and constraints of the two [CREATE TABLE] statements.  A handler runs
    from its first statement to its answer without another request's
    statements in between. *)

From Stdlib Require Import ZArith List Bool String Ascii Lia Sorted Permutation.
From Stdlib Require Import Floats.SpecFloat.
Import ListNotations.
Open Scope string_scope.
Open Scope Z_scope.

(** ** Numbers

    A JavaScript number is an IEEE-754 binary64 value.  [spec_float] is the
    Standard Library's executable specification of it. *)

Module Num.

Definition prec : Z := 53.
Definition emax : Z := 1024.

(** [Number(n)] for an integer [n], e.g. the text of a [COUNT( * )] column:
    the nearest binary64 value. *)
Definition of_Z (n : Z) : spec_float := binary_normalize prec emax n 0 false.

Definition of_nat (n : nat) : spec_float := of_Z (Z.of_nat n).

Definition div : spec_float -> spec_float -> spec_float := SFdiv prec emax.
Definition mul : spec_float -> spec_float -> spec_float := SFmul prec emax.

(** [a > b]. *)
Definition gtb (a b : spec_float) : bool := SFltb b a.

(** [Math.round]: the closest integral value, the one nearer to +infinity
    on a tie; integral and non-finite arguments are returned unchanged, and
    a zero result keeps the sign of the argument. *)
Definition round (x : spec_float) : spec_float :=
  match x with
  | S754_finite s m e =>
      if 0 <=? e then x
      else
        let n := if s then Z.neg m else Z.pos m in
        binary_normalize prec emax ((2 * n + 2 ^ (- e)) / 2 ^ (1 - e)) 0 s
  | _ => x
  end.

End Num.

(** ** JavaScript values *)

#[local] Set Warnings "-register-all".

Inductive JsonValue : Type :=
| JUndefined
| JNull
| JBool (b : bool)
| JNum (x : spec_float)
| JStr (s : string)
| JArr (items : list JsonValue)
| JObj (fields : list (string * JsonValue)).

(** Truthiness, as [!v], [a || b] and [c ? x : y] test it. *)
Definition truthy (v : JsonValue) : bool :=
  match v with
  | JUndefined | JNull => false
  | JBool b => b
  | JNum (S754_zero _) | JNum S754_nan => false
  | JNum _ => true
  | JStr s => negb (String.eqb s "")
  | JArr _ | JObj _ => true
  end.

(** [a || b]. *)
Definition js_or (a b : JsonValue) : JsonValue := if truthy a then a else b.

Fixpoint lookup_field (k : string) (fields : list (string * JsonValue)) : JsonValue :=
  match fields with
  | [] => JUndefined
  | (k', v) :: rest => if String.eqb k k' then v else lookup_field k rest
  end.

(** Exceptions: [err.code] and [err.message]. *)
Record JsError : Type := mkError { err_code : option string; err_message : string }.

Inductive JsResult (A : Type) : Type :=
| Ok (a : A)
| Throw (e : JsError).
Arguments Ok {A} a.
Arguments Throw {A} e.

Definition TypeError (msg : string) : JsError := mkError None msg.

(** [err.code === c]. *)
Definition code_is (e : JsError) (c : string) : bool :=
  match err_code e with
  | Some s => String.eqb s c
  | None => false
  end.

(** [v.k] for the keys the server reads ([email], [password], [name],
    [taskName], ...), none of which is a built-in property of a string,
    number, boolean or array: reading them off such a value gives
    [undefined], and off [null] or [undefined] throws. *)
Definition prop (v : JsonValue) (k : string) : JsResult JsonValue :=
  match v with
  | JUndefined => Throw (TypeError "Cannot read properties of undefined")
  | JNull => Throw (TypeError "Cannot read properties of null")
  | JObj fields => Ok (lookup_field k fields)
  | _ => Ok JUndefined
  end.

(** [v?.k]. *)
Definition opt_prop (v : JsonValue) (k : string) : JsonValue :=
  match v with
  | JObj fields => lookup_field k fields
  | _ => JUndefined
  end.

(** ** Strings

    A string is a sequence of code units below 256. *)

(** [s.split(c)] for a one-character separator. *)
Fixpoint split_on (c : ascii) (s : string) : list string :=
  match s with
  | EmptyString => [EmptyString]
  | String a rest =>
      if Ascii.eqb a c then EmptyString :: split_on c rest
      else match split_on c rest with
           | [] => [String a EmptyString]
           | h :: t => String a h :: t
           end
  end.

(** White space as [trim] sees it: TAB, LF, VT, FF, CR, SP and NBSP. *)
Definition is_space (a : ascii) : bool :=
  let n := nat_of_ascii a in
  (Nat.eqb n 9 || Nat.eqb n 10 || Nat.eqb n 11 || Nat.eqb n 12 || Nat.eqb n 13
   || Nat.eqb n 32 || Nat.eqb n 160)%bool.

Fixpoint trim_start (s : string) : string :=
  match s with
  | EmptyString => EmptyString
  | String a rest => if is_space a then trim_start rest else s
  end.

Fixpoint rev_append_string (s acc : string) : string :=
  match s with
  | EmptyString => acc
  | String a rest => rev_append_string rest (String a acc)
  end.

Definition rev_string (s : string) : string := rev_append_string s EmptyString.

(** [s.trim()]. *)
Definition trim (s : string) : string :=
  rev_string (trim_start (rev_string (trim_start s))).

(** ** The relational store

    A column holds SQL [NULL] or the text the driver sent for it.  The
    store's own reading of that text into a declared type ([DATE],
    [BOOLEAN], [INTEGER], [VARCHAR(n)] lengths) is not modelled: a statement
    the store refuses for such a reason, or because it cannot be reached, is
    a scheduled failure (see [w_faults]).  The [UNIQUE] and [NOT NULL]
    constraints of the two [CREATE TABLE] statements are modelled. *)

Definition SqlValue : Type := option string.

(** SQL [a = b]: never true when a side is [NULL]. *)
Definition sql_eqb (a b : SqlValue) : bool :=
  match a, b with
  | Some x, Some y => String.eqb x y
  | _, _ => false
  end.

(** Grouping treats two [NULL]s as the same key. *)
Definition sql_same (a b : SqlValue) : bool :=
  match a, b with
  | Some x, Some y => String.eqb x y
  | None, None => true
  | _, _ => false
  end.

Record User : Type := mkUser {
  u_id : Z;
  u_email : SqlValue;
  u_password : SqlValue;
  u_first_name : SqlValue;
  u_last_name : SqlValue;
  u_phone : SqlValue;
  u_role : SqlValue;
  u_department : SqlValue;
  u_bio : SqlValue
}.

Record Delegation : Type := mkDelegation {
  d_id : Z;
  d_task_name : SqlValue;
  d_assigned_by : SqlValue;
  d_assigned_to : SqlValue;
  d_planned_date : SqlValue;
  d_priority : SqlValue;
  d_message : SqlValue;
  d_attachments : SqlValue;
  d_assigned_pc : SqlValue;
  d_group_name : SqlValue;
  d_notify_to : SqlValue;
  d_auditor : SqlValue;
  d_make_attachment_mandatory : SqlValue;
  d_make_note_mandatory : SqlValue;
  d_notify_doer : SqlValue;
  d_set_reminder : SqlValue;
  d_reminder_mode : SqlValue;
  d_reminder_frequency : SqlValue;
  d_reminder_before_days : SqlValue;
  d_reminder_starting_time : SqlValue;
  d_status : SqlValue;
  d_created_at : SqlValue;
  d_completed_at : SqlValue;
  d_notes : SqlValue
}.

(** A statement as handed to [pool.query]: its text and its parameters. *)
Inductive SqlParam : Type :=
| PVal (v : SqlValue)
| PInt (n : Z).

Record Sql : Type := mkSql { sql_text : string; sql_params : list SqlParam }.

(** The world a handler runs in: the two tables, their [SERIAL] sequences,
    the store's clock, the entropy bcrypt draws its salt from, the failures
    scheduled for the coming statements ([Some e]: the next statement is
    refused with [e]) and the statements issued so far, oldest first. *)
Record World : Type := mkWorld {
  w_users : list User;
  w_delegations : list Delegation;
  w_users_seq : Z;
  w_delegations_seq : Z;
  w_now : string;
  w_seed : nat;
  w_faults : list (option JsError);
  w_log : list Sql
}.

Definition set_users (us : list User) (w : World) : World :=
  mkWorld us (w_delegations w) (w_users_seq w) (w_delegations_seq w)
          (w_now w) (w_seed w) (w_faults w) (w_log w).

Definition set_delegations (ds : list Delegation) (w : World) : World :=
  mkWorld (w_users w) ds (w_users_seq w) (w_delegations_seq w)
          (w_now w) (w_seed w) (w_faults w) (w_log w).

Definition next_user_id (w : World) : World :=
  mkWorld (w_users w) (w_delegations w) (w_users_seq w + 1) (w_delegations_seq w)
          (w_now w) (w_seed w) (w_faults w) (w_log w).

Definition next_delegation_id (w : World) : World :=
  mkWorld (w_users w) (w_delegations w) (w_users_seq w) (w_delegations_seq w + 1)
          (w_now w) (w_seed w) (w_faults w) (w_log w).

Definition next_seed (w : World) : World :=
  mkWorld (w_users w) (w_delegations w) (w_users_seq w) (w_delegations_seq w)
          (w_now w) (S (w_seed w)) (w_faults w) (w_log w).

(** Handing a statement to the store: it is recorded and takes the head of
    the failure schedule. *)
Definition issue (q : Sql) (w : World) : World :=
  mkWorld (w_users w) (w_delegations w) (w_users_seq w) (w_delegations_seq w)
          (w_now w) (w_seed w) (tl (w_faults w)) (w_log w ++ [q]).

Definition next_fault (w : World) : option JsError :=
  match w_faults w with
  | Some e :: _ => Some e
  | _ => None
  end.

Definition unique_violation : JsError :=
  mkError (Some "23505") "duplicate key value violates unique constraint".

(** A name between double quotes, as the store writes identifiers in its
    messages. *)
Definition quoted (name : string) : string :=
  String (ascii_of_nat 34) (name ++ String (ascii_of_nat 34) EmptyString).

(** The store's refusal of a null in a [NOT NULL] column: the message names
    the column and the relation, in PostgreSQL's wording (version 13 and
    later). *)
Definition not_null_violation (column relation : string) : JsError :=
  mkError (Some "23502")
    ("null value in column " ++ quoted column ++ " of relation " ++ quoted relation
     ++ " violates not-null constraint").

(** ** Collaborators from outside the repository *)

Record Externals : Type := mkExternals {
  (** the driver's text for a parameter that is neither a string nor null:
      a number, a boolean, an array literal, a JSON object *)
  pg_text : JsonValue -> string;
  (** the driver's parser for a column of a declared non-text type *)
  pg_typed : string -> string -> JsonValue;
  (** the store's order on [TIMESTAMP] values, [NULL] included *)
  timestamp_leb : SqlValue -> SqlValue -> bool;
  (** [bcrypt.hash(data, rounds)] with the salt drawn from the given seed *)
  bcrypt_hash : JsonValue -> Z -> nat -> JsResult string;
  (** [bcrypt.compare(data, hash)] *)
  bcrypt_compare : JsonValue -> JsonValue -> JsResult bool;
  (** [jwt.sign(payload, secret, { expiresIn })] at the given time *)
  jwt_sign : JsonValue -> string -> string -> string -> JsResult string;
  (** [jwt.verify(token, secret)] at the given time *)
  jwt_verify : string -> string -> string -> JsResult JsonValue;
  (** [process.env.JWT_SECRET] *)
  env_JWT_SECRET : option string
}.

(** ** The handler monad: state and exceptions *)

Definition M (A : Type) : Type := World -> JsResult A * World.

Definition ret {A : Type} (a : A) : M A := fun w => (Ok a, w).

Definition throw {A : Type} (e : JsError) : M A := fun w => (Throw e, w).

Definition bind {A B : Type} (c : M A) (k : A -> M B) : M B :=
  fun w =>
    match c w with
    | (Ok a, w') => k a w'
    | (Throw e, w') => (Throw e, w')
    end.

(** [try { c } catch (err) { h err }]. *)
Definition try_catch {A : Type} (c : M A) (h : JsError -> M A) : M A :=
  fun w =>
    match c w with
    | (Ok a, w') => (Ok a, w')
    | (Throw e, w') => h e w'
    end.

(** A pure computation that may throw, run inside a handler. *)
Definition lift {A : Type} (r : JsResult A) : M A := fun w => (r, w).

Notation "x <- c ;; k" := (bind c (fun x => k))
  (at level 61, c at next level, right associativity).

(** [await Promise.all(xs.map(async x => f x))].  The callbacks run
    concurrently; they only read the tables, so their results do not depend
    on how their statements interleave, and the model runs them one after
    the other in the order of [xs].  A failure in one of them rejects the
    whole. *)
Fixpoint mapM {A B : Type} (f : A -> M B) (xs : list A) : M (list B) :=
  match xs with
  | [] => ret []
  | x :: rest => y <- f x ;; ys <- mapM f rest ;; ret (y :: ys)
  end.

(** [await pool.query(text, params)]: the statement is issued; it is
    refused when a failure is scheduled for it, and runs otherwise. *)
Definition pool_query {A : Type} (text : string) (params : list SqlParam)
    (run : World -> JsResult A * World) : M A :=
  fun w =>
    match next_fault w with
    | Some e => (Throw e, issue (mkSql text params) w)
    | None => run (issue (mkSql text params) w)
    end.

(** ** Requests and responses *)

Record Request : Type := mkRequest {
  req_authorization : option string;   (* req.headers['authorization'] *)
  req_body : JsonValue;                (* req.body *)
  req_id : Z;                          (* req.params.id, as the integer it denotes *)
  req_user : JsonValue                 (* req.user, set by the middleware *)
}.

Definition with_user (user : JsonValue) (req : Request) : Request :=
  mkRequest (req_authorization req) (req_body req) (req_id req) user.

Record Response : Type := mkResponse { res_status : Z; res_body : JsonValue }.

(** [res.json(body)] and [res.status(code).json(body)]. *)
Definition json (body : JsonValue) : Response := mkResponse 200 body.
Definition status_json (code : Z) (body : JsonValue) : Response := mkResponse code body.

Definition error_body (msg : string) : JsonValue := JObj [("error", JStr msg)].

Definition error_details (msg : string) (e : JsError) : JsonValue :=
  JObj [("error", JStr msg); ("details", JStr (err_message e))].

Definition success_body : JsonValue := JObj [("success", JBool true)].

(** A text column as the driver returns it. *)
Definition text_json (v : SqlValue) : JsonValue :=
  match v with
  | None => JNull
  | Some s => JStr s
  end.

(** [positional n ps] is the parameter [$n]. *)
Definition positional (n : nat) (ps : list SqlValue) : SqlValue :=
  nth (n - 1) ps None.

(** Stable sort, greatest first: among rows the order does not separate,
    the earlier one stays first. *)
Fixpoint insert_desc {A : Type} (le : A -> A -> bool) (x : A) (l : list A) : list A :=
  match l with
  | [] => [x]
  | y :: rest => if le y x then x :: l else y :: insert_desc le x rest
  end.

Definition sort_desc {A : Type} (le : A -> A -> bool) (l : list A) : list A :=
  fold_right (insert_desc le) [] l.

(** [GROUP BY key] with [COUNT( * )], groups in order of first appearance. *)
Fixpoint bump (k : SqlValue) (groups : list (SqlValue * nat)) : list (SqlValue * nat) :=
  match groups with
  | [] => [(k, 1%nat)]
  | (k', n) :: rest => if sql_same k k' then (k', S n) :: rest else (k', n) :: bump k rest
  end.

Definition group_count (keys : list SqlValue) : list (SqlValue * nat) :=
  fold_left (fun groups k => bump k groups) keys [].

Definition has_status (s : string) (d : Delegation) : bool :=
  sql_eqb (d_status d) (Some s).

Definition assigned_to (email : SqlValue) (d : Delegation) : bool :=
  sql_eqb (d_assigned_to d) email.

Definition is_null (v : SqlValue) : bool :=
  match v with None => true | Some _ => false end.

Section Server.

Variable X : Externals.

(** The driver's encoding of a query parameter: [null] and [undefined]
    become [NULL], a string is sent as it is. *)
Definition prepareValue (v : JsonValue) : SqlValue :=
  match v with
  | JUndefined | JNull => None
  | JStr s => Some s
  | _ => Some (pg_text X v)
  end.

(** A column of a declared non-text type as the driver returns it. *)
Definition typed_json (ty : string) (v : SqlValue) : JsonValue :=
  match v with
  | None => JNull
  | Some s => pg_typed X ty s
  end.

(** [process.env.JWT_SECRET || 'your_secret_key']. *)
Definition JWT_SECRET : string :=
  match env_JWT_SECRET X with
  | Some s => if String.eqb s "" then "your_secret_key" else s
  | None => "your_secret_key"
  end.

(** *** Statements on [users] *)

Definition SQL_INSERT_USER := "INSERT INTO users (email, password) VALUES ($1, $2)".
Definition SQL_SELECT_USER := "SELECT * FROM users WHERE email = $1".
Definition SQL_SELECT_PROFILE :=
  "SELECT email, first_name, last_name, phone, role, department, bio FROM users WHERE email = $1".
Definition SQL_UPDATE_PROFILE :=
  "UPDATE users SET first_name=$1, last_name=$2, phone=$3, role=$4, department=$5, bio=$6 WHERE email=$7".
Definition SQL_UPDATE_PASSWORD := "UPDATE users SET password = $1 WHERE email = $2".
Definition SQL_SELECT_NAMES := "SELECT first_name, last_name FROM users WHERE email = $1".
Definition SQL_SELECT_USERS :=
  "SELECT email, first_name, last_name, role, department, phone FROM users".

Definition users_by_email (email : SqlValue) (us : list User) : list User :=
  filter (fun u => sql_eqb (u_email u) email) us.

Definition insert_user (email password : SqlValue) : M unit :=
  pool_query SQL_INSERT_USER [PVal email; PVal password] (fun w =>
    let id := w_users_seq w in
    let w' := next_user_id w in
    if (is_null email || is_null password)%bool
    then (Throw (not_null_violation (if is_null email then "email" else "password") "users"),
          w')
    else if existsb (fun u => sql_eqb (u_email u) email) (w_users w)
    then (Throw unique_violation, w')
    else (Ok tt, set_users (w_users w ++ [mkUser id email password None None None None None None]) w')).

Definition select_user (email : SqlValue) : M (list User) :=
  pool_query SQL_SELECT_USER [PVal email] (fun w => (Ok (users_by_email email (w_users w)), w)).

Definition select_profile (email : SqlValue) : M (list User) :=
  pool_query SQL_SELECT_PROFILE [PVal email] (fun w => (Ok (users_by_email email (w_users w)), w)).

Definition select_names (email : SqlValue) : M (list User) :=
  pool_query SQL_SELECT_NAMES [PVal email] (fun w => (Ok (users_by_email email (w_users w)), w)).

Definition select_users : M (list User) :=
  pool_query SQL_SELECT_USERS [] (fun w => (Ok (w_users w), w)).

Definition update_profile (first last phone role department bio email : SqlValue) : M unit :=
  pool_query SQL_UPDATE_PROFILE
    [PVal first; PVal last; PVal phone; PVal role; PVal department; PVal bio; PVal email]
    (fun w =>
       (Ok tt,
        set_users
          (map (fun u =>
                  if sql_eqb (u_email u) email
                  then mkUser (u_id u) (u_email u) (u_password u) first last phone role department bio
                  else u)
               (w_users w))
          w)).

Definition update_password (hashed email : SqlValue) : M unit :=
  pool_query SQL_UPDATE_PASSWORD [PVal hashed; PVal email] (fun w =>
    if (is_null hashed && existsb (fun u => sql_eqb (u_email u) email) (w_users w))%bool
    then (Throw (not_null_violation "password" "users"), w)
    else
      (Ok tt,
       set_users
         (map (fun u =>
                 if sql_eqb (u_email u) email
                 then mkUser (u_id u) (u_email u) hashed (u_first_name u) (u_last_name u)
                             (u_phone u) (u_role u) (u_department u) (u_bio u)
                 else u)
              (w_users w))
         w)).

(** *** Statements on [delegations] *)

Definition SQL_SELECT_DELEGATIONS := "SELECT * FROM delegations ORDER BY created_at DESC".
Definition SQL_INSERT_DELEGATION :=
  "INSERT INTO delegations (task_name, assigned_by, assigned_to, planned_date, priority, message, attachments, assigned_pc, group_name, notify_to, auditor, make_attachment_mandatory, make_note_mandatory, notify_doer, set_reminder, reminder_mode, reminder_frequency, reminder_before_days, reminder_starting_time, status, notes) VALUES ($1, $2, $3, $4, $5, $6, $7, $8, $9, $10, $11, $12, $13, $14, $15, $16, $17, $18, $19, $20, $21) RETURNING *".
Definition SQL_UPDATE_DELEGATION :=
  "UPDATE delegations SET task_name=$1, assigned_by=$2, assigned_to=$3, planned_date=$4, priority=$5, message=$6, attachments=$7, assigned_pc=$8, group_name=$9, notify_to=$10, auditor=$11, make_attachment_mandatory=$12, make_note_mandatory=$13, notify_doer=$14, set_reminder=$15, reminder_mode=$16, reminder_frequency=$17, reminder_before_days=$18, reminder_starting_time=$19, status=$20, completed_at=$21, notes=$22 WHERE id=$23".
Definition SQL_DELETE_DELEGATION := "DELETE FROM delegations WHERE id = $1".
Definition SQL_COUNT_ALL := "SELECT COUNT(*) FROM delegations".
Definition SQL_COUNT_COMPLETED := "SELECT COUNT(*) FROM delegations WHERE status = 'Completed'".
Definition SQL_COUNT_PENDING := "SELECT COUNT(*) FROM delegations WHERE status = 'Pending'".
Definition SQL_COUNT_OVERDUE := "SELECT COUNT(*) FROM delegations WHERE status = 'Overdue'".
Definition SQL_TOP_PERFORMERS :=
  "SELECT assigned_to, COUNT(*) as completed FROM delegations WHERE status = 'Completed' GROUP BY assigned_to ORDER BY completed DESC LIMIT 3".
Definition SQL_RECENT_ACTIVITY :=
  "SELECT task_name, assigned_to, completed_at FROM delegations WHERE status = 'Completed' ORDER BY completed_at DESC LIMIT 3".
Definition SQL_COUNT_ASSIGNED := "SELECT COUNT(*) FROM delegations WHERE assigned_to = $1".
Definition SQL_COUNT_ASSIGNED_COMPLETED :=
  "SELECT COUNT(*) FROM delegations WHERE assigned_to = $1 AND status = 'Completed'".
Definition SQL_COUNT_ASSIGNED_IN_PROGRESS :=
  "SELECT COUNT(*) FROM delegations WHERE assigned_to = $1 AND status = 'In Progress'".
Definition SQL_COUNT_ASSIGNED_PENDING :=
  "SELECT COUNT(*) FROM delegations WHERE assigned_to = $1 AND status = 'Pending'".
Definition SQL_COUNT_ASSIGNED_OVERDUE :=
  "SELECT COUNT(*) FROM delegations WHERE assigned_to = $1 AND status = 'Overdue'".

(** The row an [INSERT] of the 21 listed columns creates: [id] from the
    sequence, [created_at] from the store's clock, [completed_at] unset. *)
Definition inserted_delegation (id : Z) (now : string) (ps : list SqlValue) : Delegation :=
  mkDelegation id
    (positional 1 ps) (positional 2 ps) (positional 3 ps) (positional 4 ps)
    (positional 5 ps) (positional 6 ps) (positional 7 ps) (positional 8 ps)
    (positional 9 ps) (positional 10 ps) (positional 11 ps) (positional 12 ps)
    (positional 13 ps) (positional 14 ps) (positional 15 ps) (positional 16 ps)
    (positional 17 ps) (positional 18 ps) (positional 19 ps) (positional 20 ps)
    (Some now) None (positional 21 ps).

(** The row an [UPDATE] of the 22 listed columns leaves: [id] and
    [created_at] are kept. *)
Definition updated_delegation (old : Delegation) (ps : list SqlValue) : Delegation :=
  mkDelegation (d_id old)
    (positional 1 ps) (positional 2 ps) (positional 3 ps) (positional 4 ps)
    (positional 5 ps) (positional 6 ps) (positional 7 ps) (positional 8 ps)
    (positional 9 ps) (positional 10 ps) (positional 11 ps) (positional 12 ps)
    (positional 13 ps) (positional 14 ps) (positional 15 ps) (positional 16 ps)
    (positional 17 ps) (positional 18 ps) (positional 19 ps) (positional 20 ps)
    (d_created_at old) (positional 21 ps) (positional 22 ps).

(** [task_name], [assigned_by] and [assigned_to] are declared [NOT NULL]. *)
Definition violates_not_null (d : Delegation) : bool :=
  (is_null (d_task_name d) || is_null (d_assigned_by d) || is_null (d_assigned_to d))%bool.

(** The column the store names when it refuses a row written from the
    parameters [ps], where [$1], [$2] and [$3] are [task_name],
    [assigned_by] and [assigned_to]: the first of the three, in the order of
    the table's declaration, that is null. *)
Definition null_column (ps : list SqlValue) : string :=
  if is_null (positional 1 ps) then "task_name"
  else if is_null (positional 2 ps) then "assigned_by"
  else "assigned_to".

Definition select_delegations : M (list Delegation) :=
  pool_query SQL_SELECT_DELEGATIONS [] (fun w =>
    (Ok (sort_desc (fun a b => timestamp_leb X (d_created_at a) (d_created_at b))
                   (w_delegations w)), w)).

Definition insert_delegation (ps : list SqlValue) : M (list Delegation) :=
  pool_query SQL_INSERT_DELEGATION (map PVal ps) (fun w =>
    let row := inserted_delegation (w_delegations_seq w) (w_now w) ps in
    let w' := next_delegation_id w in
    if violates_not_null row
    then (Throw (not_null_violation (null_column ps) "delegations"), w')
    else (Ok [row], set_delegations (w_delegations w ++ [row]) w')).

Definition update_delegation (ps : list SqlValue) (id : Z) : M unit :=
  pool_query SQL_UPDATE_DELEGATION (map PVal ps ++ [PInt id]) (fun w =>
    let rows :=
      map (fun d => if d_id d =? id then updated_delegation d ps else d) (w_delegations w) in
    if existsb violates_not_null
         (filter (fun d => d_id d =? id) rows)
    then (Throw (not_null_violation (null_column ps) "delegations"), w)
    else (Ok tt, set_delegations rows w)).

Definition delete_delegation (id : Z) : M unit :=
  pool_query SQL_DELETE_DELEGATION [PInt id] (fun w =>
    (Ok tt, set_delegations (filter (fun d => negb (d_id d =? id)) (w_delegations w)) w)).

Definition count_where (text : string) (params : list SqlParam) (p : Delegation -> bool)
    : M nat :=
  pool_query text params (fun w => (Ok (List.length (filter p (w_delegations w))), w)).

Definition top_performers : M (list (SqlValue * nat)) :=
  pool_query SQL_TOP_PERFORMERS [] (fun w =>
    (Ok (firstn 3
           (sort_desc (fun a b => Nat.leb (snd a) (snd b))
              (group_count
                 (map d_assigned_to (filter (has_status "Completed") (w_delegations w)))))),
     w)).

Definition recent_activity : M (list Delegation) :=
  pool_query SQL_RECENT_ACTIVITY [] (fun w =>
    (Ok (firstn 3
           (sort_desc (fun a b => timestamp_leb X (d_completed_at a) (d_completed_at b))
              (filter (has_status "Completed") (w_delegations w)))),
     w)).

(** *** Rows as JSON *)

Definition profile_json (u : User) : JsonValue :=
  JObj [("email", text_json (u_email u)); ("first_name", text_json (u_first_name u));
        ("last_name", text_json (u_last_name u)); ("phone", text_json (u_phone u));
        ("role", text_json (u_role u)); ("department", text_json (u_department u));
        ("bio", text_json (u_bio u))].

Definition delegation_json (d : Delegation) : JsonValue :=
  JObj [("id", JNum (Num.of_Z (d_id d)));
        ("task_name", text_json (d_task_name d));
        ("assigned_by", text_json (d_assigned_by d));
        ("assigned_to", text_json (d_assigned_to d));
        ("planned_date", typed_json "DATE" (d_planned_date d));
        ("priority", text_json (d_priority d));
        ("message", text_json (d_message d));
        ("attachments", typed_json "TEXT[]" (d_attachments d));
        ("assigned_pc", text_json (d_assigned_pc d));
        ("group_name", text_json (d_group_name d));
        ("notify_to", text_json (d_notify_to d));
        ("auditor", text_json (d_auditor d));
        ("make_attachment_mandatory", typed_json "BOOLEAN" (d_make_attachment_mandatory d));
        ("make_note_mandatory", typed_json "BOOLEAN" (d_make_note_mandatory d));
        ("notify_doer", text_json (d_notify_doer d));
        ("set_reminder", typed_json "BOOLEAN" (d_set_reminder d));
        ("reminder_mode", text_json (d_reminder_mode d));
        ("reminder_frequency", text_json (d_reminder_frequency d));
        ("reminder_before_days", typed_json "INTEGER" (d_reminder_before_days d));
        ("reminder_starting_time", text_json (d_reminder_starting_time d));
        ("status", text_json (d_status d));
        ("created_at", typed_json "TIMESTAMP" (d_created_at d));
        ("completed_at", typed_json "TIMESTAMP" (d_completed_at d));
        ("notes", text_json (d_notes d))].

(** *** The JWT middleware *)

(** [authHeader && authHeader.split(' ')[1]]: [None] is [undefined]. *)
Definition bearer_token (authHeader : option string) : option string :=
  match authHeader with
  | None => None
  | Some a => if String.eqb a "" then Some "" else nth_error (split_on " " a) 1
  end.

(** [!token]. *)
Definition token_missing (token : option string) : bool :=
  match token with
  | None => true
  | Some t => String.eqb t ""
  end.

Definition authenticateToken (req : Request) (next : Request -> M Response) : M Response :=
  fun w =>
    let token := bearer_token (req_authorization req) in
    if token_missing token
    then (Ok (status_json 401 (error_body "No token provided")), w)
    else
      match jwt_verify X (match token with Some t => t | None => "" end) JWT_SECRET (w_now w) with
      | Throw _ => (Ok (status_json 403 (error_body "Invalid token")), w)
      | Ok user => next (with_user user req) w
      end.

(** *** Credentials *)

Definition hash_password (data : JsonValue) (rounds : Z) : M string :=
  fun w => (bcrypt_hash X data rounds (w_seed w), next_seed w).

Definition register (req : Request) : M Response :=
  email <- lift (prop (req_body req) "email") ;;
  password <- lift (prop (req_body req) "password") ;;
  if (negb (truthy email) || negb (truthy password))%bool
  then ret (status_json 400 (error_body "Missing fields"))
  else
    try_catch
      (hashed <- hash_password password 10 ;;
       _ <- insert_user (prepareValue email) (Some hashed) ;;
       ret (json success_body))
      (fun err =>
         if code_is err "23505"
         then ret (status_json 409 (error_body "Email already exists"))
         else ret (status_json 500 (error_details "Server error" err))).

Definition login (req : Request) : M Response :=
  email <- lift (prop (req_body req) "email") ;;
  password <- lift (prop (req_body req) "password") ;;
  if (negb (truthy email) || negb (truthy password))%bool
  then ret (status_json 400 (error_body "Missing fields"))
  else
    try_catch
      (rows <- select_user (prepareValue email) ;;
       match rows with
       | [] => ret (status_json 401 (error_body "Invalid credentials"))
       | user :: _ =>
           matched <- lift (bcrypt_compare X password (text_json (u_password user))) ;;
           if negb matched
           then ret (status_json 401 (error_body "Invalid credentials"))
           else
             token <- (fun w =>
                         (jwt_sign X (JObj [("email", text_json (u_email user))])
                                   JWT_SECRET "1h" (w_now w), w)) ;;
             ret (json (JObj [("success", JBool true); ("token", JStr token)]))
       end)
      (fun _ => ret (status_json 500 (error_body "Server error"))).

(** *** Profiles *)

Definition get_profile (req : Request) : M Response :=
  email <- lift (prop (req_user req) "email") ;;
  try_catch
    (rows <- select_profile (prepareValue email) ;;
     match rows with
     | [] => ret (status_json 404 (error_body "User not found"))
     | u :: _ => ret (json (profile_json u))
     end)
    (fun _ => ret (status_json 500 (error_body "Server error"))).

Definition put_profile (req : Request) : M Response :=
  email <- lift (prop (req_user req) "email") ;;
  first_name <- lift (prop (req_body req) "first_name") ;;
  last_name <- lift (prop (req_body req) "last_name") ;;
  phone <- lift (prop (req_body req) "phone") ;;
  role <- lift (prop (req_body req) "role") ;;
  department <- lift (prop (req_body req) "department") ;;
  bio <- lift (prop (req_body req) "bio") ;;
  try_catch
    (_ <- update_profile (prepareValue first_name) (prepareValue last_name)
            (prepareValue phone) (prepareValue role) (prepareValue department)
            (prepareValue bio) (prepareValue email) ;;
     ret (json success_body))
    (fun _ => ret (status_json 500 (error_body "Server error"))).

Definition change_password (req : Request) : M Response :=
  email <- lift (prop (req_user req) "email") ;;
  currentPassword <- lift (prop (req_body req) "currentPassword") ;;
  newPassword <- lift (prop (req_body req) "newPassword") ;;
  if (negb (truthy currentPassword) || negb (truthy newPassword))%bool
  then ret (status_json 400 (error_body "Missing fields"))
  else
    try_catch
      (rows <- select_user (prepareValue email) ;;
       match rows with
       | [] => ret (status_json 404 (error_body "User not found"))
       | user :: _ =>
           matched <- lift (bcrypt_compare X currentPassword (text_json (u_password user))) ;;
           if negb matched
           then ret (status_json 401 (error_body "Invalid current password"))
           else
             hashed <- hash_password newPassword 10 ;;
             _ <- update_password (Some hashed) (prepareValue email) ;;
             ret (json success_body)
       end)
      (fun _ => ret (status_json 500 (error_body "Server error"))).

(** *** Delegations *)

(** The shapes of the entries of the two parameter arrays. *)
Inductive ParamExpr : Type :=
| Field (k : string)          (* d.k *)
| FieldOrEmpty (k : string)   (* d.k || [] *)
| EmailOf (k : string)        (* d.k?.email || null *)
| NamesOf (k : string).       (* Array.isArray(d.k) ? d.k.map(f => f.name || f) : [] *)

Fixpoint mapR {A B : Type} (f : A -> JsResult B) (xs : list A) : JsResult (list B) :=
  match xs with
  | [] => Ok []
  | x :: rest =>
      match f x with
      | Throw e => Throw e
      | Ok y => match mapR f rest with
                | Throw e => Throw e
                | Ok ys => Ok (y :: ys)
                end
      end
  end.

(** [f => f.name || f]. *)
Definition name_or_self (f : JsonValue) : JsResult JsonValue :=
  match prop f "name" with
  | Throw e => Throw e
  | Ok n => Ok (js_or n f)
  end.

Definition eval_param (d : JsonValue) (e : ParamExpr) : JsResult JsonValue :=
  match e with
  | Field k => prop d k
  | FieldOrEmpty k =>
      match prop d k with
      | Throw err => Throw err
      | Ok v => Ok (js_or v (JArr []))
      end
  | EmailOf k =>
      match prop d k with
      | Throw err => Throw err
      | Ok v => Ok (js_or (opt_prop v "email") JNull)
      end
  | NamesOf k =>
      match prop d k with
      | Throw err => Throw err
      | Ok (JArr items) =>
          match mapR name_or_self items with
          | Throw err => Throw err
          | Ok names => Ok (JArr names)
          end
      | Ok _ => Ok (JArr [])
      end
  end.

Definition CREATE_PARAMS : list ParamExpr :=
  [Field "taskName"; Field "assignedBy"; Field "assignedTo"; Field "plannedDate";
   Field "priority"; Field "message"; FieldOrEmpty "attachments"; Field "assignedPC";
   Field "groupName"; Field "notifyTo"; Field "auditor"; Field "makeAttachmentMandatory";
   Field "makeNoteMandatory"; Field "notifyDoer"; Field "setReminder"; Field "reminderMode";
   Field "reminderFrequency"; Field "reminderBeforeDays"; Field "reminderStartingTime";
   Field "status"; Field "notes"].

Definition UPDATE_PARAMS : list ParamExpr :=
  [Field "taskName"; EmailOf "assignedBy"; EmailOf "assignedTo"; Field "plannedDate";
   Field "priority"; Field "message"; NamesOf "attachments"; Field "assignedPC";
   Field "groupName"; EmailOf "notifyTo"; EmailOf "auditor"; Field "makeAttachmentMandatory";
   Field "makeNoteMandatory"; Field "notifyDoer"; Field "setReminder"; Field "reminderMode";
   Field "reminderFrequency"; Field "reminderBeforeDays"; Field "reminderStartingTime";
   Field "status"; Field "completedAt"; Field "notes"].

(** The parameter array of a statement, each entry as the driver sends it. *)
Definition params_of (exprs : list ParamExpr) (d : JsonValue) : JsResult (list SqlValue) :=
  match mapR (eval_param d) exprs with
  | Throw e => Throw e
  | Ok vs => Ok (map prepareValue vs)
  end.

Definition get_delegations (req : Request) : M Response :=
  try_catch
    (rows <- select_delegations ;;
     ret (json (JArr (map delegation_json rows))))
    (fun _ => ret (status_json 500 (error_body "Server error"))).

Definition post_delegations (req : Request) : M Response :=
  let d := req_body req in
  try_catch
    (ps <- lift (params_of CREATE_PARAMS d) ;;
     rows <- insert_delegation ps ;;
     ret (json (match rows with
                | row :: _ => delegation_json row
                | [] => JUndefined
                end)))
    (fun err => ret (status_json 500 (error_details "Server error" err))).

Definition put_delegation (req : Request) : M Response :=
  let id := req_id req in
  let d := req_body req in
  try_catch
    (ps <- lift (params_of UPDATE_PARAMS d) ;;
     _ <- update_delegation ps id ;;
     ret (json success_body))
    (fun err => ret (status_json 500 (error_details "Server error" err))).

Definition delete_delegation_handler (req : Request) : M Response :=
  let id := req_id req in
  try_catch
    (_ <- delete_delegation id ;;
     ret (json success_body))
    (fun err => ret (status_json 500 (error_details "Server error" err))).

(** *** Analytics *)

(** [x || ''] for a text column. *)
Definition or_empty (v : SqlValue) : string :=
  match v with
  | Some s => s
  | None => ""
  end.

(** [`${u.first_name || ''} ${u.last_name || ''}`.trim()]. *)
Definition full_name (u : User) : string :=
  trim (or_empty (u_first_name u) ++ " " ++ or_empty (u_last_name u)).

(** [userRes.rows[0] ? `...`.trim() : row.assigned_to]. *)
Definition display_name (rows : list User) (assignee : SqlValue) : JsonValue :=
  match rows with
  | u :: _ => JStr (full_name u)
  | [] => text_json assignee
  end.

Definition top_performer_entry (row : SqlValue * nat) : M JsonValue :=
  userRes <- select_names (prepareValue (text_json (fst row))) ;;
  ret (JObj [("name", display_name userRes (fst row));
             ("completed", JNum (Num.of_nat (snd row)))]).

Definition recent_activity_entry (row : Delegation) : M JsonValue :=
  userRes <- select_names (prepareValue (text_json (d_assigned_to row))) ;;
  ret (JObj [("task", text_json (d_task_name row));
             ("user", display_name userRes (d_assigned_to row));
             ("date", typed_json "TIMESTAMP" (d_completed_at row))]).

Definition get_analytics (req : Request) : M Response :=
  try_catch
    (total <- count_where SQL_COUNT_ALL [] (fun _ => true) ;;
     completed <- count_where SQL_COUNT_COMPLETED [] (has_status "Completed") ;;
     pending <- count_where SQL_COUNT_PENDING [] (has_status "Pending") ;;
     overdue <- count_where SQL_COUNT_OVERDUE [] (has_status "Overdue") ;;
     topPerformersResult <- top_performers ;;
     topPerformers <- mapM top_performer_entry topPerformersResult ;;
     recentActivityResult <- recent_activity ;;
     recentActivity <- mapM recent_activity_entry recentActivityResult ;;
     ret (json (JObj [("totalDelegations", JNum (Num.of_nat total));
                      ("completedDelegations", JNum (Num.of_nat completed));
                      ("pendingDelegations", JNum (Num.of_nat pending));
                      ("overdueDelegations", JNum (Num.of_nat overdue));
                      ("topPerformers", JArr topPerformers);
                      ("recentActivity", JArr recentActivity)])))
    (fun err => ret (status_json 500 (error_details "Server error" err))).

(** *** Team *)

(** [totalTasks > 0 ? Math.round((completedTasks / totalTasks) * 100) : 0]. *)
Definition performanceScore (totalTasks completedTasks : spec_float) : spec_float :=
  if Num.gtb totalTasks (Num.of_Z 0)
  then Num.round (Num.mul (Num.div completedTasks totalTasks) (Num.of_Z 100))
  else Num.of_Z 0.

Definition team_entry (user : User) : M JsonValue :=
  let email := prepareValue (text_json (u_email user)) in
  assigned <- count_where SQL_COUNT_ASSIGNED [PVal email] (assigned_to email) ;;
  completed <- count_where SQL_COUNT_ASSIGNED_COMPLETED [PVal email]
                 (fun d => assigned_to email d && has_status "Completed" d)%bool ;;
  inProgress <- count_where SQL_COUNT_ASSIGNED_IN_PROGRESS [PVal email]
                  (fun d => assigned_to email d && has_status "In Progress" d)%bool ;;
  pending <- count_where SQL_COUNT_ASSIGNED_PENDING [PVal email]
               (fun d => assigned_to email d && has_status "Pending" d)%bool ;;
  overdue <- count_where SQL_COUNT_ASSIGNED_OVERDUE [PVal email]
               (fun d => assigned_to email d && has_status "Overdue" d)%bool ;;
  let totalTasks := Num.of_nat assigned in
  let completedTasks := Num.of_nat completed in
  ret (JObj [("id", text_json (u_email user));
             ("name", js_or (JStr (full_name user)) (text_json (u_email user)));
             ("email", text_json (u_email user));
             ("role", text_json (u_role user));
             ("department", text_json (u_department user));
             ("phone", text_json (u_phone user));
             ("status", JStr "Active");
             ("tasksAssigned", JNum totalTasks);
             ("tasksCompleted", JNum completedTasks);
             ("tasksInProgress", JNum (Num.of_nat inProgress));
             ("tasksPending", JNum (Num.of_nat pending));
             ("tasksOverdue", JNum (Num.of_nat overdue));
             ("performanceScore", JNum (performanceScore totalTasks completedTasks))]).

Definition get_team (req : Request) : M Response :=
  try_catch
    (usersResult <- select_users ;;
     users <- mapM team_entry usersResult ;;
     ret (json (JArr users)))
    (fun err => ret (status_json 500 (error_details "Server error" err))).

(** *** The route table *)

Inductive Route : Type :=
| POST_register
| POST_login
| GET_profile
| PUT_profile
| POST_change_password
| GET_delegations
| POST_delegations
| PUT_delegations_id
| DELETE_delegations_id
| GET_analytics
| GET_team.

(** Each route with the middleware chain it was registered with. *)
Definition dispatch (r : Route) (req : Request) : M Response :=
  match r with
  | POST_register => register req
  | POST_login => login req
  | GET_profile => authenticateToken req get_profile
  | PUT_profile => authenticateToken req put_profile
  | POST_change_password => authenticateToken req change_password
  | GET_delegations => get_delegations req
  | POST_delegations => post_delegations req
  | PUT_delegations_id => put_delegation req
  | DELETE_delegations_id => delete_delegation_handler req
  | GET_analytics => get_analytics req
  | GET_team => get_team req
  end.

End Server.

(** The routes the server registers with [authenticateToken]. *)
Definition token_protected (r : Route) : bool :=
  match r with
  | GET_profile | PUT_profile | POST_change_password => true
  | _ => false
  end.

(** The delegation CRUD routes and the two reporting routes. *)
Definition open_route (r : Route) : bool :=
  match r with
  | GET_delegations | POST_delegations | PUT_delegations_id | DELETE_delegations_id
  | GET_analytics | GET_team => true
  | _ => false
  end.

(** ** Sample collaborators and stores

    One concrete choice of the collaborators and a few small stores, on
    which the handlers can be run. *)

Definition sample_externals : Externals :=
  mkExternals
    (fun _ => "{}")
    (fun _ s => JStr s)
    (fun a b => String.leb (or_empty a) (or_empty b))
    (fun data _ _ =>
       match data with
       | JStr s => Ok ("hash:" ++ s)
       | _ => Throw (mkError None "data must be a string")
       end)
    (fun data hash =>
       match data, hash with
       | JStr s, JStr h => Ok (String.eqb ("hash:" ++ s) h)
       | _, _ => Throw (mkError None "data and hash must be strings")
       end)
    (fun payload _ _ _ =>
       match opt_prop payload "email" with
       | JStr e => Ok ("jwt." ++ e)
       | _ => Throw (mkError None "invalid payload")
       end)
    (fun token _ _ =>
       if String.prefix "jwt." token
       then Ok (JObj [("email", JStr (String.substring 4 (String.length token - 4) token))])
       else Throw (mkError None "jwt malformed"))
    None.

Definition sample_user (id : Z) (email : string) (first last : SqlValue) : User :=
  mkUser id (Some email) (Some "hash:pw1") first last None None None None.

Definition sample_delegation (id : Z) (assignee status : string) : Delegation :=
  mkDelegation id (Some "Quarterly report") (Some "boss@x.com") (Some assignee)
    None None None None None None None None None None None None None None None None
    (Some status) (Some "2024-01-01 09:00:00") None None.

Definition sample_world : World :=
  mkWorld
    [sample_user 1 "a@x.com" None None; sample_user 2 "b@x.com" (Some "Bea") (Some "Li")]
    [sample_delegation 1 "a@x.com" "Completed"; sample_delegation 2 "a@x.com" "Pending";
     sample_delegation 3 "c@x.com" "In Progress"]
    3 4 "2024-02-01 12:00:00" 0 [] [].

Definition empty_world : World := mkWorld [] [] 1 1 "2024-02-01 12:00:00" 0 [] [].

Definition request (authorization : option string) (body : JsonValue) (id : Z) : Request :=
  mkRequest authorization body id JUndefined.

Definition credentials (email password : string) : JsonValue :=
  JObj [("email", JStr email); ("password", JStr password)].

(** An update body whose [notifyTo] is the given value. *)
Definition update_body (notifyTo : JsonValue) : JsonValue :=
  JObj [("taskName", JStr "Quarterly report");
        ("assignedBy", JObj [("email", JStr "boss@x.com")]);
        ("assignedTo", JObj [("email", JStr "a@x.com")]);
        ("notifyTo", notifyTo);
        ("status", JStr "Pending")].

(** The first stored delegation with the given id. *)
Definition find_delegation (id : Z) (w : World) : option Delegation :=
  find (fun d => d_id d =? id) (w_delegations w).

(** What a successful update leaves in a participant column, in terms of
    the value the caller supplied: the [email] member of an object when it
    is truthy, [NULL] in every other case. *)
Definition normalized_participant (X : Externals) (supplied : JsonValue) : SqlValue :=
  match supplied with
  | JObj fields =>
      if truthy (lookup_field "email" fields)
      then prepareValue X (lookup_field "email" fields)
      else None
  | _ => None
  end.

(** The statuses the analytics summary counts. *)
Definition summary_status (d : Delegation) : bool :=
  (has_status "Completed" d || has_status "Pending" d || has_status "Overdue" d)%bool.

(** The score of a user with the given counts, as a percentage. *)
Definition score_of_counts (assigned completed : nat) : spec_float :=
  if (0 <? assigned)%nat
  then Num.round (Num.mul (Num.div (Num.of_nat completed) (Num.of_nat assigned)) (Num.of_Z 100))
  else Num.of_Z 0.

Definition assigned_count (email : SqlValue) (ds : list Delegation) : nat :=
  List.length (filter (assigned_to email) ds).

Definition completed_count (email : SqlValue) (ds : list Delegation) : nat :=
  List.length (filter (fun d => assigned_to email d && has_status "Completed" d)%bool ds).

(** A handler of the shape [try { ...; res.json(x) } catch { res.status(500)... }]
    always answers, with 200 or 500. *)
Definition answers_200_or_500 (c : M Response) : Prop :=
  forall w, exists resp w',
    c w = (Ok resp, w') /\ (res_status resp = 200 \/ res_status resp = 500).

(** The two tables are the same in both worlds. *)
Definition same_tables (w w' : World) : Prop :=
  w_users w' = w_users w /\ w_delegations w' = w_delegations w.

(** The record [/team] reports for a user, over a given [delegations] table. *)
Definition team_row (ds : list Delegation) (user : User) : JsonValue :=
  let email := u_email user in
  let totalTasks := Num.of_nat (assigned_count email ds) in
  let completedTasks := Num.of_nat (completed_count email ds) in
  JObj [("id", text_json email);
        ("name", js_or (JStr (full_name user)) (text_json email));
        ("email", text_json email);
        ("role", text_json (u_role user));
        ("department", text_json (u_department user));
        ("phone", text_json (u_phone user));
        ("status", JStr "Active");
        ("tasksAssigned", JNum totalTasks);
        ("tasksCompleted", JNum completedTasks);
        ("tasksInProgress",
         JNum (Num.of_nat (List.length
                 (filter (fun d => assigned_to email d && has_status "In Progress" d)%bool ds))));
        ("tasksPending",
         JNum (Num.of_nat (List.length
                 (filter (fun d => assigned_to email d && has_status "Pending" d)%bool ds))));
        ("tasksOverdue",
         JNum (Num.of_nat (List.length
                 (filter (fun d => assigned_to email d && has_status "Overdue" d)%bool ds))));
        ("performanceScore", JNum (performanceScore totalTasks completedTasks))].

(** ** Vocabulary of the further properties *)

(** [c] keeps the property [I] of the world, whatever its outcome. *)
Definition preserves {A : Type} (I : World -> Prop) (c : M A) : Prop :=
  forall w, I w -> I (snd (c w)).

(** A property of the world that issuing a statement and drawing a salt
    do not affect. *)
Definition stable (I : World -> Prop) : Prop :=
  (forall q w, I w -> I (issue q w)) /\ (forall w, I w -> I (next_seed w)).

Definition tables_are (us : list User) (ds : list Delegation) (w : World) : Prop :=
  w_users w = us /\ w_delegations w = ds.

(** The routes whose handlers only read. *)
Definition reading_route (r : Route) : bool :=
  match r with
  | POST_login | GET_profile | GET_delegations | GET_analytics | GET_team => true
  | _ => false
  end.

(** What the constraints of the two tables promise: emails and ids are
    unique, ids come from the sequences, and no [NOT NULL] column is null. *)
Definition wf_store (w : World) : Prop :=
  NoDup (map u_email (w_users w))
  /\ NoDup (map u_id (w_users w))
  /\ Forall (fun u => u_email u <> None /\ u_password u <> None /\ u_id u < w_users_seq w)
            (w_users w)
  /\ NoDup (map d_id (w_delegations w))
  /\ Forall (fun d => d_id d < w_delegations_seq w /\ violates_not_null d = false)
            (w_delegations w).

(** The server answering a sequence of requests, one after the other. *)
Fixpoint serve (X : Externals) (requests : list (Route * Request)) (w : World) : World :=
  match requests with
  | [] => w
  | (r, req) :: rest => serve X rest (snd (dispatch X r req w))
  end.

(** [f => f.name || f] on an entry that is neither [null] nor [undefined]. *)
Definition attachment_name (f : JsonValue) : JsonValue := js_or (opt_prop f "name") f.

Definition is_nullish (v : JsonValue) : bool :=
  match v with
  | JUndefined | JNull => true
  | _ => false
  end.

(** Greatest first, for the order [le]. *)
Definition descending {A : Type} (le : A -> A -> bool) (l : list A) : Prop :=
  Sorted (fun x y => le y x = true) l.

(** The order is total. *)
Definition total_order {A : Type} (le : A -> A -> bool) : Prop :=
  forall a b, le a b = true \/ le b a = true.

(** The number of completed delegations of an assignee. *)
Definition completed_by (assignee : SqlValue) (ds : list Delegation) : nat :=
  List.length (filter (fun d => sql_same assignee (d_assigned_to d))
                      (filter (has_status "Completed") ds)).

(** The count [group_count] holds for a key, 0 when it has no group. *)
Definition group_of (k : SqlValue) (groups : list (SqlValue * nat)) : nat :=
  match find (fun g => sql_same k (fst g)) groups with
  | Some g => snd g
  | None => 0%nat
  end.

(** The rows the top-performers statement returns. *)
Definition top_rows (ds : list Delegation) : list (SqlValue * nat) :=
  firstn 3
    (sort_desc (fun a b => Nat.leb (snd a) (snd b))
       (group_count (map d_assigned_to (filter (has_status "Completed") ds)))).

(** The rows the recent-activity statement returns. *)
Definition recent_rows (X : Externals) (ds : list Delegation) : list Delegation :=
  firstn 3
    (sort_desc (fun a b => timestamp_leb X (d_completed_at a) (d_completed_at b))
       (filter (has_status "Completed") ds)).

Definition top_entry_json (us : list User) (row : SqlValue * nat) : JsonValue :=
  JObj [("name", display_name (users_by_email (fst row) us) (fst row));
        ("completed", JNum (Num.of_nat (snd row)))].

Definition recent_entry_json (X : Externals) (us : list User) (row : Delegation) : JsonValue :=
  JObj [("task", text_json (d_task_name row));
        ("user", display_name (users_by_email (d_assigned_to row) us) (d_assigned_to row));
        ("date", typed_json X "TIMESTAMP" (d_completed_at row))].

(** Only white space, or nothing at all. *)
Definition blank (s : string) : bool := forallb is_space (list_ascii_of_string s).

(** No separator in the string. *)
Definition spaceless (s : string) : bool :=
  forallb (fun a => negb (Ascii.eqb a " ")) (list_ascii_of_string s).

(** The statuses the team report counts. *)
Definition team_status (d : Delegation) : bool :=
  (has_status "Completed" d || has_status "In Progress" d
   || has_status "Pending" d || has_status "Overdue" d)%bool.

(** The request of a user the middleware has let through. *)
Definition authenticated (email : string) (body : JsonValue) : Request :=
  mkRequest None body 0 (JObj [("email", JStr email)]).

Definition new_delegation_body : JsonValue :=
  JObj [("taskName", JStr "Audit"); ("assignedBy", JStr "boss@x.com");
        ("assignedTo", JStr "b@x.com"); ("status", JStr "Pending")].

(** The sample store at a moment when it cannot be reached. *)
Definition unreachable_store : World :=
  mkWorld (w_users sample_world) (w_delegations sample_world) 3 4 "2024-02-01 12:00:00" 0
          [Some (mkError (Some "08006") "connection failure")] [].

(** A delegation completed at the given time. *)
Definition completed_delegation (id : Z) (task assignee completed : string) : Delegation :=
  mkDelegation id (Some task) (Some "boss@x.com") (Some assignee)
    None None None None None None None None None None None None None None None None
    (Some "Completed") (Some "2024-01-01 09:00:00") (Some completed) None.

(** A store with four assignees that completed four, three, two and one
    delegation, ten in all, in no particular order in the table. *)
Definition busy_world : World :=
  mkWorld
    [sample_user 1 "a@x.com" (Some "Ann") (Some "Roe");
     sample_user 2 "b@x.com" (Some "Bea") (Some "Li");
     sample_user 3 "c@x.com" (Some "Cy") (Some "Day")]
    [completed_delegation 1 "Plan" "d@x.com" "2024-01-05 10:00:00";
     completed_delegation 2 "Audit" "a@x.com" "2024-01-09 10:00:00";
     completed_delegation 3 "Survey" "c@x.com" "2024-01-02 10:00:00";
     completed_delegation 4 "Budget" "b@x.com" "2024-01-07 10:00:00";
     completed_delegation 5 "Release" "c@x.com" "2024-01-11 10:00:00";
     completed_delegation 6 "Draft" "a@x.com" "2024-01-03 10:00:00";
     completed_delegation 7 "Review" "a@x.com" "2024-01-04 10:00:00";
     completed_delegation 8 "Migration" "c@x.com" "2024-01-10 10:00:00";
     completed_delegation 9 "Training" "b@x.com" "2024-01-08 10:00:00";
     completed_delegation 10 "Inventory" "c@x.com" "2024-01-06 10:00:00";
     sample_delegation 11 "d@x.com" "Pending";
     sample_delegation 12 "b@x.com" "In Progress"]
    4 13 "2024-02-01 12:00:00" 0 [] [].

(** Collaborators whose [jwt.verify] gives the payload as the library does
    for a token signed with [expiresIn]: the signed member beside the times
    of issue and of expiry, one hour apart. *)
Definition dated_externals : Externals :=
  mkExternals
    (pg_text sample_externals)
    (pg_typed sample_externals)
    (timestamp_leb sample_externals)
    (bcrypt_hash sample_externals)
    (bcrypt_compare sample_externals)
    (jwt_sign sample_externals)
    (fun token _ _ =>
       if String.prefix "jwt." token
       then Ok (JObj [("email", JStr (String.substring 4 (String.length token - 4) token));
                      ("iat", JNum (Num.of_Z 1706788800));
                      ("exp", JNum (Num.of_Z 1706792400))])
       else Throw (mkError None "jwt malformed"))
    (env_JWT_SECRET sample_externals).

(** ** Properties *)

(** *** The monad *)

Lemma bind_ok_inv {A B : Type} (c : M A) (k : A -> M B) (w w' : World) (b : B) :
  bind c k w = (Ok b, w') ->
  exists a w1, c w = (Ok a, w1) /\ k a w1 = (Ok b, w').
Proof.
  unfold bind. destruct (c w) as [[a | e] w1]; intros H.
  - exists a, w1. split; [reflexivity | exact H].
  - discriminate H.
Qed.

Lemma bind_ok {A B : Type} (c : M A) (k : A -> M B) (w w1 : World) (a : A) :
  c w = (Ok a, w1) -> bind c k w = k a w1.
Proof. unfold bind. intros ->. reflexivity. Qed.

Lemma pool_query_runs {A : Type} (text : string) (params : list SqlParam)
    (run : World -> JsResult A * World) (w : World) :
  next_fault w = None ->
  pool_query text params run w = run (issue (mkSql text params) w).
Proof. unfold pool_query. intros ->. reflexivity. Qed.

Lemma pool_query_refused {A : Type} (text : string) (params : list SqlParam)
    (run : World -> JsResult A * World) (w : World) (e : JsError) :
  next_fault w = Some e ->
  pool_query text params run w = (Throw e, issue (mkSql text params) w).
Proof. unfold pool_query. intros ->. reflexivity. Qed.

Lemma try_catch_answers (c : M Response) (h : JsError -> M Response) :
  (forall w resp w', c w = (Ok resp, w') -> res_status resp = 200) ->
  (forall e w, exists resp, h e w = (Ok resp, w) /\ res_status resp = 500) ->
  answers_200_or_500 (try_catch c h).
Proof.
  intros Hc Hh w. unfold try_catch.
  destruct (c w) as [[resp | e] w1] eqn:E.
  - exists resp, w1. split; [reflexivity | left; eapply Hc; eassumption].
  - destruct (Hh e w1) as (resp & -> & Hs). exists resp, w1. auto.
Qed.

Ltac bind_inv H :=
  let a := fresh "a" in
  let w1 := fresh "w1" in
  let E := fresh "E" in
  apply bind_ok_inv in H; destruct H as (a & w1 & E & H).

Ltac ret_inv H :=
  unfold ret in H; injection H as <- <-.

(** *** Routes registered without the middleware *)

Tactic Notation "answers_by_try_catch" integer(n) :=
  apply try_catch_answers;
  [ let H := fresh "H" in
    intros ? ? ? H; do n (bind_inv H); ret_inv H; reflexivity
  | intros ? ?; eexists; split; reflexivity ].

Lemma get_delegations_answers X req : answers_200_or_500 (get_delegations X req).
Proof. unfold get_delegations. answers_by_try_catch 1. Qed.

Lemma post_delegations_answers X req : answers_200_or_500 (post_delegations X req).
Proof. unfold post_delegations. answers_by_try_catch 2. Qed.

Lemma put_delegation_answers X req : answers_200_or_500 (put_delegation X req).
Proof. unfold put_delegation. answers_by_try_catch 2. Qed.

Lemma delete_delegation_answers req : answers_200_or_500 (delete_delegation_handler req).
Proof. unfold delete_delegation_handler. answers_by_try_catch 1. Qed.

Lemma get_analytics_answers X req : answers_200_or_500 (get_analytics X req).
Proof. unfold get_analytics. answers_by_try_catch 8. Qed.

Lemma get_team_answers X req : answers_200_or_500 (get_team X req).
Proof. unfold get_team. answers_by_try_catch 2. Qed.

Lemma open_route_answers X r req :
  open_route r = true -> answers_200_or_500 (dispatch X r req).
Proof.
  destruct r; simpl; intros Hr; try discriminate Hr.
  - apply get_delegations_answers.
  - apply post_delegations_answers.
  - apply put_delegation_answers.
  - apply delete_delegation_answers.
  - apply get_analytics_answers.
  - apply get_team_answers.
Qed.

(** C2. On the delegation CRUD routes and on [/analytics] and [/team] the
    answer and the new store depend on the body and the id only: two
    requests that differ in the authorization header (or in anything the
    middleware would have set) are answered alike, and the answer is never
    401 or 403. *)
Theorem open_routes_ignore_authorization :
  forall (X : Externals) (r : Route) (req1 req2 : Request) (w : World),
    open_route r = true ->
    req_body req1 = req_body req2 ->
    req_id req1 = req_id req2 ->
    dispatch X r req1 w = dispatch X r req2 w
    /\ exists resp w',
         dispatch X r req1 w = (Ok resp, w')
         /\ res_status resp <> 401 /\ res_status resp <> 403.
Proof.
  intros X r req1 req2 w Hr Hbody Hid. split.
  - destruct r; simpl in Hr; try discriminate Hr; simpl;
      unfold get_delegations, post_delegations, put_delegation,
             delete_delegation_handler, get_analytics, get_team;
      rewrite ?Hbody, ?Hid; reflexivity.
  - destruct (open_route_answers X r req1 Hr w) as (resp & w' & E & Hs).
    exists resp, w'. split; [exact E | ].
    destruct Hs as [-> | ->]; split; discriminate.
Qed.

Lemma open_routes_ignore_authorization_witness :
  dispatch sample_externals GET_team (request None JNull 0) sample_world
  = dispatch sample_externals GET_team
      (request (Some "Bearer forged") JNull 0) sample_world.
Proof.
  apply (proj1 (open_routes_ignore_authorization sample_externals GET_team
                  (request None JNull 0) (request (Some "Bearer forged") JNull 0)
                  sample_world eq_refl eq_refl eq_refl)).
Defined.

(** *** Deleting a delegation *)

Lemma filter_keeps_all {A : Type} (p : A -> bool) (l : list A) :
  (forall x, In x l -> p x = true) -> filter p l = l.
Proof.
  induction l as [| x l IH]; simpl; intros H; [reflexivity | ].
  rewrite (H x (or_introl eq_refl)). f_equal. apply IH. intros y Hy. apply H. now right.
Qed.

Lemma filter_twice {A : Type} (p : A -> bool) (l : list A) :
  filter p (filter p l) = filter p l.
Proof.
  apply filter_keeps_all. intros x Hx. apply filter_In in Hx. tauto.
Qed.

Lemma delete_delegation_handler_runs (req : Request) (w : World) :
  next_fault w = None ->
  delete_delegation_handler req w
  = (Ok (json success_body),
     set_delegations (filter (fun d => negb (d_id d =? req_id req)) (w_delegations w))
                     (issue (mkSql SQL_DELETE_DELEGATION [PInt (req_id req)]) w)).
Proof.
  intros Hf. unfold delete_delegation_handler, try_catch, bind, delete_delegation.
  rewrite (pool_query_runs _ _ _ _ Hf). reflexivity.
Qed.

(** C9. Provided the store executes the statement, deleting by id answers
    success for every id, whether or not a row has it; the only rows removed
    are those with that id, so the table is unchanged when there is none;
    and deleting the same id again changes nothing more. *)
Theorem delete_is_unconditional :
  forall (req : Request) (w : World),
    next_fault w = None ->
    exists w',
      delete_delegation_handler req w = (Ok (json success_body), w')
      /\ w_users w' = w_users w
      /\ w_delegations w' = filter (fun d => negb (d_id d =? req_id req)) (w_delegations w)
      /\ ((forall d, In d (w_delegations w) -> d_id d <> req_id req) ->
          w_delegations w' = w_delegations w)
      /\ (next_fault w' = None ->
          exists w'',
            delete_delegation_handler req w' = (Ok (json success_body), w'')
            /\ w_delegations w'' = w_delegations w').
Proof.
  intros req w Hf. eexists. split; [apply delete_delegation_handler_runs; exact Hf | ].
  simpl. repeat split.
  - intros Hnone. apply filter_keeps_all. intros d Hd.
    apply negb_true_iff, Z.eqb_neq. apply Hnone. exact Hd.
  - intros Hf'. eexists. split; [apply delete_delegation_handler_runs; exact Hf' | ].
    simpl. apply filter_twice.
Qed.

Lemma delete_is_unconditional_witness :
  exists w',
    delete_delegation_handler (request None JNull 99) sample_world
    = (Ok (json success_body), w')
    /\ w_delegations w' = w_delegations sample_world.
Proof.
  destruct (delete_is_unconditional (request None JNull 99) sample_world eq_refl)
    as (w' & E & _ & _ & Hsame & _).
  exists w'. split; [exact E | ].
  apply Hsame. simpl. intros d [<- | [<- | [<- | []]]]; discriminate.
Defined.

(** *** Reading the tables *)

Lemma same_tables_refl (w : World) : same_tables w w.
Proof. split; reflexivity. Qed.

Lemma same_tables_trans (w1 w2 w3 : World) :
  same_tables w1 w2 -> same_tables w2 w3 -> same_tables w1 w3.
Proof. unfold same_tables. intros [H1 H2] [H3 H4]. split; congruence. Qed.

Lemma prepareValue_text_json (X : Externals) (v : SqlValue) :
  prepareValue X (text_json v) = v.
Proof. destruct v; reflexivity. Qed.

Lemma count_where_inv (text : string) (params : list SqlParam) (p : Delegation -> bool)
    (w w' : World) (n : nat) :
  count_where text params p w = (Ok n, w') ->
  n = List.length (filter p (w_delegations w)) /\ same_tables w w'.
Proof.
  unfold count_where, pool_query. destruct (next_fault w); intros H; [discriminate H | ].
  injection H as <- <-. split; [reflexivity | split; reflexivity].
Qed.

Lemma select_users_inv (w w' : World) (us : list User) :
  select_users w = (Ok us, w') -> us = w_users w /\ same_tables w w'.
Proof.
  unfold select_users, pool_query. destruct (next_fault w); intros H; [discriminate H | ].
  injection H as <- <-. split; [reflexivity | split; reflexivity].
Qed.

(** [Promise.all] over callbacks that only read the tables. *)
Lemma mapM_reads {A B : Type} (f : A -> M B) (g : list User -> list Delegation -> A -> B) :
  (forall x w y w',
      f x w = (Ok y, w') -> y = g (w_users w) (w_delegations w) x /\ same_tables w w') ->
  forall xs w ys w',
    mapM f xs w = (Ok ys, w') ->
    ys = map (g (w_users w) (w_delegations w)) xs /\ same_tables w w'.
Proof.
  intros Hf. induction xs as [| x xs IH]; simpl; intros w ys w' H.
  - ret_inv H. split; [reflexivity | apply same_tables_refl].
  - bind_inv H. bind_inv H. ret_inv H.
    destruct (Hf _ _ _ _ E) as [-> Hs1].
    destruct (IH _ _ _ E0) as [-> Hs2].
    destruct Hs1 as [Hu Hd]. rewrite Hu, Hd.
    split; [reflexivity | eapply same_tables_trans; [split; eassumption | exact Hs2]].
Qed.

(** With no failure scheduled every statement runs. *)

Lemma count_where_runs (text : string) (params : list SqlParam) (p : Delegation -> bool)
    (w : World) :
  w_faults w = [] ->
  exists w',
    count_where text params p w = (Ok (List.length (filter p (w_delegations w))), w')
    /\ w_faults w' = [] /\ same_tables w w'.
Proof.
  intros Hf. unfold count_where, pool_query, next_fault. rewrite Hf.
  eexists. split; [reflexivity | ]. simpl. rewrite Hf. repeat split.
Qed.

Lemma mapM_runs {A B : Type} (f : A -> M B) (g : list User -> list Delegation -> A -> B) :
  (forall x w,
      w_faults w = [] ->
      exists w', f x w = (Ok (g (w_users w) (w_delegations w) x), w')
                 /\ w_faults w' = [] /\ same_tables w w') ->
  forall xs w,
    w_faults w = [] ->
    exists w', mapM f xs w = (Ok (map (g (w_users w) (w_delegations w)) xs), w')
               /\ w_faults w' = [] /\ same_tables w w'.
Proof.
  intros Hf. induction xs as [| x xs IH]; simpl; intros w Hw.
  - exists w. repeat split. exact Hw.
  - destruct (Hf x w Hw) as (w1 & E1 & H1 & [Hu1 Hd1]).
    destruct (IH w1 H1) as (w2 & E2 & H2 & [Hu2 Hd2]).
    exists w2. split; [ | split; [exact H2 | split; congruence]].
    rewrite (bind_ok _ _ _ _ _ E1), (bind_ok _ _ _ _ _ E2), Hu1, Hd1. reflexivity.
Qed.

Lemma next_fault_none (w : World) : w_faults w = [] -> next_fault w = None.
Proof. unfold next_fault. intros ->. reflexivity. Qed.

Lemma top_performer_entry_runs (X : Externals) (row : SqlValue * nat) (w : World) :
  next_fault w = None ->
  top_performer_entry X row w
  = (Ok (JObj [("name", display_name (users_by_email (fst row) (w_users w)) (fst row));
               ("completed", JNum (Num.of_nat (snd row)))]),
     issue (mkSql SQL_SELECT_NAMES [PVal (fst row)]) w).
Proof.
  intros Hf. unfold top_performer_entry. rewrite prepareValue_text_json.
  unfold bind, select_names. rewrite (pool_query_runs _ _ _ _ Hf). reflexivity.
Qed.

Lemma recent_activity_entry_runs (X : Externals) (row : Delegation) (w : World) :
  next_fault w = None ->
  recent_activity_entry X row w
  = (Ok (JObj [("task", text_json (d_task_name row));
               ("user", display_name (users_by_email (d_assigned_to row) (w_users w))
                                     (d_assigned_to row));
               ("date", typed_json X "TIMESTAMP" (d_completed_at row))]),
     issue (mkSql SQL_SELECT_NAMES [PVal (d_assigned_to row)]) w).
Proof.
  intros Hf. unfold recent_activity_entry. rewrite prepareValue_text_json.
  unfold bind, select_names. rewrite (pool_query_runs _ _ _ _ Hf). reflexivity.
Qed.

Lemma get_analytics_runs (X : Externals) (req : Request) (w : World) :
  w_faults w = [] ->
  exists resp w', get_analytics X req w = (Ok resp, w') /\ res_status resp = 200.
Proof.
  intros Hf. unfold get_analytics, try_catch.
  destruct (count_where_runs SQL_COUNT_ALL [] (fun _ => true) w Hf)
    as (w1 & E1 & H1 & _).
  destruct (count_where_runs SQL_COUNT_COMPLETED [] (has_status "Completed") w1 H1)
    as (w2 & E2 & H2 & _).
  destruct (count_where_runs SQL_COUNT_PENDING [] (has_status "Pending") w2 H2)
    as (w3 & E3 & H3 & _).
  destruct (count_where_runs SQL_COUNT_OVERDUE [] (has_status "Overdue") w3 H3)
    as (w4 & E4 & H4 & _).
  assert (Htop : exists rows w5, top_performers w4 = (Ok rows, w5) /\ w_faults w5 = []).
  { unfold top_performers, pool_query, next_fault. rewrite H4.
    eexists. eexists. split; [reflexivity | ]. simpl. rewrite H4. reflexivity. }
  destruct Htop as (rows5 & w5 & E5 & H5).
  destruct (mapM_runs (top_performer_entry X)
              (fun us _ row =>
                 JObj [("name", display_name (users_by_email (fst row) us) (fst row));
                       ("completed", JNum (Num.of_nat (snd row)))])
              (fun row w0 H0 =>
                 ex_intro _ _
                   (conj (top_performer_entry_runs X row w0 (next_fault_none w0 H0))
                         (conj (f_equal (@tl _) H0) (conj eq_refl eq_refl))))
              rows5 w5 H5) as (w6 & E6 & H6 & _).
  assert (Hrec : exists rows w7, recent_activity X w6 = (Ok rows, w7) /\ w_faults w7 = []).
  { unfold recent_activity, pool_query, next_fault. rewrite H6.
    eexists. eexists. split; [reflexivity | ]. simpl. rewrite H6. reflexivity. }
  destruct Hrec as (rows7 & w7 & E7 & H7).
  destruct (mapM_runs (recent_activity_entry X)
              (fun us _ row =>
                 JObj [("task", text_json (d_task_name row));
                       ("user", display_name (users_by_email (d_assigned_to row) us)
                                             (d_assigned_to row));
                       ("date", typed_json X "TIMESTAMP" (d_completed_at row))])
              (fun row w0 H0 =>
                 ex_intro _ _
                   (conj (recent_activity_entry_runs X row w0 (next_fault_none w0 H0))
                         (conj (f_equal (@tl _) H0) (conj eq_refl eq_refl))))
              rows7 w7 H7) as (w8 & E8 & _ & _).
  eexists. exists w8.
  rewrite (bind_ok _ _ _ _ _ E1), (bind_ok _ _ _ _ _ E2), (bind_ok _ _ _ _ _ E3),
          (bind_ok _ _ _ _ _ E4), (bind_ok _ _ _ _ _ E5), (bind_ok _ _ _ _ _ E6),
          (bind_ok _ _ _ _ _ E7), (bind_ok _ _ _ _ _ E8).
  split; reflexivity.
Qed.

(** *** The team report *)

Lemma team_entry_inv (X : Externals) (user : User) (w w' : World) (entry : JsonValue) :
  team_entry X user w = (Ok entry, w') ->
  entry = team_row (w_delegations w) user /\ same_tables w w'.
Proof.
  unfold team_entry. rewrite prepareValue_text_json. intros H.
  do 5 (bind_inv H). ret_inv H.
  apply count_where_inv in E, E0, E1, E2, E3.
  destruct E as [-> S0], E0 as [-> S1], E1 as [-> S2], E2 as [-> S3], E3 as [-> S4].
  assert (D1 : w_delegations w1 = w_delegations w) by apply S0.
  assert (D2 : w_delegations w0 = w_delegations w)
    by (destruct S0, S1; congruence).
  assert (D3 : w_delegations w2 = w_delegations w)
    by (destruct S0, S1, S2; congruence).
  assert (D4 : w_delegations w3 = w_delegations w)
    by (destruct S0, S1, S2, S3; congruence).
  rewrite D1, D2, D3, D4. split; [reflexivity | ].
  repeat (eapply same_tables_trans; [eassumption | ]). apply same_tables_refl.
Qed.

Lemma get_team_inv (X : Externals) (req : Request) (w w' : World) (resp : Response) :
  get_team X req w = (Ok resp, w') ->
  res_status resp = 200 ->
  res_body resp = JArr (map (team_row (w_delegations w)) (w_users w)).
Proof.
  unfold get_team, try_catch.
  match goal with |- context [match ?c w with _ => _ end] => destruct (c w) as [[r | e] w1] eqn:E end.
  - intros H _. injection H as <- <-.
    bind_inv E. bind_inv E. ret_inv E.
    apply select_users_inv in E0. destruct E0 as [-> [Hu Hd]].
    apply (mapM_reads (team_entry X) (fun _ ds u => team_row ds u)) in E1.
    + destruct E1 as [-> _]. simpl. rewrite Hd. reflexivity.
    + intros x w3 y w4 Hx. apply team_entry_inv in Hx. exact Hx.
  - intros H Hs. injection H as <- <-. discriminate Hs.
Qed.

Lemma team_entry_runs (X : Externals) (user : User) (w : World) :
  w_faults w = [] ->
  exists w',
    team_entry X user w = (Ok (team_row (w_delegations w) user), w')
    /\ w_faults w' = [] /\ same_tables w w'.
Proof.
  destruct w as [us ds su sd now seed faults log]. simpl. intros ->.
  unfold team_entry. rewrite prepareValue_text_json.
  unfold bind, count_where, pool_query, next_fault, ret. simpl.
  eexists. split; [reflexivity | ]. repeat split.
Qed.

Lemma get_team_runs (X : Externals) (req : Request) (w : World) :
  w_faults w = [] ->
  exists w',
    get_team X req w
    = (Ok (json (JArr (map (team_row (w_delegations w)) (w_users w)))), w').
Proof.
  intros Hf. unfold get_team, try_catch.
  assert (Hs : exists w1, select_users w = (Ok (w_users w), w1)
                          /\ w_faults w1 = [] /\ same_tables w w1).
  { unfold select_users, pool_query, next_fault. rewrite Hf.
    eexists. split; [reflexivity | ]. simpl. rewrite Hf. repeat split. }
  destruct Hs as (w1 & E1 & H1 & [Hu Hd]).
  destruct (mapM_runs (team_entry X) (fun _ ds u => team_row ds u)
              (fun x w0 H0 => team_entry_runs X x w0 H0) (w_users w) w1 H1)
    as (w2 & E2 & _ & _).
  exists w2.
  rewrite (bind_ok _ _ _ _ _ E1), (bind_ok _ _ _ _ _ E2), Hd. reflexivity.
Qed.

(** C10. With no store failure [/team] answers 200, and every entry of a
    [/team] answer carries the status ['Active'], whatever the stored user
    and delegations are. *)
Theorem team_status_is_always_active :
  forall (X : Externals) (req : Request) (w : World),
    (w_faults w = [] ->
     exists resp w', get_team X req w = (Ok resp, w') /\ res_status resp = 200)
    /\ (forall resp w',
           get_team X req w = (Ok resp, w') ->
           res_status resp = 200 ->
           exists entries,
             res_body resp = JArr entries
             /\ List.length entries = List.length (w_users w)
             /\ Forall (fun entry => opt_prop entry "status" = JStr "Active") entries).
Proof.
  intros X req w. split.
  - intros Hf. destruct (get_team_runs X req w Hf) as (w' & E).
    eexists. exists w'. split; [exact E | reflexivity].
  - intros resp w' H Hs.
    exists (map (team_row (w_delegations w)) (w_users w)).
    split; [eapply get_team_inv; eassumption | ].
    split; [apply length_map | ].
    apply Forall_forall. intros entry Hin.
    apply in_map_iff in Hin. destruct Hin as (u & <- & _). reflexivity.
Qed.

Lemma team_status_is_always_active_witness :
  exists resp w',
    get_team sample_externals (request None JNull 0) sample_world = (Ok resp, w')
    /\ exists entries,
         res_body resp = JArr entries
         /\ List.length entries = 2%nat
         /\ Forall (fun entry => opt_prop entry "status" = JStr "Active") entries.
Proof.
  destruct (team_status_is_always_active sample_externals (request None JNull 0) sample_world)
    as [Hruns Hall].
  destruct (Hruns eq_refl) as (resp & w' & E & Hs).
  exists resp, w'. split; [exact E | ].
  exact (Hall resp w' E Hs).
Defined.

(** *** Binary64 facts

    [Number(n)] of a positive count is a positive number: rounding to 53
    bits never takes a positive integer to zero. *)

Lemma shr_1_m (mrs : shr_record) :
  0 <= shr_m mrs -> shr_m (shr_1 mrs) = shr_m mrs / 2.
Proof.
  destruct mrs as [m r s]. simpl. intros Hm.
  rewrite <- Z.div2_div.
  destruct m as [| p | p]; [reflexivity | destruct p; reflexivity | lia].
Qed.

Lemma iter_shr_1_m (k : positive) :
  forall mrs, 0 <= shr_m mrs ->
    shr_m (iter_pos shr_1 k mrs) = shr_m mrs / 2 ^ Z.pos k.
Proof.
  induction k as [k IH | k IH | ]; intros mrs Hm; simpl iter_pos.
  - assert (H1 : 0 <= shr_m (shr_1 mrs)) by (rewrite shr_1_m by exact Hm; apply Z.div_pos; lia).
    assert (H2 : 0 <= shr_m (iter_pos shr_1 k (shr_1 mrs)))
      by (rewrite IH by exact H1; apply Z.div_pos; [exact H1 | apply Z.pow_pos_nonneg; lia]).
    rewrite IH by exact H2. rewrite IH by exact H1. rewrite shr_1_m by exact Hm.
    replace (2 ^ Z.pos k~1) with (2 * (2 ^ Z.pos k * 2 ^ Z.pos k))
      by (rewrite <- Z.pow_add_r, <- Z.pow_succ_r by lia; f_equal; lia).
    rewrite !Z.div_div by (first [apply Z.pow_pos_nonneg; lia | nia | lia]).
    reflexivity.
  - assert (H2 : 0 <= shr_m (iter_pos shr_1 k mrs))
      by (rewrite IH by exact Hm; apply Z.div_pos; [exact Hm | apply Z.pow_pos_nonneg; lia]).
    rewrite IH by exact H2. rewrite IH by exact Hm.
    replace (2 ^ Z.pos k~0) with (2 ^ Z.pos k * 2 ^ Z.pos k)
      by (rewrite <- Z.pow_add_r by lia; f_equal; lia).
    rewrite Z.div_div by (first [apply Z.pow_nonzero; lia | apply Z.pow_pos_nonneg; lia]).
    reflexivity.
  - rewrite shr_1_m by exact Hm. reflexivity.
Qed.

Lemma digits2_pos_lower (m : positive) :
  2 ^ (Z.pos (digits2_pos m) - 1) <= Z.pos m.
Proof.
  induction m as [m IH | m IH | ]; simpl digits2_pos.
  - rewrite Pos2Z.inj_succ. replace (Z.succ (Z.pos (digits2_pos m)) - 1) with (1 + (Z.pos (digits2_pos m) - 1)) by lia.
    rewrite Z.pow_add_r by lia. lia.
  - rewrite Pos2Z.inj_succ. replace (Z.succ (Z.pos (digits2_pos m)) - 1) with (1 + (Z.pos (digits2_pos m) - 1)) by lia.
    rewrite Z.pow_add_r by lia. lia.
  - simpl. lia.
Qed.

Lemma shr_record_of_loc_m (m : Z) (l : location) : shr_m (shr_record_of_loc m l) = m.
Proof. destruct l as [| []]; reflexivity. Qed.

Lemma shr_fexp_positive (m : positive) (e : Z) (l : location) :
  emin Num.prec Num.emax <= e ->
  0 < shr_m (fst (shr_fexp Num.prec Num.emax (Z.pos m) e l))
  /\ emin Num.prec Num.emax <= snd (shr_fexp Num.prec Num.emax (Z.pos m) e l).
Proof.
  intros He. unfold shr_fexp, shr.
  set (n := fexp Num.prec Num.emax (Zdigits2 (Z.pos m) + e) - e).
  assert (Hn : n <= Z.pos (digits2_pos m) - 1).
  { unfold n, fexp, Num.prec in *. simpl Zdigits2. lia. }
  destruct n as [| k | k] eqn:En; simpl fst; simpl snd.
  - rewrite shr_record_of_loc_m. lia.
  - rewrite iter_shr_1_m by (rewrite shr_record_of_loc_m; lia).
    rewrite shr_record_of_loc_m. split; [ | lia].
    apply Z.div_str_pos. split; [apply Z.pow_pos_nonneg; lia | ].
    etransitivity; [ | apply digits2_pos_lower].
    apply Z.pow_le_mono_r; lia.
  - rewrite shr_record_of_loc_m. lia.
Qed.

Lemma round_nearest_even_positive (m : Z) (l : location) :
  0 < m -> 0 < round_nearest_even m l.
Proof.
  intros Hm. destruct l as [| []]; simpl; try lia. destruct (Z.even m); lia.
Qed.

Lemma binary_round_aux_positive (m : positive) (e : Z) (l : location) :
  emin Num.prec Num.emax <= e ->
  Num.gtb (binary_round_aux Num.prec Num.emax false (Z.pos m) e l) (S754_zero false) = true.
Proof.
  intros He. unfold binary_round_aux.
  destruct (shr_fexp_positive m e l He) as [H1 H2].
  destruct (shr_fexp Num.prec Num.emax (Z.pos m) e l) as [mrs' e']. simpl in H1, H2.
  pose proof (round_nearest_even_positive (shr_m mrs') (loc_of_shr_record mrs') H1) as H3.
  destruct (round_nearest_even (shr_m mrs') (loc_of_shr_record mrs')) as [| m2 | m2]; try lia.
  destruct (shr_fexp_positive m2 e' loc_Exact H2) as [H4 _].
  destruct (shr_fexp Num.prec Num.emax (Z.pos m2) e' loc_Exact) as [mrs'' e'']. simpl in H4.
  destruct (shr_m mrs'') as [| m3 | m3]; try lia.
  destruct (e'' <=? Num.emax - Num.prec); reflexivity.
Qed.

Lemma of_Z_positive (p : positive) : Num.gtb (Num.of_Z (Z.pos p)) (Num.of_Z 0) = true.
Proof.
  unfold Num.of_Z. simpl binary_normalize. unfold binary_round.
  destruct (shl_align p 0 (fexp Num.prec Num.emax (Z.pos (digits2_pos p) + 0))) as [mz ez] eqn:E.
  apply binary_round_aux_positive.
  unfold shl_align in E.
  destruct (fexp Num.prec Num.emax (Z.pos (digits2_pos p) + 0) - 0) eqn:F; injection E as <- <-;
    unfold fexp, emin, Num.prec, Num.emax in *; lia.
Qed.

Lemma gtb_of_nat (n : nat) : Num.gtb (Num.of_nat n) (Num.of_Z 0) = (0 <? n)%nat.
Proof.
  unfold Num.of_nat. destruct n as [| n]; [reflexivity | ].
  rewrite Nat2Z.inj_succ, <- Z.add_1_r.
  destruct (Z.of_nat n + 1) as [| p | p] eqn:E; try lia.
  apply of_Z_positive.
Qed.

Lemma performanceScore_of_counts (assigned completed : nat) :
  performanceScore (Num.of_nat assigned) (Num.of_nat completed)
  = score_of_counts assigned completed.
Proof. unfold performanceScore, score_of_counts. rewrite gtb_of_nat. reflexivity. Qed.

Lemma Forall2_map_r {A B : Type} (P : A -> B -> Prop) (f : A -> B) (l : list A) :
  (forall x, In x l -> P x (f x)) -> Forall2 P l (map f l).
Proof.
  induction l as [| x l IH]; simpl; intros H; constructor.
  - apply H. now left.
  - apply IH. intros y Hy. apply H. now right.
Qed.

(** C7. With no store failure [/team] answers 200, and in a [/team]
    answer the entry of each user carries the score
    [Math.round((completed / assigned) * 100)] of that user's counts when at
    least one delegation is assigned to the user, and [0] when none is; a
    user with two assigned of which one is completed scores 50.  The
    quotient, the product and the rounding are those of binary64 numbers. *)
Theorem team_performance_score :
  forall (X : Externals) (req : Request) (w : World),
    (w_faults w = [] ->
     exists resp w', get_team X req w = (Ok resp, w') /\ res_status resp = 200)
    /\ (forall resp w',
           get_team X req w = (Ok resp, w') ->
           res_status resp = 200 ->
           exists entries,
             res_body resp = JArr entries
             /\ Forall2
                  (fun user entry =>
                     let assigned := assigned_count (u_email user) (w_delegations w) in
                     let completed := completed_count (u_email user) (w_delegations w) in
                     opt_prop entry "performanceScore"
                     = JNum (if (0 <? assigned)%nat
                             then Num.round (Num.mul (Num.div (Num.of_nat completed)
                                                              (Num.of_nat assigned))
                                                     (Num.of_Z 100))
                             else S754_zero false)
                     /\ (assigned = 2%nat -> completed = 1%nat ->
                         opt_prop entry "performanceScore" = JNum (Num.of_Z 50)))
                  (w_users w) entries).
Proof.
  intros X req w. split.
  - intros Hf. destruct (get_team_runs X req w Hf) as (w' & E).
    eexists. exists w'. split; [exact E | reflexivity].
  - intros resp w' H Hs.
    exists (map (team_row (w_delegations w)) (w_users w)).
    split; [eapply get_team_inv; eassumption | ].
    apply Forall2_map_r. intros user _. cbv zeta.
    assert (E : opt_prop (team_row (w_delegations w) user) "performanceScore"
                = JNum (score_of_counts (assigned_count (u_email user) (w_delegations w))
                                        (completed_count (u_email user) (w_delegations w)))).
    { unfold team_row. rewrite performanceScore_of_counts. reflexivity. }
    rewrite E. split.
    + reflexivity.
    + intros -> ->. reflexivity.
Qed.

Lemma team_performance_score_witness :
  exists resp w',
    get_team sample_externals (request None JNull 0) sample_world = (Ok resp, w')
    /\ exists first_entry second_entry,
         res_body resp = JArr [first_entry; second_entry]
         /\ opt_prop first_entry "performanceScore" = JNum (Num.of_Z 50)
         /\ opt_prop second_entry "performanceScore" = JNum (S754_zero false).
Proof.
  destruct (team_performance_score sample_externals (request None JNull 0) sample_world)
    as [Hruns Hall].
  destruct (Hruns eq_refl) as (resp & w' & E & Hs).
  exists resp, w'. split; [exact E | ].
  destruct (Hall resp w' E Hs) as (entries & Hbody & Hscores).
  inversion Hscores as [| u1 e1 us1 es1 [_ H50] Hrest]; subst.
  inversion Hrest as [| u2 e2 us2 es2 [H0 _] Hnil]; subst.
  inversion Hnil; subst.
  exists e1, e2. split; [exact Hbody | ]. split.
  - apply H50; reflexivity.
  - exact H0.
Defined.

(** The user of the sample store with two delegations, one of them
    completed, is reported with 50; 23 completed out of 40 give 57, the
    binary64 product being just below 57.5. *)
Remark performance_score_examples :
  opt_prop (team_row (w_delegations sample_world) (sample_user 1 "a@x.com" None None))
           "performanceScore" = JNum (Num.of_Z 50)
  /\ score_of_counts 0 0 = Num.of_Z 0
  /\ score_of_counts 40 23 = Num.of_Z 57.
Proof. repeat split; vm_compute; reflexivity. Qed.

(** *** The analytics summary *)

Lemma has_status_exclusive (a b : string) (d : Delegation) :
  has_status a d = true -> has_status b d = true -> a = b.
Proof.
  unfold has_status, sql_eqb. destruct (d_status d) as [s |]; [ | discriminate].
  intros Ha Hb. apply String.eqb_eq in Ha, Hb. congruence.
Qed.

Lemma filter_true_length {A : Type} (l : list A) :
  List.length (filter (fun _ => true) l) = List.length l.
Proof. induction l; simpl; congruence. Qed.

(** The three filtered counts and the count of the remaining rows add up
    to the number of rows. *)
Lemma summary_counts_partition (ds : list Delegation) :
  (List.length (filter (has_status "Completed") ds)
   + List.length (filter (has_status "Pending") ds)
   + List.length (filter (has_status "Overdue") ds)
   + List.length (filter (fun d => negb (summary_status d)) ds)
   = List.length ds)%nat.
Proof.
  induction ds as [| d ds IH]; [reflexivity | ].
  simpl. unfold summary_status in *.
  destruct (has_status "Completed" d) eqn:C, (has_status "Pending" d) eqn:P,
           (has_status "Overdue" d) eqn:O; simpl;
    try (pose proof (has_status_exclusive _ _ _ C P); discriminate);
    try (pose proof (has_status_exclusive _ _ _ C O); discriminate);
    try (pose proof (has_status_exclusive _ _ _ P O); discriminate);
    lia.
Qed.

Lemma no_other_status_iff (ds : list Delegation) :
  List.length (filter (fun d => negb (summary_status d)) ds) = 0%nat
  <-> Forall (fun d => summary_status d = true) ds.
Proof.
  induction ds as [| d ds IH]; simpl.
  - split; [constructor | reflexivity].
  - destruct (summary_status d) eqn:S; simpl.
    + rewrite IH. split; [intros H; constructor; assumption | intros H; inversion H; assumption].
    + split; [discriminate | intros H; inversion H; congruence].
Qed.

(** C8. With no store failure [/analytics] answers 200, and in an
    [/analytics] answer the four counts are those of the [delegations]
    table: all rows, and the rows whose status is ['Completed'],
    ['Pending'], ['Overdue'].  The three filtered counts add up to at most
    the total, and to exactly the total precisely when every row has one of
    these three statuses (a row with ['In Progress'], any other text or no
    status is in the total only). *)
Theorem analytics_summary_counts :
  forall (X : Externals) (req : Request) (w : World),
    (w_faults w = [] ->
     exists resp w', get_analytics X req w = (Ok resp, w') /\ res_status resp = 200)
    /\ (forall resp w',
           get_analytics X req w = (Ok resp, w') ->
           res_status resp = 200 ->
           exists total completed pending overdue : nat,
             total = List.length (w_delegations w)
             /\ completed = List.length (filter (has_status "Completed") (w_delegations w))
             /\ pending = List.length (filter (has_status "Pending") (w_delegations w))
             /\ overdue = List.length (filter (has_status "Overdue") (w_delegations w))
             /\ opt_prop (res_body resp) "totalDelegations" = JNum (Num.of_nat total)
             /\ opt_prop (res_body resp) "completedDelegations" = JNum (Num.of_nat completed)
             /\ opt_prop (res_body resp) "pendingDelegations" = JNum (Num.of_nat pending)
             /\ opt_prop (res_body resp) "overdueDelegations" = JNum (Num.of_nat overdue)
             /\ (completed + pending + overdue <= total)%nat
             /\ ((completed + pending + overdue = total)%nat
                 <-> Forall (fun d => summary_status d = true) (w_delegations w))).
Proof.
  intros X req w. split; [apply get_analytics_runs | ].
  intros resp w' H Hs. unfold get_analytics, try_catch in H.
  match type of H with
  | context [match ?c w with _ => _ end] => destruct (c w) as [[r | e] wz] eqn:E
  end.
  2:{ injection H as <- <-. discriminate Hs. }
  injection H as <- <-.
  apply bind_ok_inv in E; destruct E as (total & wa & Ea & E).
  apply bind_ok_inv in E; destruct E as (completed & wb & Eb & E).
  apply bind_ok_inv in E; destruct E as (pending & wc & Ec & E).
  apply bind_ok_inv in E; destruct E as (overdue & wd & Ed & E).
  do 4 (bind_inv E). ret_inv E.
  apply count_where_inv in Ea, Eb, Ec, Ed.
  destruct Ea as [Ht [_ Da]], Eb as [Hc [_ Db]], Ec as [Hp [_ Dc]], Ed as [Ho _].
  rewrite Dc, Db, Da in Ho. rewrite Db, Da in Hp. rewrite Da in Hc.
  rewrite filter_true_length in Ht.
  exists total, completed, pending, overdue.
  repeat (split; [first [assumption | reflexivity] | ]).
  pose proof (summary_counts_partition (w_delegations w)) as Hsum.
  pose proof (no_other_status_iff (w_delegations w)) as Hiff.
  subst total completed pending overdue. split; [lia | ].
  rewrite <- Hiff. lia.
Qed.

Lemma analytics_summary_counts_witness :
  exists resp w',
    get_analytics sample_externals (request None JNull 0) sample_world = (Ok resp, w')
    /\ opt_prop (res_body resp) "totalDelegations" = JNum (Num.of_nat 3)
    /\ opt_prop (res_body resp) "completedDelegations" = JNum (Num.of_nat 1)
    /\ opt_prop (res_body resp) "pendingDelegations" = JNum (Num.of_nat 1)
    /\ opt_prop (res_body resp) "overdueDelegations" = JNum (Num.of_nat 0)
    /\ ~ Forall (fun d => summary_status d = true) (w_delegations sample_world).
Proof.
  destruct (analytics_summary_counts sample_externals (request None JNull 0) sample_world)
    as [Hruns Hall].
  destruct (Hruns eq_refl) as (resp & w' & E & Hs).
  exists resp, w'. split; [exact E | ].
  destruct (Hall resp w' E Hs)
    as (total & completed & pending & overdue
        & Ht & Hc & Hp & Ho & Bt & Bc & Bp & Bo & _ & Hiff).
  rewrite Bt, Bc, Bp, Bo, Ht, Hc, Hp, Ho.
  repeat (split; [reflexivity | ]).
  intros Hno. apply Hiff in Hno. rewrite Ht, Hc, Hp, Ho in Hno. discriminate Hno.
Defined.

(** *** Participants of an update *)

Lemma mapR_cons_inv {A B : Type} (f : A -> JsResult B) (x : A) (xs : list A) (ys : list B) :
  mapR f (x :: xs) = Ok ys ->
  exists y ys', f x = Ok y /\ mapR f xs = Ok ys' /\ ys = y :: ys'.
Proof.
  simpl. destruct (f x) as [y | e]; [ | discriminate].
  destruct (mapR f xs) as [ys' | e]; [ | discriminate].
  intros H. injection H as <-. exists y, ys'. auto.
Qed.

Lemma prop_ok_opt (v : JsonValue) (k : string) (r : JsonValue) :
  prop v k = Ok r -> r = opt_prop v k.
Proof. destruct v; simpl; intros H; try discriminate H; injection H as <-; reflexivity. Qed.

Lemma eval_EmailOf_inv (d : JsonValue) (k : string) (y : JsonValue) :
  eval_param d (EmailOf k) = Ok y ->
  y = js_or (opt_prop (opt_prop d k) "email") JNull.
Proof.
  simpl. destruct (prop d k) as [v | e] eqn:E; [ | discriminate].
  apply prop_ok_opt in E. intros H. injection H as <-. rewrite E. reflexivity.
Qed.

Lemma email_or_null_normalized (X : Externals) (supplied : JsonValue) :
  prepareValue X (js_or (opt_prop supplied "email") JNull)
  = normalized_participant X supplied.
Proof.
  destruct supplied; try reflexivity. simpl. unfold js_or.
  destruct (truthy (lookup_field "email" fields)); reflexivity.
Qed.

Lemma update_params_participants (X : Externals) (d : JsonValue) (ps : list SqlValue) :
  params_of X UPDATE_PARAMS d = Ok ps ->
  positional 2 ps = normalized_participant X (opt_prop d "assignedBy")
  /\ positional 3 ps = normalized_participant X (opt_prop d "assignedTo")
  /\ positional 10 ps = normalized_participant X (opt_prop d "notifyTo")
  /\ positional 11 ps = normalized_participant X (opt_prop d "auditor").
Proof.
  unfold params_of, UPDATE_PARAMS.
  destruct (mapR _ _) as [vs | e] eqn:E; [ | discriminate].
  intros H. injection H as <-.
  repeat (apply mapR_cons_inv in E; destruct E as (? & ? & ? & E & ->)).
  repeat match goal with
         | H : eval_param _ (EmailOf _) = Ok _ |- _ => apply eval_EmailOf_inv in H; subst
         end.
  unfold positional. simpl. rewrite !email_or_null_normalized. auto.
Qed.

Lemma update_delegation_inv (ps : list SqlValue) (id : Z) (w w' : World) :
  update_delegation ps id w = (Ok tt, w') ->
  forall row, In row (w_delegations w') -> d_id row = id ->
    exists old, row = updated_delegation old ps.
Proof.
  unfold update_delegation, pool_query.
  destruct (next_fault w); [discriminate | ].
  match goal with |- context [if ?b then _ else _] => destruct b end; [discriminate | ].
  intros H. injection H as <-. simpl. intros row Hin Hid.
  apply in_map_iff in Hin. destruct Hin as (old & Hrow & _).
  destruct (d_id old =? id) eqn:E.
  - exists old. congruence.
  - apply Z.eqb_neq in E. congruence.
Qed.

Lemma put_delegation_runs (X : Externals) (req : Request) (w : World) (ps : list SqlValue) :
  params_of X UPDATE_PARAMS (req_body req) = Ok ps ->
  next_fault w = None ->
  positional 1 ps <> None -> positional 2 ps <> None -> positional 3 ps <> None ->
  exists w', put_delegation X req w = (Ok (json success_body), w').
Proof.
  intros Hps Hf H1 H2 H3.
  unfold put_delegation, try_catch, bind, lift, update_delegation. rewrite Hps.
  rewrite (pool_query_runs _ _ _ _ Hf).
  match goal with |- context [if ?b then _ else _] => destruct b eqn:Ex end;
    [ | eexists; reflexivity].
  apply existsb_exists in Ex. destruct Ex as (row & Hin & Hv).
  apply filter_In in Hin. destruct Hin as [Hin Hid].
  apply in_map_iff in Hin. destruct Hin as (old & Hrow & _).
  destruct (d_id old =? req_id req) eqn:E.
  - subst row. unfold violates_not_null in Hv. simpl in Hv.
    destruct (positional 1 ps); [ | contradiction].
    destruct (positional 2 ps); [ | contradiction].
    destruct (positional 3 ps); [ | contradiction].
    discriminate Hv.
  - subst row. simpl in Hid. congruence.
Qed.

(** C1, as the code has it.  An update whose parameters can be built,
    whose three [NOT NULL] columns get a value and which the store executes
    answers success; after a successful update every row with the id holds,
    in each of the four participant columns, the [email] member of the
    supplied value when that value is an object with a truthy [email], and
    [NULL] otherwise; a plain string is among the latter, an object with a
    non-empty string [email] stores that string. *)
Theorem update_stores_email_or_null :
  forall (X : Externals) (req : Request) (w : World),
    (forall ps,
        params_of X UPDATE_PARAMS (req_body req) = Ok ps ->
        next_fault w = None ->
        positional 1 ps <> None -> positional 2 ps <> None -> positional 3 ps <> None ->
        exists w', put_delegation X req w = (Ok (json success_body), w'))
    /\ (forall resp w',
           put_delegation X req w = (Ok resp, w') ->
           res_status resp = 200 ->
           forall row, In row (w_delegations w') -> d_id row = req_id req ->
             d_assigned_by row
             = normalized_participant X (opt_prop (req_body req) "assignedBy")
             /\ d_assigned_to row
                = normalized_participant X (opt_prop (req_body req) "assignedTo")
             /\ d_notify_to row
                = normalized_participant X (opt_prop (req_body req) "notifyTo")
             /\ d_auditor row
                = normalized_participant X (opt_prop (req_body req) "auditor"))
    /\ (forall s, normalized_participant X (JStr s) = None)
    /\ (forall e others, e <> "" ->
          normalized_participant X (JObj (("email", JStr e) :: others)) = Some e).
Proof.
  intros X req w. split; [ | split; [ | split]].
  - intros ps. apply put_delegation_runs.
  - intros resp w' H Hs. unfold put_delegation, try_catch in H.
    match type of H with
    | context [match ?c w with _ => _ end] => destruct (c w) as [[r | e] wz] eqn:E
    end.
    2:{ injection H as <- <-. discriminate Hs. }
    injection H as <- <-.
    apply bind_ok_inv in E; destruct E as (ps & wa & Ea & E).
    apply bind_ok_inv in E; destruct E as ([] & wb & Eb & E).
    ret_inv E. unfold lift in Ea. injection Ea as Ea <-.
    apply update_params_participants in Ea.
    intros row Hin Hid.
    destruct (update_delegation_inv _ _ _ _ Eb row Hin Hid) as (old & ->).
    simpl. exact Ea.
  - reflexivity.
  - intros e others He. simpl.
    destruct (String.eqb e "") eqn:E; [apply String.eqb_eq in E; contradiction | reflexivity].
Qed.

Lemma update_stores_email_or_null_witness :
  exists w' row,
    put_delegation sample_externals
      (request None (update_body (JObj [("email", JStr "a@b.com")])) 2) sample_world
    = (Ok (json success_body), w')
    /\ find_delegation 2 w' = Some row
    /\ d_notify_to row = Some "a@b.com"
    /\ d_auditor row = None.
Proof.
  destruct (update_stores_email_or_null sample_externals
              (request None (update_body (JObj [("email", JStr "a@b.com")])) 2)
              sample_world) as (Hruns & Hrows & _ & _).
  destruct (Hruns _ eq_refl eq_refl) as (w' & E); try discriminate.
  exists w'.
  assert (Ew : w' = snd (put_delegation sample_externals
                           (request None (update_body (JObj [("email", JStr "a@b.com")])) 2)
                           sample_world))
    by (rewrite E; reflexivity).
  eexists. split; [exact E | ].
  split; [rewrite Ew; vm_compute; reflexivity | ].
  match goal with
  | |- d_notify_to ?row = _ /\ _ =>
      destruct (Hrows _ w' E eq_refl row) as (_ & _ & Hn & Ha);
      [rewrite Ew; vm_compute; right; left; reflexivity | reflexivity | ]
  end.
  split; [exact Hn | exact Ha].
Defined.

(** The claim as written fails: with [notifyTo] the plain string
    ["a@b.com"] the update succeeds and leaves [NULL] in the column, while
    the object [{email: "a@b.com"}] leaves ["a@b.com"]. *)
Lemma plain_string_participant_is_stored_as_null :
  fst (put_delegation sample_externals (request None (update_body (JStr "a@b.com")) 2)
         sample_world) = Ok (json success_body)
  /\ option_map d_notify_to
       (find_delegation 2
          (snd (put_delegation sample_externals
                  (request None (update_body (JStr "a@b.com")) 2) sample_world)))
     = Some None
  /\ option_map d_notify_to
       (find_delegation 2
          (snd (put_delegation sample_externals
                  (request None (update_body (JObj [("email", JStr "a@b.com")])) 2)
                  sample_world)))
     = Some (Some "a@b.com").
Proof. repeat split; vm_compute; reflexivity. Qed.

(** *** Display names in the analytics *)

(** C6, as the code has it.  When the store answers the look-up, the name
    in a top-performers entry and in a recent-activity entry is the
    assignee's stored identity when no user row has that email; when one
    has, it is the first and last name joined by a space and trimmed, hence
    the empty string when both are empty. *)
Theorem display_name_falls_back_or_trims :
  forall (X : Externals),
    (forall row w,
        next_fault w = None ->
        exists entry w',
          top_performer_entry X row w = (Ok entry, w')
          /\ opt_prop entry "name"
             = match users_by_email (fst row) (w_users w) with
               | [] => text_json (fst row)
               | u :: _ =>
                   JStr (trim (or_empty (u_first_name u) ++ " " ++ or_empty (u_last_name u)))
               end)
    /\ (forall row w,
           next_fault w = None ->
           exists entry w',
             recent_activity_entry X row w = (Ok entry, w')
             /\ opt_prop entry "user"
                = match users_by_email (d_assigned_to row) (w_users w) with
                  | [] => text_json (d_assigned_to row)
                  | u :: _ =>
                      JStr (trim (or_empty (u_first_name u) ++ " "
                                  ++ or_empty (u_last_name u)))
                  end)
    /\ (forall u,
           or_empty (u_first_name u) = "" -> or_empty (u_last_name u) = "" ->
           trim (or_empty (u_first_name u) ++ " " ++ or_empty (u_last_name u)) = "").
Proof.
  intros X. split; [ | split].
  - intros row w Hf. eexists. eexists.
    split; [apply top_performer_entry_runs; exact Hf | reflexivity].
  - intros row w Hf. eexists. eexists.
    split; [apply recent_activity_entry_runs; exact Hf | reflexivity].
  - intros u -> ->. reflexivity.
Qed.

Lemma display_name_falls_back_or_trims_witness :
  (exists entry w',
      top_performer_entry sample_externals (Some "a@x.com", 1%nat) sample_world
      = (Ok entry, w')
      /\ opt_prop entry "name" = JStr "")
  /\ (exists entry w',
         top_performer_entry sample_externals (Some "c@x.com", 1%nat) sample_world
         = (Ok entry, w')
         /\ opt_prop entry "name" = JStr "c@x.com")
  /\ trim (or_empty None ++ " " ++ or_empty (Some "")) = "".
Proof.
  destruct (display_name_falls_back_or_trims sample_externals) as (Htop & _ & Hblank).
  split; [ | split].
  - destruct (Htop (Some "a@x.com", 1%nat) sample_world eq_refl) as (entry & w' & E & Hn).
    exists entry, w'. split; [exact E | exact Hn].
  - destruct (Htop (Some "c@x.com", 1%nat) sample_world eq_refl) as (entry & w' & E & Hn).
    exists entry, w'. split; [exact E | exact Hn].
  - apply (Hblank (mkUser 1 (Some "a@x.com") (Some "h") None (Some "") None None None None));
      reflexivity.
Defined.

(** The claim as written fails: the user of the sample store without a
    first and a last name, who has one completed delegation, is listed with
    the empty string, not with a space. *)
Lemma blank_name_is_rendered_empty :
  match fst (get_analytics sample_externals (request None JNull 0) sample_world) with
  | Ok resp =>
      opt_prop (res_body resp) "topPerformers"
      = JArr [JObj [("name", JStr ""); ("completed", JNum (Num.of_nat 1))]]
      /\ opt_prop (res_body resp) "recentActivity"
         = JArr [JObj [("task", JStr "Quarterly report"); ("user", JStr ""); ("date", JNull)]]
  | Throw _ => False
  end
  /\ JStr "" <> JStr " ".
Proof. split; [vm_compute; split; reflexivity | discriminate]. Qed.

(** *** The bearer token *)

Lemma split_on_no_separator (c : ascii) (s : string) :
  forallb (fun a => negb (Ascii.eqb a c)) (list_ascii_of_string s) = true ->
  split_on c s = [s].
Proof.
  induction s as [| a s IH]; simpl; [reflexivity | ].
  intros H. apply andb_true_iff in H. destruct H as [Ha Hs].
  apply negb_true_iff in Ha. rewrite Ha, (IH Hs). reflexivity.
Qed.

Lemma bearer_token_of_Bearer (t : string) :
  forallb (fun a => negb (Ascii.eqb a " ")) (list_ascii_of_string t) = true ->
  bearer_token (Some ("Bearer " ++ t)) = Some t.
Proof.
  intros H. unfold bearer_token. simpl. rewrite (split_on_no_separator _ _ H). reflexivity.
Qed.

Lemma authenticateToken_verifies (X : Externals) (req : Request)
    (next : Request -> M Response) (w : World) (t : string) :
  bearer_token (req_authorization req) = Some t ->
  t <> "" ->
  authenticateToken X req next w
  = match jwt_verify X t (JWT_SECRET X) (w_now w) with
    | Throw _ => (Ok (status_json 403 (error_body "Invalid token")), w)
    | Ok user => next (with_user user req) w
    end.
Proof.
  intros Ht Hne. unfold authenticateToken. rewrite Ht. simpl.
  destruct (String.eqb t "") eqn:E; [apply String.eqb_eq in E; contradiction | reflexivity].
Qed.

Lemma get_profile_runs (X : Externals) (req : Request) (w : World) (email : JsonValue) :
  prop (req_user req) "email" = Ok email ->
  next_fault w = None ->
  get_profile X req w
  = (Ok match users_by_email (prepareValue X email) (w_users w) with
        | [] => status_json 404 (error_body "User not found")
        | u :: _ => json (profile_json u)
        end,
     issue (mkSql SQL_SELECT_PROFILE [PVal (prepareValue X email)]) w).
Proof.
  intros He Hf. unfold get_profile, bind, lift, try_catch, select_profile.
  rewrite He. rewrite (pool_query_runs _ _ _ _ Hf).
  destruct (users_by_email _ _); reflexivity.
Qed.

(** C5. Every token-protected route runs the middleware first.  The
    middleware answers 401 ["No token provided"] when the header
    is missing or has no second space-separated part, and 403
    ["Invalid token"] when the part is there but [jwt.verify] rejects it;
    when [jwt.verify] accepts it, the handler runs with [req.user] the
    verified payload, and [GET /profile] then looks up the row whose email
    is the payload's [email]. *)
Theorem authenticateToken_outcomes :
  forall (X : Externals) (req : Request) (next : Request -> M Response) (w : World),
    (forall r, token_protected r = true ->
               exists handler, dispatch X r req = authenticateToken X req handler)
    /\ (token_missing (bearer_token (req_authorization req)) = true ->
        authenticateToken X req next w
        = (Ok (status_json 401 (error_body "No token provided")), w))
    /\ (req_authorization req = None \/ req_authorization req = Some "Bearer" ->
        token_missing (bearer_token (req_authorization req)) = true)
    /\ (forall t,
           req_authorization req = Some ("Bearer " ++ t) ->
           forallb (fun a => negb (Ascii.eqb a " ")) (list_ascii_of_string t) = true ->
           t <> "" ->
           (forall e,
               jwt_verify X t (JWT_SECRET X) (w_now w) = Throw e ->
               authenticateToken X req next w
               = (Ok (status_json 403 (error_body "Invalid token")), w))
           /\ (forall user,
                  jwt_verify X t (JWT_SECRET X) (w_now w) = Ok user ->
                  authenticateToken X req next w = next (with_user user req) w
                  /\ req_user (with_user user req) = user
                  /\ forall email,
                       prop user "email" = Ok email ->
                       next_fault w = None ->
                       dispatch X GET_profile req w
                       = (Ok match users_by_email (prepareValue X email) (w_users w) with
                             | [] => status_json 404 (error_body "User not found")
                             | u :: _ => json (profile_json u)
                             end,
                          issue (mkSql SQL_SELECT_PROFILE [PVal (prepareValue X email)]) w))).
Proof.
  intros X req next w. split; [ | split; [ | split]].
  - intros r Hr. destruct r; try discriminate Hr; eexists; reflexivity.
  - intros Hm. unfold authenticateToken. rewrite Hm. reflexivity.
  - intros [-> | ->]; reflexivity.
  - intros t Hh Hns Hne.
    assert (Ht : bearer_token (req_authorization req) = Some t)
      by (rewrite Hh; apply bearer_token_of_Bearer; exact Hns).
    split.
    + intros e He. rewrite (authenticateToken_verifies X req next w t Ht Hne), He. reflexivity.
    + intros user Hu. split; [ | split].
      * rewrite (authenticateToken_verifies X req next w t Ht Hne), Hu. reflexivity.
      * reflexivity.
      * intros email He Hf. simpl dispatch.
        rewrite (authenticateToken_verifies X req (get_profile X) w t Ht Hne), Hu.
        apply get_profile_runs; assumption.
Qed.

Lemma authenticateToken_outcomes_witness :
  dispatch sample_externals GET_profile (request None JNull 0) sample_world
  = (Ok (status_json 401 (error_body "No token provided")), sample_world)
  /\ dispatch sample_externals GET_profile (request (Some "Bearer forged") JNull 0) sample_world
     = (Ok (status_json 403 (error_body "Invalid token")), sample_world)
  /\ fst (dispatch sample_externals GET_profile
            (request (Some "Bearer jwt.b@x.com") JNull 0) sample_world)
     = Ok (json (profile_json (sample_user 2 "b@x.com" (Some "Bea") (Some "Li")))).
Proof.
  split; [ | split].
  - apply (proj1 (proj2 (authenticateToken_outcomes sample_externals (request None JNull 0)
                           (get_profile sample_externals) sample_world))).
    reflexivity.
  - destruct (authenticateToken_outcomes sample_externals
                (request (Some "Bearer forged") JNull 0)
                (get_profile sample_externals) sample_world) as (_ & _ & _ & H).
    destruct (H "forged" eq_refl eq_refl) as [H403 _]; [discriminate | ].
    apply (H403 (mkError None "jwt malformed")). reflexivity.
  - destruct (authenticateToken_outcomes sample_externals
                (request (Some "Bearer jwt.b@x.com") JNull 0)
                (get_profile sample_externals) sample_world) as (_ & _ & _ & H).
    destruct (H "jwt.b@x.com" eq_refl eq_refl) as [_ Hok]; [discriminate | ].
    destruct (Hok (JObj [("email", JStr "b@x.com")]) eq_refl) as (_ & _ & Hprofile).
    rewrite (Hprofile (JStr "b@x.com") eq_refl eq_refl). reflexivity.
Defined.

(** *** Login *)

Lemma login_unknown_email (X : Externals) (req : Request) (w : World)
    (email password : JsonValue) :
  prop (req_body req) "email" = Ok email ->
  prop (req_body req) "password" = Ok password ->
  truthy email = true -> truthy password = true ->
  next_fault w = None ->
  users_by_email (prepareValue X email) (w_users w) = [] ->
  login X req w
  = (Ok (status_json 401 (error_body "Invalid credentials")),
     issue (mkSql SQL_SELECT_USER [PVal (prepareValue X email)]) w).
Proof.
  intros He Hp Te Tp Hf Hu. unfold login, bind, lift, try_catch, select_user.
  rewrite He, Hp, Te, Tp. simpl. rewrite (pool_query_runs _ _ _ _ Hf).
  simpl. rewrite Hu. reflexivity.
Qed.

Lemma login_wrong_password (X : Externals) (req : Request) (w : World)
    (email password : JsonValue) (user : User) (rest : list User) :
  prop (req_body req) "email" = Ok email ->
  prop (req_body req) "password" = Ok password ->
  truthy email = true -> truthy password = true ->
  next_fault w = None ->
  users_by_email (prepareValue X email) (w_users w) = user :: rest ->
  bcrypt_compare X password (text_json (u_password user)) = Ok false ->
  login X req w
  = (Ok (status_json 401 (error_body "Invalid credentials")),
     issue (mkSql SQL_SELECT_USER [PVal (prepareValue X email)]) w).
Proof.
  intros He Hp Te Tp Hf Hu Hc. unfold login, bind, lift, try_catch, select_user.
  rewrite He, Hp, Te, Tp. simpl. rewrite (pool_query_runs _ _ _ _ Hf).
  simpl. rewrite Hu, Hc. reflexivity.
Qed.

(** When the comparison runs and reports a mismatch, a login with an email
    no user row has and a login with a registered email get the same answer:
    401 with the body [{error: 'Invalid credentials'}]. *)
Theorem login_mismatch_is_answered_like_unknown_email :
  forall (X : Externals) (req1 req2 : Request) (w1 w2 : World)
         (email1 password1 email2 password2 : JsonValue) (user : User) (rest : list User),
    prop (req_body req1) "email" = Ok email1 ->
    prop (req_body req1) "password" = Ok password1 ->
    prop (req_body req2) "email" = Ok email2 ->
    prop (req_body req2) "password" = Ok password2 ->
    truthy email1 = true -> truthy password1 = true ->
    truthy email2 = true -> truthy password2 = true ->
    next_fault w1 = None -> next_fault w2 = None ->
    users_by_email (prepareValue X email1) (w_users w1) = [] ->
    users_by_email (prepareValue X email2) (w_users w2) = user :: rest ->
    bcrypt_compare X password2 (text_json (u_password user)) = Ok false ->
    fst (login X req1 w1) = fst (login X req2 w2)
    /\ fst (login X req1 w1) = Ok (status_json 401 (error_body "Invalid credentials")).
Proof.
  intros X req1 req2 w1 w2 email1 password1 email2 password2 user rest
         He1 Hp1 He2 Hp2 Te1 Tp1 Te2 Tp2 Hf1 Hf2 Hnone Hsome Hcmp.
  rewrite (login_unknown_email X req1 w1 email1 password1) by assumption.
  rewrite (login_wrong_password X req2 w2 email2 password2 user rest) by assumption.
  split; reflexivity.
Qed.

Lemma login_mismatch_is_answered_like_unknown_email_witness :
  fst (login sample_externals (request None (credentials "nobody@x.com" "pw1") 0) sample_world)
  = fst (login sample_externals (request None (credentials "a@x.com" "guess") 0) sample_world)
  /\ fst (login sample_externals (request None (credentials "nobody@x.com" "pw1") 0)
            sample_world)
     = Ok (status_json 401 (error_body "Invalid credentials")).
Proof.
  apply (login_mismatch_is_answered_like_unknown_email sample_externals
           (request None (credentials "nobody@x.com" "pw1") 0)
           (request None (credentials "a@x.com" "guess") 0)
           sample_world sample_world
           (JStr "nobody@x.com") (JStr "pw1") (JStr "a@x.com") (JStr "guess")
           (sample_user 1 "a@x.com" None None) []);
    reflexivity.
Defined.

Lemma login_compare_throws (X : Externals) (req : Request) (w : World)
    (email password : JsonValue) (user : User) (rest : list User) (e : JsError) :
  prop (req_body req) "email" = Ok email ->
  prop (req_body req) "password" = Ok password ->
  truthy email = true -> truthy password = true ->
  next_fault w = None ->
  users_by_email (prepareValue X email) (w_users w) = user :: rest ->
  bcrypt_compare X password (text_json (u_password user)) = Throw e ->
  login X req w
  = (Ok (status_json 500 (error_body "Server error")),
     issue (mkSql SQL_SELECT_USER [PVal (prepareValue X email)]) w).
Proof.
  intros He Hp Te Tp Hf Hu Hc. unfold login, bind, lift, try_catch, select_user.
  rewrite He, Hp, Te, Tp. simpl. rewrite (pool_query_runs _ _ _ _ Hf).
  simpl. rewrite Hu, Hc. reflexivity.
Qed.

(** C3. The answers of [/login] can tell a registered email from an
    unknown one.  The guard lets every truthy password through, a string or
    not; with a password that [bcrypt.compare] refuses (it refuses whatever
    is not a string, the number 5 for one), the login with an email no user
    row has is answered 401 ['Invalid credentials'], since the look-up
    returns before any comparison, and the login with a registered email is
    answered 500 ['Server error'] by the catch block: the two answers differ
    in status and in body. *)
Theorem login_reveals_registration_when_compare_throws :
  forall (X : Externals) (req1 req2 : Request) (w1 w2 : World)
         (email1 email2 password : JsonValue) (user : User) (rest : list User)
         (e : JsError),
    prop (req_body req1) "email" = Ok email1 ->
    prop (req_body req1) "password" = Ok password ->
    prop (req_body req2) "email" = Ok email2 ->
    prop (req_body req2) "password" = Ok password ->
    truthy email1 = true -> truthy email2 = true -> truthy password = true ->
    next_fault w1 = None -> next_fault w2 = None ->
    users_by_email (prepareValue X email1) (w_users w1) = [] ->
    users_by_email (prepareValue X email2) (w_users w2) = user :: rest ->
    bcrypt_compare X password (text_json (u_password user)) = Throw e ->
    fst (login X req1 w1) = Ok (status_json 401 (error_body "Invalid credentials"))
    /\ fst (login X req2 w2) = Ok (status_json 500 (error_body "Server error"))
    /\ fst (login X req1 w1) <> fst (login X req2 w2).
Proof.
  intros X req1 req2 w1 w2 email1 email2 password user rest e
         He1 Hp1 He2 Hp2 Te1 Te2 Tp Hf1 Hf2 Hnone Hsome Hcmp.
  rewrite (login_unknown_email X req1 w1 email1 password) by assumption.
  rewrite (login_compare_throws X req2 w2 email2 password user rest e) by assumption.
  split; [reflexivity | ]. split; [reflexivity | ].
  simpl. intros H. discriminate H.
Qed.

Lemma login_reveals_registration_when_compare_throws_witness :
  fst (login sample_externals
         (request None (JObj [("email", JStr "nobody@x.com"); ("password", JNum (Num.of_Z 5))]) 0)
         sample_world)
  = Ok (status_json 401 (error_body "Invalid credentials"))
  /\ fst (login sample_externals
            (request None (JObj [("email", JStr "a@x.com"); ("password", JNum (Num.of_Z 5))]) 0)
            sample_world)
     = Ok (status_json 500 (error_body "Server error"))
  /\ fst (login sample_externals
            (request None (JObj [("email", JStr "nobody@x.com"); ("password", JNum (Num.of_Z 5))]) 0)
            sample_world)
     <> fst (login sample_externals
               (request None (JObj [("email", JStr "a@x.com"); ("password", JNum (Num.of_Z 5))]) 0)
               sample_world).
Proof.
  apply (login_reveals_registration_when_compare_throws sample_externals
           (request None (JObj [("email", JStr "nobody@x.com"); ("password", JNum (Num.of_Z 5))]) 0)
           (request None (JObj [("email", JStr "a@x.com"); ("password", JNum (Num.of_Z 5))]) 0)
           sample_world sample_world
           (JStr "nobody@x.com") (JStr "a@x.com") (JNum (Num.of_Z 5))
           (sample_user 1 "a@x.com" None None) []
           (mkError None "data and hash must be strings"));
    reflexivity.
Defined.

(** *** Registration *)

Lemma truthy_prepareValue (X : Externals) (v : JsonValue) :
  truthy v = true -> exists s, prepareValue X v = Some s.
Proof. destruct v; simpl; intros H; try discriminate H; eauto. Qed.

Lemma register_unfold (X : Externals) (req : Request) (w : World)
    (email password : JsonValue) :
  prop (req_body req) "email" = Ok email ->
  prop (req_body req) "password" = Ok password ->
  truthy email = true -> truthy password = true ->
  register X req w
  = match bcrypt_hash X password 10 (w_seed w) with
    | Ok h =>
        match insert_user (prepareValue X email) (Some h) (next_seed w) with
        | (Ok _, w') => (Ok (json success_body), w')
        | (Throw e, w') =>
            (Ok (if code_is e "23505"
                 then status_json 409 (error_body "Email already exists")
                 else status_json 500 (error_details "Server error" e)), w')
        end
    | Throw e =>
        (Ok (if code_is e "23505"
             then status_json 409 (error_body "Email already exists")
             else status_json 500 (error_details "Server error" e)), next_seed w)
    end.
Proof.
  intros He Hp Te Tp. unfold register, bind, lift, try_catch, hash_password, ret.
  rewrite He, Hp, Te, Tp. simpl.
  destruct (bcrypt_hash X password 10 (w_seed w)) as [h | e].
  - destruct (insert_user _ _ _) as [[[] | e] w']; [reflexivity | ].
    destruct (code_is e "23505"); reflexivity.
  - destruct (code_is e "23505"); reflexivity.
Qed.

Lemma insert_user_log (email password : SqlValue) (w : World) :
  w_log (snd (insert_user email password w))
  = (w_log w ++ [mkSql SQL_INSERT_USER [PVal email; PVal password]])%list.
Proof.
  unfold insert_user, pool_query. destruct (next_fault w); [reflexivity | ].
  destruct (is_null email || is_null password)%bool; [reflexivity | ].
  destruct (existsb _ _); reflexivity.
Qed.

Lemma insert_user_duplicate (s h : string) (w : World) :
  next_fault w = None ->
  existsb (fun u => sql_eqb (u_email u) (Some s)) (w_users w) = true ->
  fst (insert_user (Some s) (Some h) w) = Throw unique_violation.
Proof.
  intros Hf Hex. unfold insert_user. rewrite (pool_query_runs _ _ _ _ Hf).
  simpl. rewrite Hex. reflexivity.
Qed.

Lemma insert_user_ok_inv (email password : SqlValue) (w w' : World) (u : unit) :
  insert_user email password w = (Ok u, w') ->
  existsb (fun u => sql_eqb (u_email u) email) (w_users w') = true.
Proof.
  unfold insert_user, pool_query. destruct (next_fault w); [discriminate | ].
  destruct email as [s |]; [ | discriminate]. simpl is_null.
  destruct password as [h |]; [ | discriminate]. simpl.
  destruct (existsb _ _); [discriminate | ].
  intros H. injection H as _ <-. simpl.
  rewrite existsb_app. simpl. rewrite String.eqb_refl. apply orb_true_r.
Qed.

Lemma insert_user_never_twice (s : string) (password : SqlValue) (w : World) :
  existsb (fun u => sql_eqb (u_email u) (Some s)) (w_users w) = true ->
  exists e, fst (insert_user (Some s) password w) = Throw e.
Proof.
  intros Hex. unfold insert_user, pool_query.
  destruct (next_fault w) as [e |]; [exists e; reflexivity | ].
  simpl. destruct (is_null password); [eexists; reflexivity | ].
  rewrite Hex. eexists; reflexivity.
Qed.

(** C4. For a registration with non-empty email and password: the
    [INSERT] is the only statement handed to the store, with no look-up
    before it; an error whose code is ['23505'], which is what the store
    raises when a row already has the email, is answered 409
    ['Email already exists'], any other error 500 with the error's message
    as [details]; and once a registration has succeeded, registering the
    same email again on the same [users] table never succeeds, and is
    answered 409 whenever the hash is computed and the store executes the
    statement. *)
Theorem register_reports_duplicate_as_conflict :
  forall (X : Externals) (req : Request) (w : World) (email password : JsonValue),
    prop (req_body req) "email" = Ok email ->
    prop (req_body req) "password" = Ok password ->
    truthy email = true -> truthy password = true ->
    (forall h,
        bcrypt_hash X password 10 (w_seed w) = Ok h ->
        w_log (snd (register X req w))
        = (w_log w ++ [mkSql SQL_INSERT_USER [PVal (prepareValue X email); PVal (Some h)]])%list
        /\ (next_fault w = None ->
            existsb (fun u => sql_eqb (u_email u) (prepareValue X email)) (w_users w) = true ->
            fst (register X req w)
            = Ok (status_json 409 (error_body "Email already exists")))
        /\ (forall e,
               next_fault w = Some e ->
               fst (register X req w)
               = Ok (if code_is e "23505"
                     then status_json 409 (error_body "Email already exists")
                     else status_json 500
                            (JObj [("error", JStr "Server error");
                                   ("details", JStr (err_message e))]))))
    /\ (forall resp1 w1,
           register X req w = (Ok resp1, w1) ->
           res_status resp1 = 200 ->
           forall req2 password2 w2,
             prop (req_body req2) "email" = Ok email ->
             prop (req_body req2) "password" = Ok password2 ->
             truthy password2 = true ->
             w_users w2 = w_users w1 ->
             exists resp2 w2',
               register X req2 w2 = (Ok resp2, w2')
               /\ res_status resp2 <> 200
               /\ (forall h2,
                      bcrypt_hash X password2 10 (w_seed w2) = Ok h2 ->
                      next_fault w2 = None ->
                      resp2 = status_json 409 (error_body "Email already exists"))).
Proof.
  intros X req w email password He Hp Te Tp.
  destruct (truthy_prepareValue X email Te) as (s & Hs).
  split.
  - intros h Hh. rewrite (register_unfold X req w email password He Hp Te Tp), Hh.
    split; [ | split].
    + pose proof (insert_user_log (prepareValue X email) (Some h) (next_seed w)) as Hlog.
      destruct (insert_user _ _ _) as [[[] | e] w']; exact Hlog.
    + intros Hf Hex. rewrite Hs in *.
      pose proof (insert_user_duplicate s h (next_seed w) Hf Hex) as Hd.
      destruct (insert_user _ _ _) as [[[] | e] w']; simpl in Hd; [discriminate Hd | ].
      injection Hd as ->. reflexivity.
    + intros e Hf. unfold insert_user.
      rewrite (pool_query_refused _ _ _ (next_seed w) e Hf). reflexivity.
  - intros resp1 w1 H1 Hs1 req2 password2 w2 He2 Hp2 Tp2 Hu.
    assert (Hex : existsb (fun u => sql_eqb (u_email u) (Some s)) (w_users w2) = true).
    { rewrite Hu, <- Hs.
      rewrite (register_unfold X req w email password He Hp Te Tp) in H1.
      destruct (bcrypt_hash X password 10 (w_seed w)) as [h | e].
      - destruct (insert_user _ _ _) as [[u | e] w'] eqn:Ei.
        + injection H1 as _ <-. eapply insert_user_ok_inv; exact Ei.
        + injection H1 as <- _. destruct (code_is e "23505"); discriminate Hs1.
      - injection H1 as <- _. destruct (code_is e "23505"); discriminate Hs1. }
    rewrite (register_unfold X req2 w2 email password2 He2 Hp2 Te Tp2), Hs.
    destruct (bcrypt_hash X password2 10 (w_seed w2)) as [h2 | e2].
    + destruct (insert_user_never_twice s (Some h2) (next_seed w2) Hex) as (e & Hthrow).
      pose proof (insert_user_duplicate s h2 (next_seed w2)) as Hd.
      destruct (insert_user _ _ _) as [[u | e'] w'] eqn:Ei; simpl in Hthrow, Hd;
        [discriminate Hthrow | ].
      eexists. eexists. split; [reflexivity | ]. split.
      * destruct (code_is e' "23505"); discriminate.
      * intros h2' _ Hf. specialize (Hd Hf Hex). injection Hd as ->. reflexivity.
    + eexists. eexists. split; [reflexivity | ]. split.
      * destruct (code_is e2 "23505"); discriminate.
      * intros h2' Hh'. discriminate Hh'.
Qed.

Lemma register_reports_duplicate_as_conflict_witness :
  fst (register sample_externals (request None (credentials "n@x.com" "pw1") 0) empty_world)
  = Ok (json success_body)
  /\ (exists w2',
         register sample_externals (request None (credentials "n@x.com" "pw2") 0)
           (snd (register sample_externals (request None (credentials "n@x.com" "pw1") 0)
                   empty_world))
         = (Ok (status_json 409 (error_body "Email already exists")), w2'))
  /\ fst (register sample_externals (request None (credentials "a@x.com" "pw1") 0)
            sample_world)
     = Ok (status_json 409 (error_body "Email already exists")).
Proof.
  split; [vm_compute; reflexivity | split].
  - destruct (register_reports_duplicate_as_conflict sample_externals
                (request None (credentials "n@x.com" "pw1") 0) empty_world
                (JStr "n@x.com") (JStr "pw1") eq_refl eq_refl eq_refl eq_refl)
      as [_ Htwice].
    destruct (Htwice (json success_body)
                (snd (register sample_externals
                        (request None (credentials "n@x.com" "pw1") 0) empty_world))
                eq_refl eq_refl
                (request None (credentials "n@x.com" "pw2") 0) (JStr "pw2")
                (snd (register sample_externals
                        (request None (credentials "n@x.com" "pw1") 0) empty_world))
                eq_refl eq_refl eq_refl eq_refl)
      as (resp2 & w2' & E & _ & H409).
    exists w2'. rewrite E. rewrite (H409 "hash:pw2" eq_refl eq_refl). reflexivity.
  - destruct (register_reports_duplicate_as_conflict sample_externals
                (request None (credentials "a@x.com" "pw1") 0) sample_world
                (JStr "a@x.com") (JStr "pw1") eq_refl eq_refl eq_refl eq_refl)
      as [Hfirst _].
    destruct (Hfirst "hash:pw1" eq_refl) as (_ & Hconflict & _).
    apply Hconflict; reflexivity.
Defined.

(** ** Further properties *)

(** *** What a handler leaves as it was *)

Lemma preserves_ret {A} (I : World -> Prop) (a : A) : preserves I (ret a).
Proof. intros w Hw. exact Hw. Qed.

Lemma preserves_lift {A} (I : World -> Prop) (r : JsResult A) : preserves I (lift r).
Proof. intros w Hw. exact Hw. Qed.

Lemma preserves_bind {A B} (I : World -> Prop) (c : M A) (k : A -> M B) :
  preserves I c -> (forall a, preserves I (k a)) -> preserves I (bind c k).
Proof.
  intros Hc Hk w Hw. unfold bind. specialize (Hc w Hw).
  destruct (c w) as [[a | e] w1]; simpl in *; [apply Hk; exact Hc | exact Hc].
Qed.

Lemma preserves_try_catch {A} (I : World -> Prop) (c : M A) (h : JsError -> M A) :
  preserves I c -> (forall e, preserves I (h e)) -> preserves I (try_catch c h).
Proof.
  intros Hc Hh w Hw. unfold try_catch. specialize (Hc w Hw).
  destruct (c w) as [[a | e] w1]; simpl in *; [exact Hc | apply Hh; exact Hc].
Qed.

Lemma preserves_mapM {A B} (I : World -> Prop) (f : A -> M B) (xs : list A) :
  (forall x, preserves I (f x)) -> preserves I (mapM f xs).
Proof.
  intros Hf. induction xs as [| x xs IH]; simpl.
  - apply preserves_ret.
  - apply preserves_bind; [apply Hf | intros y].
    apply preserves_bind; [exact IH | intros ys; apply preserves_ret].
Qed.

Lemma preserves_pool_query {A} (I : World -> Prop) (text : string) (params : list SqlParam)
    (run : World -> JsResult A * World) :
  stable I -> (forall w, I w -> I (snd (run w))) ->
  preserves I (pool_query text params run).
Proof.
  intros [Hi _] Hrun w Hw. unfold pool_query.
  destruct (next_fault w); simpl; [apply Hi; exact Hw | apply Hrun, Hi; exact Hw].
Qed.

Lemma preserves_read {A} (I : World -> Prop) (text : string) (params : list SqlParam)
    (f : World -> A) :
  stable I -> preserves I (pool_query text params (fun w => (Ok (f w), w))).
Proof. intros HI. apply preserves_pool_query; [exact HI | intros w Hw; exact Hw]. Qed.

Lemma preserves_authenticateToken (X : Externals) (I : World -> Prop) (req : Request)
    (next : Request -> M Response) :
  (forall r, preserves I (next r)) -> preserves I (authenticateToken X req next).
Proof.
  intros Hn w Hw. unfold authenticateToken.
  destruct (token_missing _); [exact Hw | ].
  destruct (jwt_verify _ _ _ _); [apply Hn; exact Hw | exact Hw].
Qed.

Ltac preserves_step HI :=
  first
    [ apply preserves_ret
    | apply preserves_lift
    | apply (preserves_read _ _ _ _ HI)
    | apply preserves_bind; [ | intros ? ]
    | apply preserves_try_catch; [ | intros ? ]
    | apply preserves_mapM; intros ?
    | match goal with
      | |- preserves _ (if ?b then _ else _) => destruct b
      | |- preserves _ (match ?x with _ => _ end) => destruct x
      end
    | solve [intros ? ?; assumption] ].

Lemma login_preserves X I req : stable I -> preserves I (login X req).
Proof.
  intros HI. unfold login, select_user. repeat preserves_step HI.
Qed.

Lemma get_profile_preserves X I req : stable I -> preserves I (get_profile X req).
Proof. intros HI. unfold get_profile, select_profile. repeat preserves_step HI. Qed.

Lemma get_delegations_preserves X I req : stable I -> preserves I (get_delegations X req).
Proof. intros HI. unfold get_delegations, select_delegations. repeat preserves_step HI. Qed.

Lemma get_analytics_preserves X I req : stable I -> preserves I (get_analytics X req).
Proof.
  intros HI. unfold get_analytics, count_where, top_performers, recent_activity,
    top_performer_entry, recent_activity_entry, select_names.
  repeat preserves_step HI.
Qed.

Lemma get_team_preserves X I req : stable I -> preserves I (get_team X req).
Proof.
  intros HI. unfold get_team, select_users, team_entry, count_where.
  repeat preserves_step HI.
Qed.

Lemma tables_are_stable us ds : stable (tables_are us ds).
Proof. split; intros; assumption. Qed.

(** X1. The login route and the four GET routes only read: whatever the
    request and whatever the outcome, both tables are afterwards what they
    were before. *)
Theorem reading_routes_leave_tables_unchanged :
  forall (X : Externals) (r : Route) (req : Request) (w : World),
    reading_route r = true ->
    w_users (snd (dispatch X r req w)) = w_users w
    /\ w_delegations (snd (dispatch X r req w)) = w_delegations w.
Proof.
  intros X r req w Hr.
  assert (H : preserves (tables_are (w_users w) (w_delegations w)) (dispatch X r req)).
  { pose proof (tables_are_stable (w_users w) (w_delegations w)) as HI.
    destruct r; try discriminate Hr; simpl.
    - apply login_preserves; exact HI.
    - apply preserves_authenticateToken. intros r'. apply get_profile_preserves; exact HI.
    - apply get_delegations_preserves; exact HI.
    - apply get_analytics_preserves; exact HI.
    - apply get_team_preserves; exact HI. }
  apply (H w). split; reflexivity.
Qed.

Lemma reading_routes_leave_tables_unchanged_witness :
  w_users (snd (dispatch sample_externals GET_analytics (request None JNull 0) sample_world))
  = w_users sample_world
  /\ w_delegations
       (snd (dispatch sample_externals GET_analytics (request None JNull 0) sample_world))
     = w_delegations sample_world.
Proof.
  apply (reading_routes_leave_tables_unchanged sample_externals GET_analytics
           (request None JNull 0) sample_world eq_refl).
Defined.

(** *** The constraints of the tables *)

Lemma wf_store_stable : stable wf_store.
Proof. split; intros; assumption. Qed.

Lemma NoDup_snoc {A : Type} (l : list A) (x : A) :
  NoDup l -> ~ In x l -> NoDup (l ++ [x]).
Proof.
  induction l as [| y l IH]; simpl; intros Hn Hx.
  - constructor; [intros [] | constructor].
  - inversion Hn as [| ? ? Hy Hl]; subst. constructor.
    + rewrite in_app_iff. simpl. intros [H | [H | []]]; [contradiction | subst; tauto].
    + apply IH; [exact Hl | tauto].
Qed.

Lemma NoDup_map_filter {A B : Type} (f : A -> B) (p : A -> bool) (l : list A) :
  NoDup (map f l) -> NoDup (map f (filter p l)).
Proof.
  induction l as [| x l IH]; simpl; intros H; [constructor | ].
  inversion H as [| ? ? Hx Hl]; subst.
  destruct (p x); simpl; [ | apply IH; exact Hl].
  constructor; [ | apply IH; exact Hl].
  intros Hin. apply Hx. apply in_map_iff in Hin. destruct Hin as (y & <- & Hy).
  apply in_map. apply filter_In in Hy. tauto.
Qed.

Lemma no_row_with_email (email : SqlValue) (us : list User) :
  email <> None ->
  existsb (fun u => sql_eqb (u_email u) email) us = false ->
  ~ In email (map u_email us).
Proof.
  intros Hne Hex Hin. apply in_map_iff in Hin. destruct Hin as (u & Hu & Hin).
  assert (Ht : existsb (fun u => sql_eqb (u_email u) email) us = true).
  { apply existsb_exists. exists u. split; [exact Hin | ].
    rewrite Hu. destruct email as [s |]; [apply String.eqb_refl | contradiction]. }
  congruence.
Qed.

Lemma insert_user_wf (email password : SqlValue) : preserves wf_store (insert_user email password).
Proof.
  apply preserves_pool_query; [apply wf_store_stable | ].
  intros w (He & Hi & Hu & Hd & Hn).
  assert (Hfail : wf_store (next_user_id w)).
  { repeat split; try assumption. simpl.
    eapply Forall_impl; [ | exact Hu]. simpl. intros u (? & ? & ?). repeat split; auto; lia. }
  destruct (is_null email || is_null password)%bool eqn:Enull; [exact Hfail | ].
  destruct (existsb _ _) eqn:Ex; [exact Hfail | ].
  apply orb_false_iff in Enull. destruct Enull as [En Ep].
  assert (Hemail : email <> None) by (destruct email; [discriminate | discriminate En]).
  assert (Hpass : password <> None) by (destruct password; [discriminate | discriminate Ep]).
  simpl. unfold wf_store. simpl. rewrite !map_app. simpl. repeat split.
  - apply NoDup_snoc; [exact He | apply no_row_with_email; assumption].
  - apply NoDup_snoc; [exact Hi | ].
    intros Hin. apply in_map_iff in Hin. destruct Hin as (u & Hid & Hin).
    rewrite Forall_forall in Hu. destruct (Hu u Hin) as (_ & _ & Hlt). lia.
  - apply Forall_app. split.
    + eapply Forall_impl; [ | exact Hu]. simpl. intros u (? & ? & ?). repeat split; auto; lia.
    + constructor; [simpl; repeat split; auto; lia | constructor].
  - exact Hd.
  - exact Hn.
Qed.

Lemma update_profile_wf (a b c d e f email : SqlValue) :
  preserves wf_store (update_profile a b c d e f email).
Proof.
  apply preserves_pool_query; [apply wf_store_stable | ].
  intros w (He & Hi & Hu & Hd & Hn). simpl. unfold wf_store. simpl.
  rewrite !map_map.
  assert (E1 : map (fun u => u_email (if sql_eqb (u_email u) email
                      then mkUser (u_id u) (u_email u) (u_password u) a b c d e f else u))
                   (w_users w) = map u_email (w_users w))
    by (apply map_ext; intros u; destruct (sql_eqb _ _); reflexivity).
  assert (E2 : map (fun u => u_id (if sql_eqb (u_email u) email
                      then mkUser (u_id u) (u_email u) (u_password u) a b c d e f else u))
                   (w_users w) = map u_id (w_users w))
    by (apply map_ext; intros u; destruct (sql_eqb _ _); reflexivity).
  rewrite E1, E2. repeat split; try assumption.
  apply Forall_map. eapply Forall_impl; [ | exact Hu]. simpl.
  intros u H. destruct (sql_eqb _ _); exact H.
Qed.

Lemma update_password_wf (hashed email : SqlValue) :
  preserves wf_store (update_password hashed email).
Proof.
  apply preserves_pool_query; [apply wf_store_stable | ].
  intros w Hw.
  destruct (is_null hashed && existsb _ _)%bool eqn:Echeck; [exact Hw | ].
  destruct Hw as (He & Hi & Hu & Hd & Hn). simpl. unfold wf_store. simpl.
  rewrite !map_map.
  assert (E1 : map (fun u => u_email (if sql_eqb (u_email u) email
                      then mkUser (u_id u) (u_email u) hashed (u_first_name u) (u_last_name u)
                             (u_phone u) (u_role u) (u_department u) (u_bio u) else u))
                   (w_users w) = map u_email (w_users w))
    by (apply map_ext; intros u; destruct (sql_eqb _ _); reflexivity).
  assert (E2 : map (fun u => u_id (if sql_eqb (u_email u) email
                      then mkUser (u_id u) (u_email u) hashed (u_first_name u) (u_last_name u)
                             (u_phone u) (u_role u) (u_department u) (u_bio u) else u))
                   (w_users w) = map u_id (w_users w))
    by (apply map_ext; intros u; destruct (sql_eqb _ _); reflexivity).
  rewrite E1, E2. repeat split; try assumption.
  apply Forall_map. rewrite Forall_forall in Hu |- *. intros u Hin.
  destruct (Hu u Hin) as (H1 & H2 & H3).
  destruct (sql_eqb (u_email u) email) eqn:Em; simpl; [ | auto].
  repeat split; auto.
  apply andb_false_iff in Echeck. destruct Echeck as [Hh | Hex].
  - destruct hashed; [discriminate | discriminate Hh].
  - assert (Ht : existsb (fun u => sql_eqb (u_email u) email) (w_users w) = true)
      by (apply existsb_exists; exists u; auto).
    congruence.
Qed.

Lemma insert_delegation_wf (ps : list SqlValue) : preserves wf_store (insert_delegation ps).
Proof.
  apply preserves_pool_query; [apply wf_store_stable | ].
  intros w (He & Hi & Hu & Hd & Hn).
  assert (Hfail : wf_store (next_delegation_id w)).
  { repeat split; try assumption. simpl.
    eapply Forall_impl; [ | exact Hn]. simpl. intros d (? & ?). split; auto; lia. }
  cbv zeta.
  destruct (violates_not_null _) eqn:Ev; [exact Hfail | ].
  simpl. unfold wf_store. simpl. rewrite !map_app. simpl. repeat split; try assumption.
  - apply NoDup_snoc; [exact Hd | ].
    intros Hin. apply in_map_iff in Hin. destruct Hin as (d & Hid & Hin).
    rewrite Forall_forall in Hn. destruct (Hn d Hin) as (Hlt & _). lia.
  - apply Forall_app. split.
    + eapply Forall_impl; [ | exact Hn]. simpl. intros d (? & ?). split; auto; lia.
    + constructor; [split; [simpl; lia | exact Ev] | constructor].
Qed.

Lemma update_delegation_wf (ps : list SqlValue) (id : Z) :
  preserves wf_store (update_delegation ps id).
Proof.
  apply preserves_pool_query; [apply wf_store_stable | ].
  intros w Hw. cbv zeta.
  destruct (existsb violates_not_null _) eqn:Ev; [exact Hw | ].
  destruct Hw as (He & Hi & Hu & Hd & Hn). simpl. unfold wf_store. simpl.
  rewrite map_map.
  assert (E : map (fun d => d_id (if d_id d =? id then updated_delegation d ps else d))
                  (w_delegations w) = map d_id (w_delegations w))
    by (apply map_ext; intros d; destruct (d_id d =? id); reflexivity).
  rewrite E. repeat split; try assumption.
  rewrite Forall_forall in Hn |- *. intros row Hin.
  pose proof Hin as Hin'. apply in_map_iff in Hin'. destruct Hin' as (d & Hrow & Hd_in).
  destruct (Hn d Hd_in) as (Hlt & Hnn).
  destruct (d_id d =? id) eqn:Eid; [ | subst row; auto].
  split; [subst row; exact Hlt | ].
  destruct (violates_not_null row) eqn:Evr; [ | reflexivity].
  assert (Ht : existsb violates_not_null
                 (filter (fun d => d_id d =? id)
                    (map (fun d => if d_id d =? id then updated_delegation d ps else d)
                         (w_delegations w))) = true).
  { apply existsb_exists. exists row. split; [ | exact Evr].
    apply filter_In. split; [exact Hin | subst row; exact Eid]. }
  congruence.
Qed.

Lemma delete_delegation_wf (id : Z) : preserves wf_store (delete_delegation id).
Proof.
  apply preserves_pool_query; [apply wf_store_stable | ].
  intros w (He & Hi & Hu & Hd & Hn). simpl. unfold wf_store. simpl.
  repeat split; try assumption.
  - apply NoDup_map_filter. exact Hd.
  - apply Forall_forall. intros d Hin. apply filter_In in Hin.
    rewrite Forall_forall in Hn. apply Hn. tauto.
Qed.

Lemma hash_password_preserves X I data rounds : stable I -> preserves I (hash_password X data rounds).
Proof. intros [_ Hs] w Hw. unfold hash_password. simpl. apply Hs. exact Hw. Qed.

Ltac wf_step :=
  first
    [ apply insert_user_wf | apply update_profile_wf | apply update_password_wf
    | apply insert_delegation_wf | apply update_delegation_wf | apply delete_delegation_wf
    | apply (hash_password_preserves _ _ _ _ wf_store_stable)
    | preserves_step wf_store_stable ].

Lemma dispatch_wf X r req : preserves wf_store (dispatch X r req).
Proof.
  destruct r; simpl.
  - unfold register. repeat wf_step.
  - apply login_preserves, wf_store_stable.
  - apply preserves_authenticateToken. intros r'. apply get_profile_preserves, wf_store_stable.
  - apply preserves_authenticateToken. intros r'. unfold put_profile. repeat wf_step.
  - apply preserves_authenticateToken. intros r'. unfold change_password, select_user.
    repeat wf_step.
  - apply get_delegations_preserves, wf_store_stable.
  - unfold post_delegations. repeat wf_step.
  - unfold put_delegation. repeat wf_step.
  - unfold delete_delegation_handler. repeat wf_step.
  - apply get_analytics_preserves, wf_store_stable.
  - apply get_team_preserves, wf_store_stable.
Qed.

(** X2. What the two [CREATE TABLE] statements declare keeps holding under
    any sequence of requests to any routes: emails and ids stay unique, ids
    stay below their sequence, and [email], [password], [task_name],
    [assigned_by] and [assigned_to] are never null. *)
Theorem constraints_hold_after_any_requests :
  forall (X : Externals) (requests : list (Route * Request)) (w : World),
    wf_store w -> wf_store (serve X requests w).
Proof.
  intros X requests. induction requests as [| [r req] rest IH]; simpl; intros w Hw.
  - exact Hw.
  - apply IH. apply dispatch_wf. exact Hw.
Qed.

Lemma sample_world_wf : wf_store sample_world.
Proof.
  unfold wf_store. simpl. repeat split;
    repeat (constructor; simpl; try (intuition discriminate); try lia);
    repeat split; try discriminate; try reflexivity; try lia.
Qed.

Lemma constraints_hold_after_any_requests_witness :
  wf_store
    (serve sample_externals
       [(POST_register, request None (credentials "n@x.com" "pw") 0);
        (POST_register, request None (credentials "n@x.com" "pw") 0);
        (POST_delegations, request None new_delegation_body 0);
        (PUT_delegations_id, request None (update_body JNull) 2);
        (DELETE_delegations_id, request None JNull 1)]
       sample_world).
Proof.
  apply constraints_hold_after_any_requests. apply sample_world_wf.
Defined.

(** *** Credentials, profiles and delegations *)

(** X3. A registration or a login whose email or password is missing or
    falsy is answered 400 ['Missing fields'] before anything else happens:
    no statement is issued, no hash is computed, the world is unchanged. *)
Theorem missing_credentials_are_refused_before_the_store :
  forall (X : Externals) (req : Request) (w : World) (email password : JsonValue),
    prop (req_body req) "email" = Ok email ->
    prop (req_body req) "password" = Ok password ->
    truthy email = false \/ truthy password = false ->
    register X req w = (Ok (status_json 400 (error_body "Missing fields")), w)
    /\ login X req w = (Ok (status_json 400 (error_body "Missing fields")), w).
Proof.
  intros X req w email password He Hp Hf.
  unfold register, login, bind, lift. rewrite He, Hp.
  destruct Hf as [-> | ->]; simpl; [ | rewrite orb_true_r]; split; reflexivity.
Qed.

Lemma missing_credentials_are_refused_before_the_store_witness :
  register sample_externals (request None (JObj [("email", JStr "a@x.com")]) 0) sample_world
  = (Ok (status_json 400 (error_body "Missing fields")), sample_world)
  /\ login sample_externals (request None (JObj [("email", JStr "a@x.com")]) 0) sample_world
     = (Ok (status_json 400 (error_body "Missing fields")), sample_world).
Proof.
  apply (missing_credentials_are_refused_before_the_store sample_externals
           (request None (JObj [("email", JStr "a@x.com")]) 0) sample_world
           (JStr "a@x.com") JUndefined eq_refl eq_refl).
  right. reflexivity.
Defined.

Lemma users_by_email_fresh (s : string) (us : list User) (row : User) :
  existsb (fun u => sql_eqb (u_email u) (Some s)) us = false ->
  u_email row = Some s ->
  users_by_email (Some s) (us ++ [row]) = [row].
Proof.
  intros Hex Hrow. unfold users_by_email. rewrite filter_app. simpl.
  rewrite Hrow. simpl. rewrite String.eqb_refl.
  assert (E : filter (fun u => sql_eqb (u_email u) (Some s)) us = []).
  { induction us as [| u us IH]; [reflexivity | ].
    simpl in Hex. apply orb_false_iff in Hex. destruct Hex as [Hu Hus].
    simpl. rewrite Hu. apply IH. exact Hus. }
  rewrite E. reflexivity.
Qed.

Lemma register_success_inv (X : Externals) (req : Request) (w w1 : World)
    (email password : JsonValue) (resp : Response) (h : string) :
  prop (req_body req) "email" = Ok email ->
  prop (req_body req) "password" = Ok password ->
  truthy email = true -> truthy password = true ->
  bcrypt_hash X password 10 (w_seed w) = Ok h ->
  register X req w = (Ok resp, w1) ->
  res_status resp = 200 ->
  exists s,
    prepareValue X email = Some s
    /\ existsb (fun u => sql_eqb (u_email u) (Some s)) (w_users w) = false
    /\ w_users w1
       = (w_users w ++ [mkUser (w_users_seq w) (Some s) (Some h) None None None None None None])%list
    /\ w_delegations w1 = w_delegations w.
Proof.
  intros He Hp Te Tp Hh H Hs.
  rewrite (register_unfold X req w email password He Hp Te Tp), Hh in H.
  destruct (truthy_prepareValue X email Te) as (s & Es). exists s. split; [exact Es | ].
  rewrite Es in H. unfold insert_user, pool_query in H.
  destruct (next_fault (next_seed w)) as [e |].
  { injection H as <- _. destruct (code_is e "23505"); discriminate Hs. }
  simpl in H.
  destruct (existsb _ _) eqn:Ex.
  { injection H as <- _. discriminate Hs. }
  injection H as _ <-. simpl. auto.
Qed.

(** X4. After a successful registration, a login with the same email and
    password on the same [users] table is answered with a token, provided
    the store answers, bcrypt accepts the password against the hash it
    produced, and the signing succeeds: the row found is the one the
    registration inserted, and the token signs that row's email. *)
Theorem login_succeeds_after_registration :
  forall (X : Externals) (req req2 : Request) (w w1 w2 : World)
         (email password : JsonValue) (resp : Response) (h token : string),
    prop (req_body req) "email" = Ok email ->
    prop (req_body req) "password" = Ok password ->
    truthy email = true -> truthy password = true ->
    bcrypt_hash X password 10 (w_seed w) = Ok h ->
    register X req w = (Ok resp, w1) ->
    res_status resp = 200 ->
    prop (req_body req2) "email" = Ok email ->
    prop (req_body req2) "password" = Ok password ->
    w_users w2 = w_users w1 ->
    next_fault w2 = None ->
    bcrypt_compare X password (JStr h) = Ok true ->
    jwt_sign X (JObj [("email", text_json (prepareValue X email))]) (JWT_SECRET X) "1h" (w_now w2)
    = Ok token ->
    fst (login X req2 w2)
    = Ok (json (JObj [("success", JBool true); ("token", JStr token)])).
Proof.
  intros X req req2 w w1 w2 email password resp h token
         He Hp Te Tp Hh Hreg Hs He2 Hp2 Hu Hf Hcmp Hsign.
  destruct (register_success_inv X req w w1 email password resp h He Hp Te Tp Hh Hreg Hs)
    as (s & Es & Hex & Hus & _).
  unfold login, bind, lift, try_catch, select_user.
  rewrite He2, Hp2, Te, Tp. simpl. rewrite (pool_query_runs _ _ _ _ Hf). simpl.
  rewrite Hu, Hus, Es.
  erewrite users_by_email_fresh by first [exact Hex | reflexivity]. simpl.
  rewrite Hcmp. simpl. rewrite Es in Hsign. simpl in Hsign. rewrite Hsign. reflexivity.
Qed.

Lemma login_succeeds_after_registration_witness :
  fst (login sample_externals (request None (credentials "n@x.com" "pw") 0)
         (snd (register sample_externals (request None (credentials "n@x.com" "pw") 0)
                 empty_world)))
  = Ok (json (JObj [("success", JBool true); ("token", JStr "jwt.n@x.com")])).
Proof.
  apply (login_succeeds_after_registration sample_externals
           (request None (credentials "n@x.com" "pw") 0)
           (request None (credentials "n@x.com" "pw") 0)
           empty_world
           (snd (register sample_externals (request None (credentials "n@x.com" "pw") 0)
                   empty_world))
           (snd (register sample_externals (request None (credentials "n@x.com" "pw") 0)
                   empty_world))
           (JStr "n@x.com") (JStr "pw") (json success_body) "hash:pw" "jwt.n@x.com");
    reflexivity.
Defined.

Lemma filter_map_commute {A : Type} (p : A -> bool) (f : A -> A) (l : list A) :
  (forall x, p (f x) = p x) -> filter p (map f l) = map f (filter p l).
Proof.
  intros H. induction l as [| x l IH]; simpl; [reflexivity | ].
  rewrite H. destruct (p x); simpl; rewrite IH; reflexivity.
Qed.

Lemma map_unchanged {A : Type} (f : A -> A) (l : list A) :
  (forall x, In x l -> f x = x) -> map f l = l.
Proof.
  induction l as [| x l IH]; simpl; intros H; [reflexivity | ].
  rewrite (H x (or_introl eq_refl)), IH; [reflexivity | ].
  intros y Hy. apply H. now right.
Qed.

Lemma users_by_email_nil (email : SqlValue) (us : list User) :
  users_by_email email us = [] ->
  forall u, In u us -> sql_eqb (u_email u) email = false.
Proof.
  intros H u Hin. destruct (sql_eqb (u_email u) email) eqn:E; [ | reflexivity].
  assert (Hf : In u (users_by_email email us)) by (apply filter_In; auto).
  rewrite H in Hf. destruct Hf.
Qed.

(** X5. A password change whose current password bcrypt rejects is
    answered 401 ['Invalid current password']; the [users] table is
    untouched, no new hash is computed, and the look-up is the only
    statement issued. *)
Theorem wrong_current_password_changes_nothing :
  forall (X : Externals) (req : Request) (w : World)
         (email currentPassword newPassword : JsonValue) (user : User) (rest : list User),
    prop (req_user req) "email" = Ok email ->
    prop (req_body req) "currentPassword" = Ok currentPassword ->
    prop (req_body req) "newPassword" = Ok newPassword ->
    truthy currentPassword = true -> truthy newPassword = true ->
    next_fault w = None ->
    users_by_email (prepareValue X email) (w_users w) = user :: rest ->
    bcrypt_compare X currentPassword (text_json (u_password user)) = Ok false ->
    exists w',
      change_password X req w
      = (Ok (status_json 401 (error_body "Invalid current password")), w')
      /\ w_users w' = w_users w
      /\ w_seed w' = w_seed w
      /\ List.length (w_log w') = S (List.length (w_log w)).
Proof.
  intros X req w email cur new user rest He Hc Hn Tc Tn Hf Hu Hcmp.
  unfold change_password, bind, lift, try_catch, select_user.
  rewrite He, Hc, Hn, Tc, Tn. simpl. rewrite (pool_query_runs _ _ _ _ Hf). simpl.
  rewrite Hu, Hcmp. simpl. eexists. split; [reflexivity | ]. simpl.
  rewrite length_app. simpl. repeat split. lia.
Qed.

Lemma wrong_current_password_changes_nothing_witness :
  exists w',
    change_password sample_externals
      (authenticated "a@x.com"
         (JObj [("currentPassword", JStr "guess"); ("newPassword", JStr "pw2")]))
      sample_world
    = (Ok (status_json 401 (error_body "Invalid current password")), w')
    /\ w_users w' = w_users sample_world.
Proof.
  destruct (wrong_current_password_changes_nothing sample_externals
              (authenticated "a@x.com"
                 (JObj [("currentPassword", JStr "guess"); ("newPassword", JStr "pw2")]))
              sample_world (JStr "a@x.com") (JStr "guess") (JStr "pw2")
              (sample_user 1 "a@x.com" None None) []
              eq_refl eq_refl eq_refl eq_refl eq_refl eq_refl eq_refl eq_refl)
    as (w' & E & Hu & _).
  exists w'. split; [exact E | exact Hu].
Defined.

(** X6. A password change with the right current password answers
    success and replaces the stored hash of every row with the identity's
    email by the hash of the new password, leaving all other rows as they
    were; a login with the new password is then answered with a token. *)
Theorem changed_password_is_the_one_login_checks :
  forall (X : Externals) (req req2 : Request) (w w2 : World)
         (email email2 currentPassword newPassword : JsonValue)
         (user : User) (rest : list User) (h token : string),
    prop (req_user req) "email" = Ok email ->
    prop (req_body req) "currentPassword" = Ok currentPassword ->
    prop (req_body req) "newPassword" = Ok newPassword ->
    truthy currentPassword = true -> truthy newPassword = true ->
    w_faults w = [] ->
    users_by_email (prepareValue X email) (w_users w) = user :: rest ->
    bcrypt_compare X currentPassword (text_json (u_password user)) = Ok true ->
    bcrypt_hash X newPassword 10 (w_seed w) = Ok h ->
    exists w',
      change_password X req w = (Ok (json success_body), w')
      /\ w_users w'
         = map (fun u =>
                  if sql_eqb (u_email u) (prepareValue X email)
                  then mkUser (u_id u) (u_email u) (Some h) (u_first_name u) (u_last_name u)
                              (u_phone u) (u_role u) (u_department u) (u_bio u)
                  else u)
               (w_users w)
      /\ (prop (req_body req2) "email" = Ok email2 ->
          prop (req_body req2) "password" = Ok newPassword ->
          truthy email2 = true ->
          prepareValue X email2 = prepareValue X email ->
          w_users w2 = w_users w' ->
          next_fault w2 = None ->
          bcrypt_compare X newPassword (JStr h) = Ok true ->
          jwt_sign X (JObj [("email", text_json (u_email user))]) (JWT_SECRET X) "1h" (w_now w2)
          = Ok token ->
          fst (login X req2 w2)
          = Ok (json (JObj [("success", JBool true); ("token", JStr token)]))).
Proof.
  intros X req req2 w w2 email email2 cur new user rest h token
         He Hc Hn Tc Tn Hf Hu Hcmp Hh.
  destruct w as [us ds su sd now seed faults log]. simpl in Hf, Hu, Hh. subst faults.
  unfold change_password, bind, lift, try_catch, select_user, hash_password, update_password,
         pool_query, next_fault.
  rewrite He, Hc, Hn, Tc, Tn. simpl. rewrite Hu, Hcmp. simpl. rewrite Hh. simpl.
  eexists. split; [reflexivity | ]. simpl. split; [reflexivity | ].
  intros He2 Hp2 Te2 Heq Hu2 Hf2 Hcmp2 Hsign.
  unfold login, bind, lift, try_catch, select_user.
  rewrite He2, Hp2, Te2, Tn. simpl. rewrite (pool_query_runs _ _ _ _ Hf2). simpl.
  rewrite Hu2, Heq. unfold users_by_email.
  rewrite filter_map_commute by (intros u; destruct (sql_eqb (u_email u) _) eqn:E; simpl; rewrite E; reflexivity).
  fold (users_by_email (prepareValue X email) us). rewrite Hu. simpl.
  assert (Em : sql_eqb (u_email user) (prepareValue X email) = true).
  { assert (Hin : In user (users_by_email (prepareValue X email) us))
      by (rewrite Hu; now left).
    apply filter_In in Hin. tauto. }
  rewrite Em. simpl. rewrite Hcmp2. simpl. rewrite Hsign. reflexivity.
Qed.

Lemma changed_password_is_the_one_login_checks_witness :
  exists w',
    change_password sample_externals
      (authenticated "a@x.com"
         (JObj [("currentPassword", JStr "pw1"); ("newPassword", JStr "pw2")]))
      sample_world
    = (Ok (json success_body), w')
    /\ fst (login sample_externals (request None (credentials "a@x.com" "pw2") 0) w')
       = Ok (json (JObj [("success", JBool true); ("token", JStr "jwt.a@x.com")])).
Proof.
  destruct (changed_password_is_the_one_login_checks sample_externals
              (authenticated "a@x.com"
                 (JObj [("currentPassword", JStr "pw1"); ("newPassword", JStr "pw2")]))
              (request None (credentials "a@x.com" "pw2") 0)
              sample_world
              (snd (change_password sample_externals
                      (authenticated "a@x.com"
                         (JObj [("currentPassword", JStr "pw1"); ("newPassword", JStr "pw2")]))
                      sample_world))
              (JStr "a@x.com") (JStr "a@x.com") (JStr "pw1") (JStr "pw2")
              (sample_user 1 "a@x.com" None None) [] "hash:pw2" "jwt.a@x.com"
              eq_refl eq_refl eq_refl eq_refl eq_refl eq_refl eq_refl eq_refl eq_refl)
    as (w' & E & Hu & Hlogin).
  exists w'. split; [exact E | ].
  assert (Ew : w' = snd (change_password sample_externals
                           (authenticated "a@x.com"
                              (JObj [("currentPassword", JStr "pw1");
                                     ("newPassword", JStr "pw2")]))
                           sample_world))
    by (rewrite E; reflexivity).
  rewrite Ew. apply Hlogin; try reflexivity. rewrite <- Ew. reflexivity.
Defined.

(** X7. Updating the profile overwrites all six attributes: reading the
    profile back gives, for each attribute, the value sent, and [null] for
    an attribute the body did not mention, whatever was stored before; the
    email and the password of every row are unchanged. *)
Theorem profile_update_is_a_full_overwrite :
  forall (X : Externals) (req reqGet : Request) (w : World) (email : JsonValue)
         (fields : list (string * JsonValue)) (user : User) (rest : list User),
    prop (req_user req) "email" = Ok email ->
    req_user reqGet = req_user req ->
    req_body req = JObj fields ->
    w_faults w = [] ->
    users_by_email (prepareValue X email) (w_users w) = user :: rest ->
    exists w' w'',
      put_profile X req w = (Ok (json success_body), w')
      /\ get_profile X reqGet w'
         = (Ok (json (JObj [("email", text_json (u_email user));
                            ("first_name",
                             text_json (prepareValue X (lookup_field "first_name" fields)));
                            ("last_name",
                             text_json (prepareValue X (lookup_field "last_name" fields)));
                            ("phone", text_json (prepareValue X (lookup_field "phone" fields)));
                            ("role", text_json (prepareValue X (lookup_field "role" fields)));
                            ("department",
                             text_json (prepareValue X (lookup_field "department" fields)));
                            ("bio", text_json (prepareValue X (lookup_field "bio" fields)))])),
            w'')
      /\ map u_email (w_users w') = map u_email (w_users w)
      /\ map u_password (w_users w') = map u_password (w_users w).
Proof.
  intros X req reqGet w email fields user rest He Hget Hb Hf Hu.
  destruct w as [us ds su sd now seed faults log]. simpl in Hf, Hu. subst faults.
  unfold put_profile, get_profile, bind, lift, try_catch, update_profile, select_profile,
         pool_query, next_fault.
  rewrite Hget, He, Hb. simpl.
  eexists. eexists. split; [reflexivity | ]. simpl. split; [ | split].
  - unfold users_by_email.
    rewrite filter_map_commute
      by (intros u; destruct (sql_eqb (u_email u) _) eqn:E; simpl; rewrite E; reflexivity).
    fold (users_by_email (prepareValue X email) us). rewrite Hu. simpl.
    assert (Em : sql_eqb (u_email user) (prepareValue X email) = true).
    { assert (Hin : In user (users_by_email (prepareValue X email) us))
        by (rewrite Hu; now left).
      apply filter_In in Hin. tauto. }
    rewrite Em. reflexivity.
  - rewrite map_map. apply map_ext. intros u. destruct (sql_eqb _ _); reflexivity.
  - rewrite map_map. apply map_ext. intros u. destruct (sql_eqb _ _); reflexivity.
Qed.

Lemma profile_update_is_a_full_overwrite_witness :
  exists w' w'',
    put_profile sample_externals
      (authenticated "b@x.com" (JObj [("first_name", JStr "Beatrix")])) sample_world
    = (Ok (json success_body), w')
    /\ get_profile sample_externals (authenticated "b@x.com" JNull) w'
       = (Ok (json (JObj [("email", JStr "b@x.com"); ("first_name", JStr "Beatrix");
                          ("last_name", JNull); ("phone", JNull); ("role", JNull);
                          ("department", JNull); ("bio", JNull)])), w'').
Proof.
  destruct (profile_update_is_a_full_overwrite sample_externals
              (authenticated "b@x.com" (JObj [("first_name", JStr "Beatrix")]))
              (authenticated "b@x.com" JNull) sample_world (JStr "b@x.com")
              [("first_name", JStr "Beatrix")]
              (sample_user 2 "b@x.com" (Some "Bea") (Some "Li")) []
              eq_refl eq_refl eq_refl eq_refl eq_refl)
    as (w' & w'' & E1 & E2 & _).
  exists w', w''. split; [exact E1 | exact E2].
Defined.

(** X8. An update that matches no row is answered success and changes
    nothing: a profile update for an identity without a row, and a
    delegation update for an id no row has (even when the parameters would
    put null into a [NOT NULL] column). *)
Theorem updating_a_missing_row_answers_success :
  forall (X : Externals) (req : Request) (w : World),
    next_fault w = None ->
    (forall email fields,
        prop (req_user req) "email" = Ok email ->
        req_body req = JObj fields ->
        users_by_email (prepareValue X email) (w_users w) = [] ->
        exists w',
          put_profile X req w = (Ok (json success_body), w')
          /\ w_users w' = w_users w /\ w_delegations w' = w_delegations w)
    /\ (forall ps,
           params_of X UPDATE_PARAMS (req_body req) = Ok ps ->
           (forall d, In d (w_delegations w) -> d_id d <> req_id req) ->
           exists w',
             put_delegation X req w = (Ok (json success_body), w')
             /\ w_users w' = w_users w /\ w_delegations w' = w_delegations w).
Proof.
  intros X req w Hf. split.
  - intros email fields He Hb Hu.
    unfold put_profile, bind, lift, try_catch, update_profile. rewrite He, Hb. simpl.
    rewrite (pool_query_runs _ _ _ _ Hf). simpl.
    eexists. split; [reflexivity | ]. simpl. split; [ | reflexivity].
    apply map_unchanged. intros u Hin.
    rewrite (users_by_email_nil _ _ Hu u Hin). reflexivity.
  - intros ps Hps Hnone.
    assert (Hrows : map (fun d => if d_id d =? req_id req then updated_delegation d ps else d)
                        (w_delegations w) = w_delegations w).
    { apply map_unchanged. intros d Hin.
      destruct (d_id d =? req_id req) eqn:E; [ | reflexivity].
      apply Z.eqb_eq in E. destruct (Hnone d Hin E). }
    assert (Hfilter : filter (fun d => d_id d =? req_id req) (w_delegations w) = []).
    { destruct (filter _ _) as [| d l] eqn:E; [reflexivity | ].
      assert (Hin : In d (filter (fun d => d_id d =? req_id req) (w_delegations w)))
        by (rewrite E; now left).
      apply filter_In in Hin. destruct Hin as [Hin Hid]. apply Z.eqb_eq in Hid.
      destruct (Hnone d Hin Hid). }
    unfold put_delegation, try_catch, bind, lift, update_delegation. rewrite Hps.
    rewrite (pool_query_runs _ _ _ _ Hf). cbv zeta. simpl w_delegations.
    rewrite Hrows, Hfilter. simpl.
    eexists. split; [reflexivity | ]. split; reflexivity.
Qed.

Lemma updating_a_missing_row_answers_success_witness :
  (exists w',
      put_profile sample_externals
        (authenticated "nobody@x.com" (JObj [("first_name", JStr "N")])) sample_world
      = (Ok (json success_body), w')
      /\ w_users w' = w_users sample_world)
  /\ (exists w',
         put_delegation sample_externals (request None (JObj []) 99) sample_world
         = (Ok (json success_body), w')
         /\ w_delegations w' = w_delegations sample_world).
Proof.
  destruct (updating_a_missing_row_answers_success sample_externals
              (authenticated "nobody@x.com" (JObj [("first_name", JStr "N")]))
              sample_world eq_refl) as [Hprofile _].
  destruct (updating_a_missing_row_answers_success sample_externals
              (request None (JObj []) 99) sample_world eq_refl) as [_ Hdelegation].
  split.
  - destruct (Hprofile (JStr "nobody@x.com") [("first_name", JStr "N")]
                eq_refl eq_refl eq_refl) as (w' & E & Hu & _).
    exists w'. split; [exact E | exact Hu].
  - destruct (Hdelegation _ eq_refl) as (w' & E & _ & Hd).
    + simpl. intros d [<- | [<- | [<- | []]]]; discriminate.
    + exists w'. split; [exact E | exact Hd].
Defined.

Lemma name_or_self_inv (f y : JsonValue) :
  name_or_self f = Ok y -> y = attachment_name f.
Proof.
  unfold name_or_self, attachment_name.
  destruct (prop f "name") as [n | e] eqn:E; [ | discriminate].
  apply prop_ok_opt in E. intros H. injection H as <-. rewrite E. reflexivity.
Qed.

Lemma mapR_name_or_self_inv (items names : list JsonValue) :
  mapR name_or_self items = Ok names -> names = map attachment_name items.
Proof.
  revert names. induction items as [| f items IH]; simpl; intros names H.
  - injection H as <-. reflexivity.
  - destruct (name_or_self f) as [y | e] eqn:E; [ | discriminate].
    destruct (mapR name_or_self items) as [ys | e]; [ | discriminate].
    injection H as <-. rewrite (name_or_self_inv _ _ E), (IH ys eq_refl). reflexivity.
Qed.

Lemma mapR_name_or_self_throws (items : list JsonValue) :
  existsb is_nullish items = true -> exists e, mapR name_or_self items = Throw e.
Proof.
  induction items as [| f items IH]; simpl; [discriminate | ].
  intros H. apply orb_true_iff in H.
  destruct (name_or_self f) as [y | e] eqn:E; [ | eexists; reflexivity].
  destruct H as [Hf | Hrest].
  - destruct f; try discriminate Hf; discriminate E.
  - destruct (IH Hrest) as (e & ->). eexists; reflexivity.
Qed.

Lemma eval_NamesOf_inv (d : JsonValue) (k : string) (y : JsonValue) :
  eval_param d (NamesOf k) = Ok y ->
  y = match opt_prop d k with
      | JArr items => JArr (map attachment_name items)
      | _ => JArr []
      end.
Proof.
  simpl. destruct (prop d k) as [v | e] eqn:E; [ | discriminate].
  apply prop_ok_opt in E. rewrite <- E.
  destruct v; intros H; try (injection H as <-; reflexivity).
  destruct (mapR name_or_self items) as [names | e] eqn:Em; [ | discriminate].
  injection H as <-. rewrite (mapR_name_or_self_inv _ _ Em). reflexivity.
Qed.

(** X9. In a delegation update the attachments parameter is the array of
    the entries' names ([f.name || f]: the [name] of an object that has a
    truthy one, the entry itself otherwise), and the empty array when the
    body's [attachments] is not an array.  An array with a [null] or
    [undefined] entry makes the handler answer 500 without issuing a
    statement. *)
Theorem update_normalizes_attachments :
  forall (X : Externals) (req : Request) (w : World),
    (forall ps,
        params_of X UPDATE_PARAMS (req_body req) = Ok ps ->
        positional 7 ps
        = prepareValue X
            match opt_prop (req_body req) "attachments" with
            | JArr items => JArr (map attachment_name items)
            | _ => JArr []
            end)
    /\ (forall fields items,
           req_body req = JObj fields ->
           lookup_field "attachments" fields = JArr items ->
           existsb is_nullish items = true ->
           exists e,
             put_delegation X req w
             = (Ok (status_json 500 (error_details "Server error" e)), w))
    /\ (forall s, attachment_name (JStr s) = JStr s)
    /\ (forall fields,
           attachment_name (JObj fields)
           = if truthy (lookup_field "name" fields)
             then lookup_field "name" fields
             else JObj fields).
Proof.
  intros X req w. split; [ | split; [ | split]].
  - intros ps. unfold params_of, UPDATE_PARAMS.
    destruct (mapR _ _) as [vs | e] eqn:E; [ | discriminate].
    intros H. injection H as <-.
    repeat (apply mapR_cons_inv in E; destruct E as (? & ? & ? & E & ->)).
    match goal with
    | H : eval_param _ (NamesOf _) = Ok _ |- _ => apply eval_NamesOf_inv in H; subst
    end.
    reflexivity.
  - intros fields items Hb Hl Hnull.
    destruct (mapR_name_or_self_throws items Hnull) as (e & He).
    exists e. unfold put_delegation, try_catch, bind, lift, params_of, UPDATE_PARAMS.
    rewrite Hb. simpl. rewrite Hl, He. reflexivity.
  - intros s. reflexivity.
  - intros fields. reflexivity.
Qed.

Lemma update_normalizes_attachments_witness :
  (exists ps,
      params_of sample_externals UPDATE_PARAMS
        (JObj [("attachments",
                JArr [JStr "a.pdf"; JObj [("name", JStr "b.png"); ("size", JStr "9")]])])
      = Ok ps
      /\ positional 7 ps
         = prepareValue sample_externals (JArr [JStr "a.pdf"; JStr "b.png"]))
  /\ exists e,
       put_delegation sample_externals
         (request None (JObj [("attachments", JArr [JStr "a.pdf"; JNull])]) 2) sample_world
       = (Ok (status_json 500 (error_details "Server error" e)), sample_world).
Proof.
  split.
  - eexists. split; [reflexivity | ].
    apply (proj1 (update_normalizes_attachments sample_externals
                    (request None
                       (JObj [("attachments",
                               JArr [JStr "a.pdf";
                                     JObj [("name", JStr "b.png"); ("size", JStr "9")]])]) 2)
                    sample_world) _ eq_refl).
  - destruct (update_normalizes_attachments sample_externals
                (request None (JObj [("attachments", JArr [JStr "a.pdf"; JNull])]) 2)
                sample_world) as (_ & Hnull & _).
    apply (Hnull [("attachments", JArr [JStr "a.pdf"; JNull])] [JStr "a.pdf"; JNull]);
      reflexivity.
Defined.

Lemma find_snoc {A : Type} (p : A -> bool) (l : list A) (x : A) :
  (forall y, In y l -> p y = false) -> p x = true -> find p (l ++ [x]) = Some x.
Proof.
  induction l as [| y l IH]; simpl; intros Hl Hx.
  - rewrite Hx. reflexivity.
  - rewrite (Hl y (or_introl eq_refl)). apply IH; [ | exact Hx].
    intros z Hz. apply Hl. now right.
Qed.

Lemma create_params (X : Externals) (fields : list (string * JsonValue)) :
  params_of X CREATE_PARAMS (JObj fields)
  = Ok (map (prepareValue X)
          [lookup_field "taskName" fields; lookup_field "assignedBy" fields;
           lookup_field "assignedTo" fields; lookup_field "plannedDate" fields;
           lookup_field "priority" fields; lookup_field "message" fields;
           js_or (lookup_field "attachments" fields) (JArr []);
           lookup_field "assignedPC" fields; lookup_field "groupName" fields;
           lookup_field "notifyTo" fields; lookup_field "auditor" fields;
           lookup_field "makeAttachmentMandatory" fields;
           lookup_field "makeNoteMandatory" fields; lookup_field "notifyDoer" fields;
           lookup_field "setReminder" fields; lookup_field "reminderMode" fields;
           lookup_field "reminderFrequency" fields; lookup_field "reminderBeforeDays" fields;
           lookup_field "reminderStartingTime" fields; lookup_field "status" fields;
           lookup_field "notes" fields]).
Proof. reflexivity. Qed.

(** X10. Creating a delegation whose three required columns get a value
    appends exactly one row and answers with it: its id is the next value of
    the sequence, [created_at] is the store's clock, [completed_at] is null,
    and the participants, the status and the attachments are stored as sent
    (no email is extracted, no status is defaulted).  Looking the id up
    afterwards finds that row. *)
Theorem create_appends_the_row_it_returns :
  forall (X : Externals) (req : Request) (w : World) (fields : list (string * JsonValue)),
    req_body req = JObj fields ->
    next_fault w = None ->
    prepareValue X (lookup_field "taskName" fields) <> None ->
    prepareValue X (lookup_field "assignedBy" fields) <> None ->
    prepareValue X (lookup_field "assignedTo" fields) <> None ->
    exists row w',
      post_delegations X req w = (Ok (json (delegation_json X row)), w')
      /\ w_delegations w' = (w_delegations w ++ [row])%list
      /\ w_users w' = w_users w
      /\ d_id row = w_delegations_seq w
      /\ w_delegations_seq w' = w_delegations_seq w + 1
      /\ d_created_at row = Some (w_now w)
      /\ d_completed_at row = None
      /\ d_task_name row = prepareValue X (lookup_field "taskName" fields)
      /\ d_assigned_by row = prepareValue X (lookup_field "assignedBy" fields)
      /\ d_assigned_to row = prepareValue X (lookup_field "assignedTo" fields)
      /\ d_notify_to row = prepareValue X (lookup_field "notifyTo" fields)
      /\ d_auditor row = prepareValue X (lookup_field "auditor" fields)
      /\ d_status row = prepareValue X (lookup_field "status" fields)
      /\ d_attachments row
         = prepareValue X (js_or (lookup_field "attachments" fields) (JArr []))
      /\ ((forall d, In d (w_delegations w) -> d_id d < w_delegations_seq w) ->
          find_delegation (w_delegations_seq w) w' = Some row).
Proof.
  intros X req w fields Hb Hf H1 H2 H3.
  unfold post_delegations, try_catch, bind, lift, insert_delegation.
  rewrite Hb, create_params. rewrite (pool_query_runs _ _ _ _ Hf). cbv zeta.
  match goal with
  | |- context [if violates_not_null ?r then _ else _] =>
      assert (Ev : violates_not_null r = false)
  end.
  { unfold violates_not_null, inserted_delegation, positional. simpl.
    destruct (prepareValue X (lookup_field "taskName" fields)); [ | contradiction].
    destruct (prepareValue X (lookup_field "assignedBy" fields)); [ | contradiction].
    destruct (prepareValue X (lookup_field "assignedTo" fields)); [ | contradiction].
    reflexivity. }
  rewrite Ev. eexists. eexists. split; [reflexivity | ].
  simpl. repeat (split; [reflexivity | ]).
  intros Hids. unfold find_delegation. simpl.
  apply find_snoc.
  - intros d Hin. apply Z.eqb_neq. specialize (Hids d Hin). lia.
  - simpl. apply Z.eqb_refl.
Qed.

Lemma create_appends_the_row_it_returns_witness :
  exists row w',
    post_delegations sample_externals (request None new_delegation_body 0) sample_world
    = (Ok (json (delegation_json sample_externals row)), w')
    /\ d_id row = 4
    /\ d_assigned_to row = Some "b@x.com"
    /\ d_completed_at row = None
    /\ find_delegation 4 w' = Some row.
Proof.
  destruct (create_appends_the_row_it_returns sample_externals
              (request None new_delegation_body 0) sample_world
              [("taskName", JStr "Audit"); ("assignedBy", JStr "boss@x.com");
               ("assignedTo", JStr "b@x.com"); ("status", JStr "Pending")]
              eq_refl eq_refl)
    as (row & w' & E & _ & _ & Hid & _ & _ & Hc & _ & _ & Hto & _ & _ & _ & _ & Hfind);
    try discriminate.
  exists row, w'. split; [exact E | ]. split; [exact Hid | ].
  split; [exact Hto | ]. split; [exact Hc | ].
  apply Hfind. simpl. intros d [<- | [<- | [<- | []]]]; simpl; lia.
Defined.

(** X11. Creating a delegation without a task name, an assigner or an
    assignee is answered 500 with the store's not-null message as details,
    which names the first of the columns [task_name], [assigned_by] and
    [assigned_to] that got no value, and the relation; no row is added, and
    the id the attempt took from the sequence is not reused. *)
Theorem create_without_a_required_column_is_refused :
  forall (X : Externals) (req : Request) (w : World) (fields : list (string * JsonValue)),
    req_body req = JObj fields ->
    next_fault w = None ->
    prepareValue X (lookup_field "taskName" fields) = None
    \/ prepareValue X (lookup_field "assignedBy" fields) = None
    \/ prepareValue X (lookup_field "assignedTo" fields) = None ->
    exists column w',
      column = (if is_null (prepareValue X (lookup_field "taskName" fields))
                then "task_name"
                else if is_null (prepareValue X (lookup_field "assignedBy" fields))
                     then "assigned_by"
                     else "assigned_to")
      /\ post_delegations X req w
         = (Ok (status_json 500
                  (JObj [("error", JStr "Server error");
                         ("details",
                          JStr ("null value in column " ++ quoted column
                                ++ " of relation " ++ quoted "delegations"
                                ++ " violates not-null constraint"))])),
            w')
      /\ w_delegations w' = w_delegations w
      /\ w_users w' = w_users w
      /\ w_delegations_seq w' = w_delegations_seq w + 1.
Proof.
  intros X req w fields Hb Hf Hnull.
  unfold post_delegations, try_catch, bind, lift, insert_delegation.
  rewrite Hb, create_params. rewrite (pool_query_runs _ _ _ _ Hf). cbv zeta.
  match goal with
  | |- context [if violates_not_null ?r then _ else _] =>
      assert (Ev : violates_not_null r = true)
  end.
  { unfold violates_not_null, inserted_delegation, positional. simpl.
    destruct Hnull as [-> | [-> | ->]]; simpl; rewrite ?orb_true_r; reflexivity. }
  rewrite Ev. eexists. eexists. split; [reflexivity | ].
  split; [reflexivity | ]. simpl. repeat split.
Qed.

Lemma create_without_a_required_column_is_refused_witness :
  exists w',
    post_delegations sample_externals
      (request None (JObj [("taskName", JStr "Audit"); ("assignedTo", JStr "b@x.com")]) 0)
      sample_world
    = (Ok (status_json 500
             (JObj [("error", JStr "Server error");
                    ("details",
                     JStr ("null value in column " ++ quoted "assigned_by"
                           ++ " of relation " ++ quoted "delegations"
                           ++ " violates not-null constraint"))])),
       w')
    /\ w_delegations w' = w_delegations sample_world
    /\ w_delegations_seq w' = 5.
Proof.
  destruct (create_without_a_required_column_is_refused sample_externals
              (request None
                 (JObj [("taskName", JStr "Audit"); ("assignedTo", JStr "b@x.com")]) 0)
              sample_world
              [("taskName", JStr "Audit"); ("assignedTo", JStr "b@x.com")]
              eq_refl eq_refl (or_intror (or_introl eq_refl)))
    as (column & w' & Hc & E & Hd & _ & Hseq).
  exists w'. subst column. split; [exact E | ]. split; [exact Hd | exact Hseq].
Defined.

(** *** Orderings and groups *)

Lemma insert_desc_perm {A : Type} (le : A -> A -> bool) (x : A) (l : list A) :
  Permutation (x :: l) (insert_desc le x l).
Proof.
  induction l as [| y l IH]; simpl; [apply Permutation_refl | ].
  destruct (le y x); [apply Permutation_refl | ].
  eapply Permutation_trans; [apply perm_swap | apply perm_skip; exact IH].
Qed.

Lemma sort_desc_perm {A : Type} (le : A -> A -> bool) (l : list A) :
  Permutation l (sort_desc le l).
Proof.
  induction l as [| x l IH]; simpl; [apply Permutation_refl | ].
  eapply Permutation_trans; [apply perm_skip; exact IH | apply insert_desc_perm].
Qed.

Lemma insert_desc_HdRel {A : Type} (le : A -> A -> bool) (x y : A) (l : list A) :
  le x y = true ->
  HdRel (fun a b => le b a = true) y l ->
  HdRel (fun a b => le b a = true) y (insert_desc le x l).
Proof.
  intros Hxy Hl. destruct l as [| z l]; simpl.
  - constructor. exact Hxy.
  - destruct (le z x); constructor; [exact Hxy | ].
    inversion Hl; assumption.
Qed.

Lemma insert_desc_descending {A : Type} (le : A -> A -> bool) (x : A) (l : list A) :
  total_order le -> descending le l -> descending le (insert_desc le x l).
Proof.
  intros Htot. unfold descending. induction l as [| y l IH]; simpl; intros Hs.
  - constructor; constructor.
  - destruct (le y x) eqn:E.
    + constructor; [exact Hs | constructor; exact E].
    + inversion Hs as [| ? ? Hl Hhd]; subst.
      constructor; [apply IH; exact Hl | ].
      apply insert_desc_HdRel; [ | exact Hhd].
      destruct (Htot x y) as [H | H]; [exact H | congruence].
Qed.

Lemma sort_desc_descending {A : Type} (le : A -> A -> bool) (l : list A) :
  total_order le -> descending le (sort_desc le l).
Proof.
  intros Htot. induction l as [| x l IH]; simpl.
  - constructor.
  - apply insert_desc_descending; assumption.
Qed.

Lemma firstn_descending {A : Type} (le : A -> A -> bool) (n : nat) (l : list A) :
  descending le l -> descending le (firstn n l).
Proof.
  unfold descending. revert l. induction n as [| n IH]; intros l Hs; simpl.
  - constructor.
  - destruct l as [| x l]; [constructor | ].
    inversion Hs as [| ? ? Hl Hhd]; subst.
    constructor; [apply IH; exact Hl | ].
    destruct l as [| y l]; [destruct n; constructor | ].
    destruct n; simpl; constructor. inversion Hhd; assumption.
Qed.

Lemma firstn_In {A : Type} (n : nat) (l : list A) (x : A) :
  In x (firstn n l) -> In x l.
Proof.
  revert l. induction n as [| n IH]; intros l; simpl; [intros [] | ].
  destruct l as [| y l]; simpl; [intros [] | ].
  intros [H | H]; [now left | right; apply IH; exact H].
Qed.

Lemma sql_same_eq (a b : SqlValue) : sql_same a b = true <-> a = b.
Proof.
  destruct a as [x |], b as [y |]; simpl; split; intros H; try discriminate;
    try reflexivity.
  - apply String.eqb_eq in H. congruence.
  - injection H as ->. apply String.eqb_refl.
Qed.

Lemma group_of_bump (k k' : SqlValue) (groups : list (SqlValue * nat)) :
  group_of k' (bump k groups)
  = (group_of k' groups + if sql_same k' k then 1 else 0)%nat.
Proof.
  unfold group_of. induction groups as [| [k0 n] rest IH]; simpl.
  - destruct (sql_same k' k); reflexivity.
  - destruct (sql_same k k0) eqn:E; simpl.
    + apply sql_same_eq in E. subst k0.
      destruct (sql_same k' k); simpl; lia.
    + destruct (sql_same k' k0) eqn:E'; simpl; [ | exact IH].
      apply sql_same_eq in E'. subst k0.
      destruct (sql_same k' k) eqn:E''; [ | lia].
      apply sql_same_eq in E''. subst k'.
      assert (Hr : sql_same k k = true) by (apply sql_same_eq; reflexivity). congruence.
Qed.

Lemma bump_keys (k k' : SqlValue) (groups : list (SqlValue * nat)) :
  In k' (map fst (bump k groups)) <-> k' = k \/ In k' (map fst groups).
Proof.
  induction groups as [| [k0 n] rest IH]; simpl.
  - intuition.
  - destruct (sql_same k k0) eqn:E; simpl.
    + apply sql_same_eq in E. subst k0. intuition.
    + rewrite IH. intuition.
Qed.

Lemma bump_NoDup (k : SqlValue) (groups : list (SqlValue * nat)) :
  NoDup (map fst groups) -> NoDup (map fst (bump k groups)).
Proof.
  induction groups as [| [k0 n] rest IH]; simpl; intros H.
  - constructor; [intros [] | constructor].
  - inversion H as [| ? ? Hk Hr]; subst.
    destruct (sql_same k k0) eqn:E; simpl.
    + constructor; assumption.
    + constructor; [ | apply IH; exact Hr].
      rewrite bump_keys. intros [-> | Hin]; [ | contradiction].
      assert (Hs : sql_same k k = true) by (apply sql_same_eq; reflexivity). congruence.
Qed.

Lemma group_count_spec (keys : list SqlValue) :
  forall groups,
    NoDup (map fst groups) ->
    let result := fold_left (fun g k => bump k g) keys groups in
    NoDup (map fst result)
    /\ (forall k, group_of k result
                  = (group_of k groups + List.length (filter (sql_same k) keys))%nat)
    /\ (forall k, In k (map fst result) <-> In k keys \/ In k (map fst groups)).
Proof.
  induction keys as [| k0 keys IH]; simpl; intros groups Hn.
  - split; [exact Hn | ]. split; [intros k; lia | intros k; tauto].
  - destruct (IH (bump k0 groups) (bump_NoDup k0 groups Hn)) as (H1 & H2 & H3).
    split; [exact H1 | ]. split.
    + intros k. rewrite H2, group_of_bump.
      destruct (sql_same k k0); simpl; lia.
    + intros k. rewrite H3, bump_keys. intuition.
Qed.

Lemma group_of_In (k : SqlValue) (n : nat) (groups : list (SqlValue * nat)) :
  NoDup (map fst groups) -> In (k, n) groups -> group_of k groups = n.
Proof.
  unfold group_of. induction groups as [| [k0 n0] rest IH]; simpl; intros Hn Hin; [destruct Hin | ].
  inversion Hn as [| ? ? Hk Hr]; subst.
  destruct Hin as [H | H].
  - injection H as -> ->.
    assert (Hs : sql_same k k = true) by (apply sql_same_eq; reflexivity).
    rewrite Hs. reflexivity.
  - destruct (sql_same k k0) eqn:E; [ | apply IH; assumption].
    apply sql_same_eq in E. subst k0. exfalso. apply Hk.
    apply in_map_iff. exists (k, n). auto.
Qed.

Lemma group_count_correct (keys : list SqlValue) :
  NoDup (map fst (group_count keys))
  /\ (forall k n, In (k, n) (group_count keys) ->
                  n = List.length (filter (sql_same k) keys) /\ In k keys)
  /\ (forall k, In k keys ->
                In (k, List.length (filter (sql_same k) keys)) (group_count keys)).
Proof.
  unfold group_count.
  destruct (group_count_spec keys [] (NoDup_nil _)) as (H1 & H2 & H3).
  cbv zeta in *. split; [exact H1 | ]. split.
  - intros k n Hin. split.
    + pose proof (H2 k) as Hk2. rewrite (group_of_In k n _ H1 Hin) in Hk2. exact Hk2.
    + assert (Hk : In k (map fst (fold_left (fun g k0 => bump k0 g) keys [])))
        by (apply in_map_iff; exists (k, n); auto).
      apply H3 in Hk. destruct Hk as [Hk | []]. exact Hk.
  - intros k Hk.
    assert (Hin : In k (map fst (fold_left (fun g k0 => bump k0 g) keys [])))
      by (apply H3; now left).
    apply in_map_iff in Hin. destruct Hin as ([k' n] & Hfst & Hin). simpl in Hfst. subst k'.
    pose proof (H2 k) as Hk2. rewrite (group_of_In k n _ H1 Hin) in Hk2.
    simpl in Hk2. rewrite <- Hk2. exact Hin.
Qed.

Lemma top_performer_entry_reads (X : Externals) (row : SqlValue * nat) (w w' : World)
    (entry : JsonValue) :
  top_performer_entry X row w = (Ok entry, w') ->
  entry = top_entry_json (w_users w) row /\ same_tables w w'.
Proof.
  unfold top_performer_entry. rewrite prepareValue_text_json. intros H.
  apply bind_ok_inv in H. destruct H as (us & w1 & E & H).
  unfold ret in H. injection H as <- <-.
  unfold select_names, pool_query in E. destruct (next_fault w); [discriminate E | ].
  injection E as <- <-. split; [reflexivity | split; reflexivity].
Qed.

Lemma recent_activity_entry_reads (X : Externals) (row : Delegation) (w w' : World)
    (entry : JsonValue) :
  recent_activity_entry X row w = (Ok entry, w') ->
  entry = recent_entry_json X (w_users w) row /\ same_tables w w'.
Proof.
  unfold recent_activity_entry. rewrite prepareValue_text_json. intros H.
  apply bind_ok_inv in H. destruct H as (us & w1 & E & H).
  unfold ret in H. injection H as <- <-.
  unfold select_names, pool_query in E. destruct (next_fault w); [discriminate E | ].
  injection E as <- <-. split; [reflexivity | split; reflexivity].
Qed.

Lemma get_analytics_lists (X : Externals) (req : Request) (w w' : World) (resp : Response) :
  get_analytics X req w = (Ok resp, w') ->
  res_status resp = 200 ->
  opt_prop (res_body resp) "topPerformers"
  = JArr (map (top_entry_json (w_users w)) (top_rows (w_delegations w)))
  /\ opt_prop (res_body resp) "recentActivity"
     = JArr (map (recent_entry_json X (w_users w)) (recent_rows X (w_delegations w))).
Proof.
  intros H Hs. unfold get_analytics, try_catch in H.
  match type of H with
  | context [match ?c w with _ => _ end] => destruct (c w) as [[r | e] wz] eqn:E
  end.
  2:{ injection H as <- <-. discriminate Hs. }
  injection H as <- <-.
  apply bind_ok_inv in E; destruct E as (total & wa & Ea & E).
  apply bind_ok_inv in E; destruct E as (completed & wb & Eb & E).
  apply bind_ok_inv in E; destruct E as (pending & wc & Ec & E).
  apply bind_ok_inv in E; destruct E as (overdue & wd & Ed & E).
  apply bind_ok_inv in E; destruct E as (tops & we & Ee & E).
  apply bind_ok_inv in E; destruct E as (topEntries & wf & Ef & E).
  apply bind_ok_inv in E; destruct E as (recents & wg & Eg & E).
  apply bind_ok_inv in E; destruct E as (recentEntries & wh & Eh & E).
  unfold ret in E. injection E as <- <-.
  apply count_where_inv in Ea, Eb, Ec, Ed.
  destruct Ea as [_ [Ua Da]], Eb as [_ [Ub Db]], Ec as [_ [Uc Dc]], Ed as [_ [Ud Dd]].
  unfold top_performers, pool_query in Ee. destruct (next_fault wd); [discriminate Ee | ].
  injection Ee as <- <-.
  apply (mapM_reads (top_performer_entry X) (fun us _ row => top_entry_json us row)) in Ef;
    [ | intros x w0 y w1 Hx; apply top_performer_entry_reads in Hx; exact Hx].
  destruct Ef as [-> [Uf Df]].
  unfold recent_activity, pool_query in Eg. destruct (next_fault wf); [discriminate Eg | ].
  injection Eg as <- <-.
  apply (mapM_reads (recent_activity_entry X) (fun us _ row => recent_entry_json X us row)) in Eh;
    [ | intros x w0 y w1 Hx; apply recent_activity_entry_reads in Hx; exact Hx].
  destruct Eh as [-> _].
  simpl in *. unfold top_rows, recent_rows.
  rewrite Uf, Df. simpl. rewrite Ud, Dd, Uc, Dc, Ub, Db, Ua, Da. split; reflexivity.
Qed.

Lemma length_filter_map {A B : Type} (p : B -> bool) (f : A -> B) (l : list A) :
  List.length (filter p (map f l)) = List.length (filter (fun x => p (f x)) l).
Proof.
  induction l as [| x l IH]; simpl; [reflexivity | ].
  destruct (p (f x)); simpl; rewrite IH; reflexivity.
Qed.

Lemma filter_In_length {A : Type} (p : A -> bool) (l : list A) (x : A) :
  In x l -> p x = true -> (1 <= List.length (filter p l))%nat.
Proof.
  intros Hin Hp.
  assert (H : In x (filter p l)) by (apply filter_In; auto).
  destruct (filter p l); [destruct H | simpl; lia].
Qed.

Lemma NoDup_firstn {A : Type} (n : nat) (l : list A) : NoDup l -> NoDup (firstn n l).
Proof.
  revert l. induction n as [| n IH]; intros l H; simpl; [constructor | ].
  destruct l as [| x l]; [constructor | ].
  inversion H as [| ? ? Hx Hl]; subst.
  constructor; [ | apply IH; exact Hl].
  intros Hin. apply Hx. eapply firstn_In. exact Hin.
Qed.

Lemma StronglySorted_app_inv {A : Type} (R : A -> A -> Prop) (l1 l2 : list A) :
  StronglySorted R (l1 ++ l2) -> forall x y, In x l1 -> In y l2 -> R x y.
Proof.
  induction l1 as [| a l1 IH]; simpl; intros H x y Hx Hy; [destruct Hx | ].
  inversion H as [| ? ? Hs Hall]; subst.
  destruct Hx as [<- | Hx].
  - rewrite Forall_forall in Hall. apply Hall. apply in_or_app. now right.
  - apply IH; assumption.
Qed.

Lemma leb_desc_total : total_order (fun a b : SqlValue * nat => Nat.leb (snd a) (snd b)).
Proof.
  intros a b. destruct (Nat.leb (snd a) (snd b)) eqn:E; [now left | right].
  apply Nat.leb_le. apply Nat.leb_gt in E. lia.
Qed.

(** X12. The top performers of an [/analytics] answer are at most three
    distinct assignees, each with the number of its completed delegations
    (at least one), in descending order of that number; an assignee with a
    completed delegation that is not listed has no more of them than any
    listed one, and the list is then full. *)
Theorem top_performers_are_the_three_largest_groups :
  forall (X : Externals) (req : Request) (w w' : World) (resp : Response),
    get_analytics X req w = (Ok resp, w') ->
    res_status resp = 200 ->
    exists rows,
      opt_prop (res_body resp) "topPerformers"
      = JArr (map (fun row =>
                     JObj [("name", display_name (users_by_email (fst row) (w_users w))
                                                 (fst row));
                           ("completed", JNum (Num.of_nat (snd row)))])
                  rows)
      /\ (List.length rows <= 3)%nat
      /\ NoDup (map fst rows)
      /\ (forall k n, In (k, n) rows ->
                      n = completed_by k (w_delegations w) /\ (1 <= n)%nat)
      /\ Sorted (fun a b => (snd b <= snd a)%nat) rows
      /\ (forall d, In d (w_delegations w) -> has_status "Completed" d = true ->
                    In (d_assigned_to d) (map fst rows)
                    \/ (List.length rows = 3%nat
                        /\ forall row, In row rows ->
                             (completed_by (d_assigned_to d) (w_delegations w)
                              <= snd row)%nat)).
Proof.
  intros X req w w' resp H Hs.
  destruct (get_analytics_lists X req w w' resp H Hs) as [Htop _].
  exists (top_rows (w_delegations w)). split; [exact Htop | ].
  unfold top_rows, completed_by.
  set (keys := map d_assigned_to (filter (has_status "Completed") (w_delegations w))).
  set (le := fun a b : SqlValue * nat => Nat.leb (snd a) (snd b)).
  destruct (group_count_correct keys) as (Hnd & Hcount & Hall).
  pose proof (sort_desc_perm le (group_count keys)) as Hperm.
  pose proof (sort_desc_descending le (group_count keys) leb_desc_total) as Hsorted.
  split; [apply firstn_le_length | ]. split; [ | split; [ | split]].
  - rewrite <- firstn_map. apply NoDup_firstn.
    eapply Permutation_NoDup; [apply Permutation_map; exact Hperm | exact Hnd].
  - intros k n Hin. apply firstn_In in Hin.
    apply (Permutation_in _ (Permutation_sym Hperm)) in Hin.
    destruct (Hcount k n Hin) as [Hn Hk]. split.
    + rewrite Hn. unfold keys. apply length_filter_map.
    + rewrite Hn. eapply filter_In_length; [exact Hk | apply sql_same_eq; reflexivity].
  - apply firstn_descending with (n := 3%nat) in Hsorted. unfold descending in Hsorted.
    eapply Sorted_ind with (P := fun l => Sorted (fun a b => (snd b <= snd a)%nat) l);
      [constructor | | exact Hsorted].
    intros a l _ IH Hhd. constructor; [exact IH | ].
    destruct Hhd as [| b l' Hb]; constructor. apply Nat.leb_le. exact Hb.
  - intros d Hin Hc.
    assert (Hk : In (d_assigned_to d) keys)
      by (unfold keys; apply in_map; apply filter_In; auto).
    pose proof (Hall _ Hk) as Hg.
    apply (Permutation_in _ Hperm) in Hg.
    rewrite <- (firstn_skipn 3 (sort_desc le (group_count keys))) in Hg.
    apply in_app_or in Hg. destruct Hg as [Hg | Hg].
    + left. apply in_map_iff. eexists. split; [ | exact Hg]. reflexivity.
    + right. split.
      * assert (Hlen : (3 < List.length (sort_desc le (group_count keys)))%nat).
        { destruct (Nat.le_gt_cases (List.length (sort_desc le (group_count keys))) 3)
            as [Hle | Hgt]; [ | exact Hgt].
          rewrite skipn_all2 in Hg by exact Hle. destruct Hg. }
        rewrite length_firstn. lia.
      * intros row Hrow.
        assert (Hss : StronglySorted (fun a b => le b a = true)
                        (firstn 3 (sort_desc le (group_count keys))
                         ++ skipn 3 (sort_desc le (group_count keys)))).
        { rewrite firstn_skipn. apply Sorted_StronglySorted; [ | exact Hsorted].
          intros a b c Hab Hbc. unfold le in *.
          apply Nat.leb_le in Hab, Hbc. apply Nat.leb_le. lia. }
        pose proof (StronglySorted_app_inv _ _ _ Hss _ _ Hrow Hg) as Hr.
        unfold le in Hr. simpl in Hr. apply Nat.leb_le in Hr.
        rewrite <- length_filter_map. exact Hr.
Qed.

Lemma top_performers_are_the_three_largest_groups_witness :
  exists resp w' rows,
    get_analytics sample_externals (request None JNull 0) busy_world = (Ok resp, w')
    /\ opt_prop (res_body resp) "topPerformers"
       = JArr [JObj [("name", JStr "Cy Day"); ("completed", JNum (Num.of_nat 4))];
               JObj [("name", JStr "Ann Roe"); ("completed", JNum (Num.of_nat 3))];
               JObj [("name", JStr "Bea Li"); ("completed", JNum (Num.of_nat 2))]]
    /\ opt_prop (res_body resp) "topPerformers"
       = JArr (map (fun row =>
                      JObj [("name", display_name
                                       (users_by_email (fst row) (w_users busy_world))
                                       (fst row));
                            ("completed", JNum (Num.of_nat (snd row)))])
                   rows)
    /\ List.length rows = 3%nat
    /\ NoDup (map fst rows)
    /\ (forall k n, In (k, n) rows ->
                    n = completed_by k (w_delegations busy_world) /\ (1 <= n)%nat)
    /\ Sorted (fun a b => (snd b <= snd a)%nat) rows
    /\ ~ In (Some "d@x.com") (map fst rows)
    /\ (forall row, In row rows ->
                    (completed_by (Some "d@x.com") (w_delegations busy_world) <= snd row)%nat).
Proof.
  set (out := get_analytics sample_externals (request None JNull 0) busy_world).
  set (resp := match fst out with Ok r => r | Throw _ => json JNull end).
  assert (E : out = (Ok resp, snd out)) by (vm_compute; reflexivity).
  assert (Etop : opt_prop (res_body resp) "topPerformers"
                 = JArr [JObj [("name", JStr "Cy Day"); ("completed", JNum (Num.of_nat 4))];
                         JObj [("name", JStr "Ann Roe"); ("completed", JNum (Num.of_nat 3))];
                         JObj [("name", JStr "Bea Li"); ("completed", JNum (Num.of_nat 2))]])
    by (vm_compute; reflexivity).
  destruct (top_performers_are_the_three_largest_groups sample_externals
              (request None JNull 0) busy_world (snd out) resp E eq_refl)
    as (rows & Hrows & _ & Hnd & Hcount & Hsorted & Hrest).
  assert (Hlen : List.length rows = 3%nat).
  { pose proof (f_equal (fun v => match v with JArr l => List.length l | _ => 0%nat end)
                        Hrows) as Hl.
    rewrite Etop in Hl. cbv beta iota in Hl. rewrite length_map in Hl.
    symmetry. exact Hl. }
  assert (Hout : ~ In (Some "d@x.com") (map fst rows)).
  { intros Hin. apply in_map_iff in Hin. destruct Hin as ([k n] & Hk & Hin).
    simpl in Hk. subst k.
    destruct (Hcount _ _ Hin) as [Hn _].
    assert (Hone : completed_by (Some "d@x.com") (w_delegations busy_world) = 1%nat)
      by (vm_compute; reflexivity).
    rewrite Hone in Hn. subst n.
    set (g := fun entry => opt_prop entry "completed").
    pose proof (f_equal (fun v => match v with JArr l => map g l | _ => [] end) Hrows)
      as Hcompleted.
    rewrite Etop in Hcompleted. cbv beta iota in Hcompleted.
    match type of Hrows with
    | _ = JArr (map ?f _) => pose proof (in_map g _ _ (in_map f _ _ Hin)) as Hlisted
    end.
    rewrite <- Hcompleted in Hlisted. vm_compute in Hlisted.
    destruct Hlisted as [H | [H | [H | []]]]; discriminate H. }
  exists resp, (snd out), rows.
  split; [exact E | ]. split; [exact Etop | ]. split; [exact Hrows | ].
  split; [exact Hlen | ]. split; [exact Hnd | ]. split; [exact Hcount | ].
  split; [exact Hsorted | ]. split; [exact Hout | ].
  destruct (Hrest (completed_delegation 1 "Plan" "d@x.com" "2024-01-05 10:00:00"))
    as [Hin | [_ Hle]].
  - simpl. left. reflexivity.
  - reflexivity.
  - contradiction.
  - exact Hle.
Defined.

(** X13. The recent activity of an [/analytics] answer has as many
    entries as there are completed delegations, up to three, each taken from
    a completed row of the table; they are in descending order of
    [completed_at] whenever the store's order on timestamps is total. *)
Theorem recent_activity_lists_completed_rows :
  forall (X : Externals) (req : Request) (w w' : World) (resp : Response),
    get_analytics X req w = (Ok resp, w') ->
    res_status resp = 200 ->
    exists rows,
      opt_prop (res_body resp) "recentActivity"
      = JArr (map (fun row =>
                     JObj [("task", text_json (d_task_name row));
                           ("user", display_name
                                      (users_by_email (d_assigned_to row) (w_users w))
                                      (d_assigned_to row));
                           ("date", typed_json X "TIMESTAMP" (d_completed_at row))])
                  rows)
      /\ List.length rows
         = Nat.min 3 (List.length (filter (has_status "Completed") (w_delegations w)))
      /\ (forall row, In row rows ->
                      In row (w_delegations w) /\ has_status "Completed" row = true)
      /\ (total_order (fun a b => timestamp_leb X (d_completed_at a) (d_completed_at b)) ->
          descending (fun a b => timestamp_leb X (d_completed_at a) (d_completed_at b)) rows).
Proof.
  intros X req w w' resp H Hs.
  destruct (get_analytics_lists X req w w' resp H Hs) as [_ Hrec].
  exists (recent_rows X (w_delegations w)). split; [exact Hrec | ].
  unfold recent_rows.
  set (le := fun a b => timestamp_leb X (d_completed_at a) (d_completed_at b)).
  pose proof (sort_desc_perm le (filter (has_status "Completed") (w_delegations w))) as Hperm.
  split; [ | split].
  - rewrite length_firstn, <- (Permutation_length Hperm). reflexivity.
  - intros row Hin. apply firstn_In in Hin.
    apply (Permutation_in _ (Permutation_sym Hperm)) in Hin.
    apply filter_In in Hin. exact Hin.
  - intros Htot. apply firstn_descending. apply sort_desc_descending. exact Htot.
Qed.

Lemma sample_completions_total :
  total_order (fun a b => timestamp_leb sample_externals (d_completed_at a) (d_completed_at b)).
Proof. intros a b. simpl. apply String.leb_total. Qed.

Lemma recent_activity_lists_completed_rows_witness :
  exists resp w' rows,
    get_analytics sample_externals (request None JNull 0) busy_world = (Ok resp, w')
    /\ opt_prop (res_body resp) "recentActivity"
       = JArr [JObj [("task", JStr "Release"); ("user", JStr "Cy Day");
                     ("date", JStr "2024-01-11 10:00:00")];
               JObj [("task", JStr "Migration"); ("user", JStr "Cy Day");
                     ("date", JStr "2024-01-10 10:00:00")];
               JObj [("task", JStr "Audit"); ("user", JStr "Ann Roe");
                     ("date", JStr "2024-01-09 10:00:00")]]
    /\ opt_prop (res_body resp) "recentActivity"
       = JArr (map (fun row =>
                      JObj [("task", text_json (d_task_name row));
                            ("user", display_name
                                       (users_by_email (d_assigned_to row)
                                          (w_users busy_world))
                                       (d_assigned_to row));
                            ("date", typed_json sample_externals "TIMESTAMP"
                                       (d_completed_at row))])
                   rows)
    /\ List.length (filter (has_status "Completed") (w_delegations busy_world)) = 10%nat
    /\ List.length rows = 3%nat
    /\ (forall row, In row rows ->
                    In row (w_delegations busy_world)
                    /\ has_status "Completed" row = true)
    /\ descending (fun a b => timestamp_leb sample_externals
                                (d_completed_at a) (d_completed_at b))
                  rows.
Proof.
  set (out := get_analytics sample_externals (request None JNull 0) busy_world).
  set (resp := match fst out with Ok r => r | Throw _ => json JNull end).
  assert (E : out = (Ok resp, snd out)) by (vm_compute; reflexivity).
  destruct (recent_activity_lists_completed_rows sample_externals
              (request None JNull 0) busy_world (snd out) resp E eq_refl)
    as (rows & Hrows & Hlen & Hin & Hsorted).
  exists resp, (snd out), rows.
  split; [exact E | ]. split; [vm_compute; reflexivity | ]. split; [exact Hrows | ].
  split; [reflexivity | ]. split; [exact Hlen | ]. split; [exact Hin | ].
  apply Hsorted. apply sample_completions_total.
Defined.

(** X14. When the store answers, [GET /delegations] returns every row of
    the table exactly once (a permutation of the table, no paging or
    filter), leaves the table unchanged, and orders the rows by descending
    [created_at] whenever the store's order on timestamps is total. *)
Theorem list_returns_every_row_latest_first :
  forall (X : Externals) (req : Request) (w : World),
    next_fault w = None ->
    exists rows w',
      get_delegations X req w = (Ok (json (JArr (map (delegation_json X) rows))), w')
      /\ Permutation (w_delegations w) rows
      /\ w_delegations w' = w_delegations w
      /\ (total_order (fun a b => timestamp_leb X (d_created_at a) (d_created_at b)) ->
          descending (fun a b => timestamp_leb X (d_created_at a) (d_created_at b)) rows).
Proof.
  intros X req w Hf. unfold get_delegations, try_catch, bind, select_delegations.
  rewrite (pool_query_runs _ _ _ _ Hf). simpl.
  eexists. eexists. split; [reflexivity | ]. split; [apply sort_desc_perm | ].
  split; [reflexivity | ]. intros Htot. apply sort_desc_descending. exact Htot.
Qed.

Lemma sample_timestamps_total :
  total_order (fun a b => timestamp_leb sample_externals (d_created_at a) (d_created_at b)).
Proof. intros a b. simpl. apply String.leb_total. Qed.

Lemma list_returns_every_row_latest_first_witness :
  exists rows w',
    get_delegations sample_externals (request None JNull 0) sample_world
    = (Ok (json (JArr (map (delegation_json sample_externals) rows))), w')
    /\ Permutation (w_delegations sample_world) rows
    /\ descending (fun a b => timestamp_leb sample_externals (d_created_at a) (d_created_at b))
                  rows.
Proof.
  destruct (list_returns_every_row_latest_first sample_externals (request None JNull 0)
              sample_world eq_refl) as (rows & w' & E & Hperm & _ & Hsorted).
  exists rows, w'. split; [exact E | ]. split; [exact Hperm | ].
  apply Hsorted. apply sample_timestamps_total.
Defined.

(** *** The team report, the header and compositions *)

Lemma trim_start_blank (s : string) : blank s = true -> trim_start s = "".
Proof.
  unfold blank. induction s as [| a s IH]; simpl; [reflexivity | ].
  intros H. apply andb_true_iff in H. destruct H as [Ha Hs]. rewrite Ha. apply IH. exact Hs.
Qed.

Lemma trim_blank (s : string) : blank s = true -> trim s = "".
Proof. intros H. unfold trim. rewrite (trim_start_blank s H). reflexivity. Qed.

Lemma blank_append (a b : string) : blank a = true -> blank b = true -> blank (a ++ b) = true.
Proof.
  unfold blank. induction a as [| c a IH]; simpl; intros Ha Hb; [exact Hb | ].
  apply andb_true_iff in Ha. destruct Ha as [Hc Ha]. rewrite Hc. simpl. apply IH; assumption.
Qed.

(** X15. In a [/team] answer the name of a user is the trimmed first and
    last name when that is not empty and the user's email otherwise; in
    particular a user whose two name parts are null, empty or white space
    only is listed under the email.  The [id] is always the email. *)
Theorem team_name_falls_back_to_email :
  forall (X : Externals) (req : Request) (w w' : World) (resp : Response),
    get_team X req w = (Ok resp, w') ->
    res_status resp = 200 ->
    exists entries,
      res_body resp = JArr entries
      /\ Forall2
           (fun user entry =>
              opt_prop entry "name"
              = (if String.eqb (full_name user) ""
                 then text_json (u_email user)
                 else JStr (full_name user))
              /\ opt_prop entry "id" = text_json (u_email user)
              /\ (blank (or_empty (u_first_name user)) = true ->
                  blank (or_empty (u_last_name user)) = true ->
                  opt_prop entry "name" = text_json (u_email user)))
           (w_users w) entries.
Proof.
  intros X req w w' resp H Hs.
  exists (map (team_row (w_delegations w)) (w_users w)).
  split; [eapply get_team_inv; eassumption | ].
  apply Forall2_map_r. intros user _.
  assert (E : opt_prop (team_row (w_delegations w) user) "name"
              = (if String.eqb (full_name user) ""
                 then text_json (u_email user)
                 else JStr (full_name user))).
  { unfold team_row. simpl. unfold js_or. simpl.
    destruct (String.eqb (full_name user) ""); reflexivity. }
  split; [exact E | ]. split; [reflexivity | ].
  intros Hf Hl. rewrite E.
  assert (Hb : full_name user = "").
  { unfold full_name. apply trim_blank.
    apply blank_append; [exact Hf | ]. apply (blank_append " "); [reflexivity | exact Hl]. }
  rewrite Hb. reflexivity.
Qed.

Lemma team_name_falls_back_to_email_witness :
  exists first_entry second_entry,
    res_body (match fst (get_team sample_externals (request None JNull 0) sample_world)
              with Ok r => r | Throw _ => json JNull end)
    = JArr [first_entry; second_entry]
    /\ opt_prop first_entry "name" = JStr "a@x.com"
    /\ opt_prop second_entry "name" = JStr "Bea Li".
Proof.
  destruct (team_name_falls_back_to_email sample_externals (request None JNull 0) sample_world
              (snd (get_team sample_externals (request None JNull 0) sample_world))
              (match fst (get_team sample_externals (request None JNull 0) sample_world)
               with Ok r => r | Throw _ => json JNull end))
    as (entries & Hbody & Hnames).
  - vm_compute. reflexivity.
  - reflexivity.
  - inversion Hnames as [| u1 e1 us1 es1 (_ & _ & Hblank) Hrest]; subst.
    inversion Hrest as [| u2 e2 us2 es2 (Hname & _ & _) Hnil]; subst.
    inversion Hnil; subst.
    exists e1, e2. split; [exact Hbody | ]. split.
    + apply Hblank; reflexivity.
    + exact Hname.
Defined.

Lemma team_counts_partition (q : Delegation -> bool) (ds : list Delegation) :
  (List.length (filter (fun d => q d && has_status "Completed" d)%bool ds)
   + List.length (filter (fun d => q d && has_status "In Progress" d)%bool ds)
   + List.length (filter (fun d => q d && has_status "Pending" d)%bool ds)
   + List.length (filter (fun d => q d && has_status "Overdue" d)%bool ds)
   + List.length (filter (fun d => q d && negb (team_status d))%bool ds)
   = List.length (filter q ds))%nat.
Proof.
  induction ds as [| d ds IH]; [reflexivity | ].
  simpl. unfold team_status in *.
  destruct (q d); simpl; [ | exact IH].
  destruct (has_status "Completed" d) eqn:C, (has_status "In Progress" d) eqn:I,
           (has_status "Pending" d) eqn:P, (has_status "Overdue" d) eqn:O; simpl;
    try (pose proof (has_status_exclusive _ _ _ C I); discriminate);
    try (pose proof (has_status_exclusive _ _ _ C P); discriminate);
    try (pose proof (has_status_exclusive _ _ _ C O); discriminate);
    try (pose proof (has_status_exclusive _ _ _ I P); discriminate);
    try (pose proof (has_status_exclusive _ _ _ I O); discriminate);
    try (pose proof (has_status_exclusive _ _ _ P O); discriminate);
    lia.
Qed.

(** X16. In a [/team] answer the completed, in-progress, pending and
    overdue counts of a user add up to at most the assigned count, and to
    exactly that count precisely when every delegation assigned to the user
    has one of these four statuses. *)
Theorem team_counts_are_bounded_by_assigned :
  forall (X : Externals) (req : Request) (w w' : World) (resp : Response),
    get_team X req w = (Ok resp, w') ->
    res_status resp = 200 ->
    exists entries,
      res_body resp = JArr entries
      /\ Forall2
           (fun user entry =>
              exists assigned completed inProgress pending overdue : nat,
                opt_prop entry "tasksAssigned" = JNum (Num.of_nat assigned)
                /\ opt_prop entry "tasksCompleted" = JNum (Num.of_nat completed)
                /\ opt_prop entry "tasksInProgress" = JNum (Num.of_nat inProgress)
                /\ opt_prop entry "tasksPending" = JNum (Num.of_nat pending)
                /\ opt_prop entry "tasksOverdue" = JNum (Num.of_nat overdue)
                /\ assigned
                   = List.length (filter (assigned_to (u_email user)) (w_delegations w))
                /\ (completed + inProgress + pending + overdue <= assigned)%nat
                /\ ((completed + inProgress + pending + overdue = assigned)%nat
                    <-> forall d, In d (w_delegations w) ->
                                  assigned_to (u_email user) d = true ->
                                  team_status d = true))
           (w_users w) entries.
Proof.
  intros X req w w' resp H Hs.
  exists (map (team_row (w_delegations w)) (w_users w)).
  split; [eapply get_team_inv; eassumption | ].
  apply Forall2_map_r. intros user _.
  pose proof (team_counts_partition (assigned_to (u_email user)) (w_delegations w)) as Hsum.
  eexists. eexists. eexists. eexists. eexists.
  repeat (split; [reflexivity | ]).
  unfold assigned_count, completed_count. split; [lia | ].
  split.
  - intros Heq d Hin Ha.
    destruct (team_status d) eqn:Et; [reflexivity | ].
    assert (H1 : (1 <= List.length
                     (filter (fun d => assigned_to (u_email user) d && negb (team_status d))%bool
                             (w_delegations w)))%nat).
    { eapply filter_In_length; [exact Hin | ]. rewrite Ha, Et. reflexivity. }
    lia.
  - intros Hall.
    assert (H0 : filter (fun d => assigned_to (u_email user) d && negb (team_status d))%bool
                        (w_delegations w) = []).
    { destruct (filter (fun d => assigned_to (u_email user) d && negb (team_status d))%bool
                       (w_delegations w)) as [| d l] eqn:E; [reflexivity | ].
      assert (Hin : In d (filter (fun d => assigned_to (u_email user) d
                                           && negb (team_status d))%bool (w_delegations w)))
        by (rewrite E; now left).
      apply filter_In in Hin. destruct Hin as [Hin Hp].
      apply andb_true_iff in Hp. destruct Hp as [Ha Hn].
      rewrite (Hall d Hin Ha) in Hn. discriminate Hn. }
    rewrite H0 in Hsum. simpl in Hsum. lia.
Qed.

Lemma team_counts_are_bounded_by_assigned_witness :
  exists entries,
    res_body (match fst (get_team sample_externals (request None JNull 0) sample_world)
              with Ok r => r | Throw _ => json JNull end)
    = JArr entries
    /\ Forall (fun entry =>
                 exists assigned completed : nat,
                   opt_prop entry "tasksAssigned" = JNum (Num.of_nat assigned)
                   /\ opt_prop entry "tasksCompleted" = JNum (Num.of_nat completed)
                   /\ (completed <= assigned)%nat)
              entries.
Proof.
  destruct (team_counts_are_bounded_by_assigned sample_externals (request None JNull 0)
              sample_world
              (snd (get_team sample_externals (request None JNull 0) sample_world))
              (match fst (get_team sample_externals (request None JNull 0) sample_world)
               with Ok r => r | Throw _ => json JNull end))
    as (entries & Hbody & Hcounts).
  - vm_compute. reflexivity.
  - reflexivity.
  - exists entries. split; [exact Hbody | ]. clear Hbody.
    induction Hcounts
      as [| u e us es (a & c & i & p & o & Ha & Hc & _ & _ & _ & _ & Hle & _) _ IH].
    + constructor.
    + constructor; [ | exact IH].
      exists a, c. split; [exact Ha | ]. split; [exact Hc | lia].
Defined.

Lemma team_entry_statements (X : Externals) (user : User) (w : World) :
  w_faults w = [] ->
  exists entry w',
    team_entry X user w = (Ok entry, w')
    /\ w_faults w' = []
    /\ w_delegations w' = w_delegations w
    /\ List.length (w_log w') = (List.length (w_log w) + 5)%nat.
Proof.
  destruct w as [us ds su sd now seed faults log]. simpl. intros ->.
  unfold team_entry, bind, count_where, pool_query, next_fault, ret. simpl.
  eexists. eexists. split; [reflexivity | ]. simpl. split; [reflexivity | ].
  split; [reflexivity | ]. rewrite !length_app. simpl. lia.
Qed.

Lemma mapM_statements {A B : Type} (f : A -> M B) (n : nat) :
  (forall x w, w_faults w = [] ->
               exists y w', f x w = (Ok y, w') /\ w_faults w' = []
                            /\ w_delegations w' = w_delegations w
                            /\ List.length (w_log w') = (List.length (w_log w) + n)%nat) ->
  forall xs w,
    w_faults w = [] ->
    exists ys w', mapM f xs w = (Ok ys, w') /\ w_faults w' = []
                  /\ w_delegations w' = w_delegations w
                  /\ List.length (w_log w')
                     = (List.length (w_log w) + n * List.length xs)%nat.
Proof.
  intros Hf. induction xs as [| x xs IH]; simpl; intros w Hw.
  - exists [], w. split; [reflexivity | ]. split; [exact Hw | ]. split; [reflexivity | lia].
  - destruct (Hf x w Hw) as (y & w1 & E1 & H1 & D1 & L1).
    destruct (IH w1 H1) as (ys & w2 & E2 & H2 & D2 & L2).
    exists (y :: ys), w2.
    rewrite (bind_ok _ _ _ _ _ E1), (bind_ok _ _ _ _ _ E2).
    split; [reflexivity | ]. split; [exact H2 | ]. split; [congruence | lia].
Qed.

(** X17. With no store failure [/team] issues one statement for the users
    and five for each user, and [/analytics] issues six statements plus one
    name look-up for each listed top performer and recent activity, at most
    twelve in all. *)
Theorem reports_issue_one_statement_per_count :
  forall (X : Externals) (req : Request) (w : World),
    w_faults w = [] ->
    (exists resp w',
        get_team X req w = (Ok resp, w')
        /\ List.length (w_log w')
           = (List.length (w_log w) + 1 + 5 * List.length (w_users w))%nat)
    /\ (exists resp w',
           get_analytics X req w = (Ok resp, w')
           /\ List.length (w_log w')
              = (List.length (w_log w) + 6
                 + List.length (top_rows (w_delegations w))
                 + List.length (recent_rows X (w_delegations w)))%nat
           /\ (List.length (w_log w') <= List.length (w_log w) + 12)%nat).
Proof.
  intros X req w Hf. split.
  - unfold get_team, try_catch.
    assert (Hs : exists w1, select_users w = (Ok (w_users w), w1) /\ w_faults w1 = []
                            /\ List.length (w_log w1) = S (List.length (w_log w))).
    { unfold select_users, pool_query, next_fault. rewrite Hf.
      eexists. split; [reflexivity | ]. simpl. rewrite Hf, length_app. simpl.
      split; [reflexivity | lia]. }
    destruct Hs as (w1 & E1 & H1 & L1).
    destruct (mapM_statements (team_entry X) 5 (team_entry_statements X) (w_users w) w1 H1)
      as (ys & w2 & E2 & _ & _ & L2).
    eexists. exists w2.
    rewrite (bind_ok _ _ _ _ _ E1), (bind_ok _ _ _ _ _ E2).
    split; [reflexivity | lia].
  - unfold get_analytics, try_catch.
    assert (Hc : forall text p w0, w_faults w0 = [] ->
               exists w1, count_where text [] p w0
                          = (Ok (List.length (filter p (w_delegations w0))), w1)
                          /\ w_faults w1 = [] /\ w_delegations w1 = w_delegations w0
                          /\ List.length (w_log w1) = S (List.length (w_log w0))).
    { intros text p w0 H0. unfold count_where, pool_query, next_fault. rewrite H0.
      eexists. split; [reflexivity | ]. simpl. rewrite H0, length_app. simpl.
      repeat split. lia. }
    destruct (Hc SQL_COUNT_ALL (fun _ => true) w Hf) as (w1 & E1 & H1 & D1 & L1).
    destruct (Hc SQL_COUNT_COMPLETED (has_status "Completed") w1 H1)
      as (w2 & E2 & H2 & D2 & L2).
    destruct (Hc SQL_COUNT_PENDING (has_status "Pending") w2 H2) as (w3 & E3 & H3 & D3 & L3).
    destruct (Hc SQL_COUNT_OVERDUE (has_status "Overdue") w3 H3) as (w4 & E4 & H4 & D4 & L4).
    assert (Htop : exists w5, top_performers w4 = (Ok (top_rows (w_delegations w)), w5)
                              /\ w_faults w5 = [] /\ w_delegations w5 = w_delegations w
                              /\ List.length (w_log w5) = S (List.length (w_log w4))).
    { unfold top_performers, pool_query, next_fault. rewrite H4.
      eexists. split; [unfold top_rows; simpl; rewrite D4, D3, D2, D1; reflexivity | ].
      simpl. rewrite H4, length_app. simpl. repeat split; [congruence | lia]. }
    destruct Htop as (w5 & E5 & H5 & D5 & L5).
    assert (Hentry1 : forall row w0, w_faults w0 = [] ->
               exists y w', top_performer_entry X row w0 = (Ok y, w') /\ w_faults w' = []
                            /\ w_delegations w' = w_delegations w0
                            /\ List.length (w_log w') = (List.length (w_log w0) + 1)%nat).
    { intros row w0 H0. eexists. eexists.
      split; [apply top_performer_entry_runs, next_fault_none; exact H0 | ].
      simpl. rewrite H0, length_app. simpl. repeat split. }
    destruct (mapM_statements (top_performer_entry X) 1 Hentry1
                (top_rows (w_delegations w)) w5 H5)
      as (tops & w6 & E6 & H6 & D6 & L6).
    assert (Hrec : exists w7, recent_activity X w6 = (Ok (recent_rows X (w_delegations w)), w7)
                              /\ w_faults w7 = []
                              /\ List.length (w_log w7) = S (List.length (w_log w6))).
    { unfold recent_activity, pool_query, next_fault. rewrite H6.
      eexists. split; [unfold recent_rows; simpl; rewrite D6, D5; reflexivity | ].
      simpl. rewrite H6, length_app. simpl. split; [reflexivity | lia]. }
    destruct Hrec as (w7 & E7 & H7 & L7).
    assert (Hentry2 : forall row w0, w_faults w0 = [] ->
               exists y w', recent_activity_entry X row w0 = (Ok y, w') /\ w_faults w' = []
                            /\ w_delegations w' = w_delegations w0
                            /\ List.length (w_log w') = (List.length (w_log w0) + 1)%nat).
    { intros row w0 H0. eexists. eexists.
      split; [apply recent_activity_entry_runs, next_fault_none; exact H0 | ].
      simpl. rewrite H0, length_app. simpl. repeat split. }
    destruct (mapM_statements (recent_activity_entry X) 1 Hentry2
                (recent_rows X (w_delegations w)) w7 H7)
      as (recents & w8 & E8 & _ & _ & L8).
    eexists. exists w8.
    rewrite (bind_ok _ _ _ _ _ E1), (bind_ok _ _ _ _ _ E2), (bind_ok _ _ _ _ _ E3),
            (bind_ok _ _ _ _ _ E4), (bind_ok _ _ _ _ _ E5), (bind_ok _ _ _ _ _ E6),
            (bind_ok _ _ _ _ _ E7), (bind_ok _ _ _ _ _ E8).
    split; [reflexivity | ].
    assert (T : (List.length (top_rows (w_delegations w)) <= 3)%nat)
      by (unfold top_rows; apply firstn_le_length).
    assert (R : (List.length (recent_rows X (w_delegations w)) <= 3)%nat)
      by (unfold recent_rows; apply firstn_le_length).
    split; lia.
Qed.

Lemma reports_issue_one_statement_per_count_witness :
  (exists resp w',
      get_team sample_externals (request None JNull 0) sample_world = (Ok resp, w')
      /\ List.length (w_log w') = 11%nat)
  /\ (exists resp w',
         get_analytics sample_externals (request None JNull 0) sample_world = (Ok resp, w')
         /\ (List.length (w_log w') <= 12)%nat).
Proof.
  destruct (reports_issue_one_statement_per_count sample_externals (request None JNull 0)
              sample_world eq_refl)
    as [(r1 & w1 & E1 & L1) (r2 & w2 & E2 & _ & L2)].
  split.
  - exists r1, w1. split; [exact E1 | exact L1].
  - exists r2, w2. split; [exact E2 | exact L2].
Defined.

Lemma split_on_first (s rest : string) :
  spaceless s = true ->
  split_on " " (s ++ " " ++ rest) = s :: split_on " " rest.
Proof.
  unfold spaceless. induction s as [| a s IH]; simpl; intros H; [reflexivity | ].
  apply andb_true_iff in H. destruct H as [Ha Hs]. apply negb_true_iff in Ha.
  rewrite Ha. simpl in IH. rewrite (IH Hs). reflexivity.
Qed.

Lemma append_space_not_empty (s rest : string) : String.eqb (s ++ " " ++ rest) "" = false.
Proof. destruct s; reflexivity. Qed.

Lemma bearer_token_second_part (scheme t : string) :
  spaceless scheme = true -> spaceless t = true ->
  bearer_token (Some (scheme ++ " " ++ t)) = Some t
  /\ forall tail, bearer_token (Some (scheme ++ " " ++ t ++ " " ++ tail)) = Some t.
Proof.
  intros Hs Ht. unfold bearer_token. split.
  - rewrite append_space_not_empty, (split_on_first scheme t Hs).
    simpl. rewrite (split_on_no_separator " " t Ht). reflexivity.
  - intros tail.
    rewrite append_space_not_empty, (split_on_first scheme _ Hs), (split_on_first t tail Ht).
    reflexivity.
Qed.

(** X18. The middleware takes the second space-separated word of the
    authorization header as the token: the first word is not compared with
    ['Bearer'], and anything after the second word is ignored. *)
Theorem middleware_reads_only_the_second_word :
  forall (X : Externals) (req : Request) (next : Request -> M Response) (w : World)
         (scheme t tail : string),
    spaceless scheme = true -> spaceless t = true -> t <> "" ->
    req_authorization req = Some (scheme ++ " " ++ t)
    \/ req_authorization req = Some (scheme ++ " " ++ t ++ " " ++ tail) ->
    authenticateToken X req next w
    = match jwt_verify X t (JWT_SECRET X) (w_now w) with
      | Throw _ => (Ok (status_json 403 (error_body "Invalid token")), w)
      | Ok user => next (with_user user req) w
      end.
Proof.
  intros X req next w scheme t tail Hs Ht Hne Hh.
  apply authenticateToken_verifies; [ | exact Hne].
  destruct (bearer_token_second_part scheme t Hs Ht) as [H1 H2].
  destruct Hh as [-> | ->]; [exact H1 | apply H2].
Qed.

Lemma middleware_reads_only_the_second_word_witness :
  fst (dispatch sample_externals GET_profile
         (request (Some "Token jwt.b@x.com trailing words") JNull 0) sample_world)
  = Ok (json (profile_json (sample_user 2 "b@x.com" (Some "Bea") (Some "Li")))).
Proof.
  simpl dispatch.
  rewrite (middleware_reads_only_the_second_word sample_externals
             (request (Some "Token jwt.b@x.com trailing words") JNull 0)
             (get_profile sample_externals) sample_world
             "Token" "jwt.b@x.com" "trailing words" eq_refl eq_refl);
    [reflexivity | discriminate | right; reflexivity].
Defined.

(** X19. With no store failure, deleting an id and then listing returns
    exactly the rows of the table that do not have that id. *)
Theorem deleted_rows_are_gone_from_the_list :
  forall (X : Externals) (reqDelete reqList : Request) (w : World),
    w_faults w = [] ->
    exists wd rows wl,
      delete_delegation_handler reqDelete w = (Ok (json success_body), wd)
      /\ get_delegations X reqList wd
         = (Ok (json (JArr (map (delegation_json X) rows))), wl)
      /\ (forall row, In row rows <->
                      In row (w_delegations w) /\ d_id row <> req_id reqDelete).
Proof.
  intros X reqDelete reqList w Hf.
  eexists. eexists. eexists. split; [ | split].
  - apply delete_delegation_handler_runs. apply next_fault_none. exact Hf.
  - unfold get_delegations, try_catch, bind, select_delegations.
    rewrite pool_query_runs by (unfold next_fault; simpl; rewrite Hf; reflexivity).
    reflexivity.
  - intros row. simpl.
    split.
    + intros Hin.
      apply (Permutation_in _ (Permutation_sym (sort_desc_perm _ _))) in Hin.
      apply filter_In in Hin. destruct Hin as [Hin Hid]. split; [exact Hin | ].
      apply negb_true_iff, Z.eqb_neq in Hid. exact Hid.
    + intros [Hin Hid].
      apply (Permutation_in _ (sort_desc_perm _ _)).
      apply filter_In. split; [exact Hin | ].
      apply negb_true_iff, Z.eqb_neq. exact Hid.
Qed.

Lemma deleted_rows_are_gone_from_the_list_witness :
  exists wd rows wl,
    delete_delegation_handler (request None JNull 1) sample_world
    = (Ok (json success_body), wd)
    /\ get_delegations sample_externals (request None JNull 0) wd
       = (Ok (json (JArr (map (delegation_json sample_externals) rows))), wl)
    /\ ~ In (sample_delegation 1 "a@x.com" "Completed") rows
    /\ In (sample_delegation 2 "a@x.com" "Pending") rows.
Proof.
  destruct (deleted_rows_are_gone_from_the_list sample_externals (request None JNull 1)
              (request None JNull 0) sample_world eq_refl)
    as (wd & rows & wl & E1 & E2 & Hrows).
  exists wd, rows, wl. split; [exact E1 | ]. split; [exact E2 | ]. split.
  - intros Hin. apply Hrows in Hin. destruct Hin as [_ Hid]. apply Hid. reflexivity.
  - apply Hrows. split; [simpl; right; left; reflexivity | discriminate].
Defined.

Lemma sql_eqb_true (a b : SqlValue) : sql_eqb a b = true -> a = b.
Proof.
  destruct a as [x |], b as [y |]; simpl; intros H; try discriminate.
  apply String.eqb_eq in H. congruence.
Qed.

(** X20. A login with a registered email and a password bcrypt accepts is
    answered with the token signed for the row's email with the server's
    secret; when [jwt.verify] with that same secret gives back a payload
    whose [email] is the signed one (beside whatever else the library puts
    in it, such as the times of issue and of expiry), [GET /profile] with
    ['Bearer <token>'] answers with the profile of that very user. *)
Theorem token_from_login_opens_the_profile :
  forall (X : Externals) (req reqProfile : Request) (w w2 : World)
         (email password : JsonValue) (user : User) (rest : list User) (token : string),
    prop (req_body req) "email" = Ok email ->
    prop (req_body req) "password" = Ok password ->
    truthy email = true -> truthy password = true ->
    next_fault w = None ->
    users_by_email (prepareValue X email) (w_users w) = user :: rest ->
    bcrypt_compare X password (text_json (u_password user)) = Ok true ->
    jwt_sign X (JObj [("email", text_json (u_email user))]) (JWT_SECRET X) "1h" (w_now w)
    = Ok token ->
    fst (login X req w) = Ok (json (JObj [("success", JBool true); ("token", JStr token)]))
    /\ (forall payload : JsonValue,
          spaceless token = true -> token <> "" ->
          req_authorization reqProfile = Some ("Bearer " ++ token) ->
          w_users w2 = w_users w ->
          next_fault w2 = None ->
          jwt_verify X token (JWT_SECRET X) (w_now w2) = Ok payload ->
          prop payload "email" = Ok (text_json (u_email user)) ->
          fst (dispatch X GET_profile reqProfile w2) = Ok (json (profile_json user))).
Proof.
  intros X req reqProfile w w2 email password user rest token
         He Hp Te Tp Hf Hu Hcmp Hsign. split.
  - unfold login, bind, lift, try_catch, select_user.
    rewrite He, Hp, Te, Tp. simpl. rewrite (pool_query_runs _ _ _ _ Hf). simpl.
    rewrite Hu, Hcmp. simpl. rewrite Hsign. reflexivity.
  - intros payload Hns Hne Hh Hu2 Hf2 Hv Hemail. simpl dispatch.
    assert (Ht : bearer_token (req_authorization reqProfile) = Some token)
      by (rewrite Hh; apply bearer_token_of_Bearer; exact Hns).
    rewrite (authenticateToken_verifies X reqProfile (get_profile X) w2 token Ht Hne), Hv.
    rewrite (get_profile_runs X (with_user payload reqProfile)
               w2 (text_json (u_email user)) Hemail Hf2).
    rewrite prepareValue_text_json, Hu2.
    assert (Em : u_email user = prepareValue X email).
    { assert (Hin : In user (users_by_email (prepareValue X email) (w_users w)))
        by (rewrite Hu; now left).
      apply filter_In in Hin. apply sql_eqb_true. tauto. }
    rewrite Em, Hu. reflexivity.
Qed.

Lemma token_from_login_opens_the_profile_witness :
  fst (login dated_externals (request None (credentials "b@x.com" "pw1") 0) sample_world)
  = Ok (json (JObj [("success", JBool true); ("token", JStr "jwt.b@x.com")]))
  /\ jwt_verify dated_externals "jwt.b@x.com" (JWT_SECRET dated_externals)
       (w_now sample_world)
     = Ok (JObj [("email", JStr "b@x.com");
                 ("iat", JNum (Num.of_Z 1706788800));
                 ("exp", JNum (Num.of_Z 1706792400))])
  /\ fst (dispatch dated_externals GET_profile
            (request (Some "Bearer jwt.b@x.com") JNull 0) sample_world)
     = Ok (json (profile_json (sample_user 2 "b@x.com" (Some "Bea") (Some "Li")))).
Proof.
  destruct (token_from_login_opens_the_profile dated_externals
              (request None (credentials "b@x.com" "pw1") 0)
              (request (Some "Bearer jwt.b@x.com") JNull 0)
              sample_world sample_world (JStr "b@x.com") (JStr "pw1")
              (sample_user 2 "b@x.com" (Some "Bea") (Some "Li")) [] "jwt.b@x.com"
              eq_refl eq_refl eq_refl eq_refl eq_refl eq_refl eq_refl eq_refl)
    as [Hlogin Hprofile].
  split; [exact Hlogin | ]. split; [reflexivity | ].
  apply (Hprofile (JObj [("email", JStr "b@x.com");
                         ("iat", JNum (Num.of_Z 1706788800));
                         ("exp", JNum (Num.of_Z 1706792400))]));
    try reflexivity. discriminate.
Defined.

(** X21. For a verified identity that has no user row, [GET /profile] and
    a password change with both fields given are answered 404
    ['User not found']; the password change computes no hash and leaves the
    table unchanged. *)
Theorem identity_without_a_row_is_not_found :
  forall (X : Externals) (req : Request) (w : World) (email : JsonValue),
    prop (req_user req) "email" = Ok email ->
    next_fault w = None ->
    users_by_email (prepareValue X email) (w_users w) = [] ->
    fst (get_profile X req w) = Ok (status_json 404 (error_body "User not found"))
    /\ (forall currentPassword newPassword,
           prop (req_body req) "currentPassword" = Ok currentPassword ->
           prop (req_body req) "newPassword" = Ok newPassword ->
           truthy currentPassword = true -> truthy newPassword = true ->
           fst (change_password X req w) = Ok (status_json 404 (error_body "User not found"))
           /\ w_users (snd (change_password X req w)) = w_users w
           /\ w_seed (snd (change_password X req w)) = w_seed w).
Proof.
  intros X req w email He Hf Hu. split.
  - rewrite (get_profile_runs X req w email He Hf), Hu. reflexivity.
  - intros cur new Hc Hn Tc Tn.
    unfold change_password, bind, lift, try_catch, select_user.
    rewrite He, Hc, Hn, Tc, Tn. simpl. rewrite (pool_query_runs _ _ _ _ Hf). simpl.
    rewrite Hu. simpl. repeat split.
Qed.

Lemma identity_without_a_row_is_not_found_witness :
  fst (get_profile sample_externals (authenticated "gone@x.com" JNull) sample_world)
  = Ok (status_json 404 (error_body "User not found")).
Proof.
  apply (proj1 (identity_without_a_row_is_not_found sample_externals
                  (authenticated "gone@x.com" JNull) sample_world (JStr "gone@x.com")
                  eq_refl eq_refl eq_refl)).
Defined.

(** X22. The profile of a user who has just registered has the email that
    was registered and [null] for all six attributes. *)
Theorem fresh_registration_has_an_empty_profile :
  forall (X : Externals) (req reqProfile : Request) (w w1 w2 : World)
         (email password identity : JsonValue) (resp : Response) (h : string),
    prop (req_body req) "email" = Ok email ->
    prop (req_body req) "password" = Ok password ->
    truthy email = true -> truthy password = true ->
    bcrypt_hash X password 10 (w_seed w) = Ok h ->
    register X req w = (Ok resp, w1) ->
    res_status resp = 200 ->
    prop (req_user reqProfile) "email" = Ok identity ->
    prepareValue X identity = prepareValue X email ->
    w_users w2 = w_users w1 ->
    next_fault w2 = None ->
    fst (get_profile X reqProfile w2)
    = Ok (json (JObj [("email", text_json (prepareValue X email)); ("first_name", JNull);
                      ("last_name", JNull); ("phone", JNull); ("role", JNull);
                      ("department", JNull); ("bio", JNull)])).
Proof.
  intros X req reqProfile w w1 w2 email password identity resp h
         He Hp Te Tp Hh Hreg Hs Hi Hsame Hu Hf.
  destruct (register_success_inv X req w w1 email password resp h He Hp Te Tp Hh Hreg Hs)
    as (s & Es & Hex & Hus & _).
  rewrite (get_profile_runs X reqProfile w2 identity Hi Hf), Hsame, Hu, Hus, Es.
  erewrite users_by_email_fresh by first [exact Hex | reflexivity]. reflexivity.
Qed.

Lemma fresh_registration_has_an_empty_profile_witness :
  fst (get_profile sample_externals (authenticated "n@x.com" JNull)
         (snd (register sample_externals (request None (credentials "n@x.com" "pw") 0)
                 sample_world)))
  = Ok (json (JObj [("email", JStr "n@x.com"); ("first_name", JNull);
                    ("last_name", JNull); ("phone", JNull); ("role", JNull);
                    ("department", JNull); ("bio", JNull)])).
Proof.
  apply (fresh_registration_has_an_empty_profile sample_externals
           (request None (credentials "n@x.com" "pw") 0) (authenticated "n@x.com" JNull)
           sample_world
           (snd (register sample_externals (request None (credentials "n@x.com" "pw") 0)
                   sample_world))
           (snd (register sample_externals (request None (credentials "n@x.com" "pw") 0)
                   sample_world))
           (JStr "n@x.com") (JStr "pw") (JStr "n@x.com") (json success_body) "hash:pw");
    reflexivity.
Defined.

(** X23. When the store refuses the statement a handler issues, the
    handler answers 500 and nothing is thrown past it: the delegation,
    analytics and team routes put the error's message into [details], login
    and the profile route do not; the tables are left as they were. *)
Theorem store_failure_is_answered_500 :
  forall (X : Externals) (req : Request) (w : World) (e : JsError),
    next_fault w = Some e ->
    fst (get_delegations X req w) = Ok (status_json 500 (error_body "Server error"))
    /\ fst (delete_delegation_handler req w)
       = Ok (status_json 500 (error_details "Server error" e))
    /\ fst (get_analytics X req w) = Ok (status_json 500 (error_details "Server error" e))
    /\ fst (get_team X req w) = Ok (status_json 500 (error_details "Server error" e))
    /\ (forall ps, params_of X CREATE_PARAMS (req_body req) = Ok ps ->
                   fst (post_delegations X req w)
                   = Ok (status_json 500 (error_details "Server error" e)))
    /\ (forall ps, params_of X UPDATE_PARAMS (req_body req) = Ok ps ->
                   fst (put_delegation X req w)
                   = Ok (status_json 500 (error_details "Server error" e)))
    /\ (forall email password,
           prop (req_body req) "email" = Ok email ->
           prop (req_body req) "password" = Ok password ->
           truthy email = true -> truthy password = true ->
           fst (login X req w) = Ok (status_json 500 (error_body "Server error")))
    /\ (forall email,
           prop (req_user req) "email" = Ok email ->
           fst (get_profile X req w) = Ok (status_json 500 (error_body "Server error")))
    /\ w_users (snd (dispatch X PUT_delegations_id req w)) = w_users w
    /\ w_delegations (snd (dispatch X PUT_delegations_id req w)) = w_delegations w
    /\ w_delegations (snd (dispatch X DELETE_delegations_id req w)) = w_delegations w
    /\ w_delegations (snd (dispatch X POST_delegations req w)) = w_delegations w.
Proof.
  intros X req w e Hf.
  repeat match goal with |- _ /\ _ => split end.
  - unfold get_delegations, try_catch, bind, select_delegations.
    rewrite (pool_query_refused _ _ _ _ e Hf). reflexivity.
  - unfold delete_delegation_handler, try_catch, bind, delete_delegation.
    rewrite (pool_query_refused _ _ _ _ e Hf). reflexivity.
  - unfold get_analytics, try_catch, bind, count_where.
    rewrite (pool_query_refused _ _ _ _ e Hf). reflexivity.
  - unfold get_team, try_catch, bind, select_users.
    rewrite (pool_query_refused _ _ _ _ e Hf). reflexivity.
  - intros ps Hps. unfold post_delegations, try_catch, bind, lift, insert_delegation.
    rewrite Hps, (pool_query_refused _ _ _ _ e Hf). reflexivity.
  - intros ps Hps. unfold put_delegation, try_catch, bind, lift, update_delegation.
    rewrite Hps, (pool_query_refused _ _ _ _ e Hf). reflexivity.
  - intros email password He Hp Te Tp. unfold login, bind, lift, try_catch, select_user.
    rewrite He, Hp, Te, Tp. simpl. rewrite (pool_query_refused _ _ _ _ e Hf). reflexivity.
  - intros email He. unfold get_profile, bind, lift, try_catch, select_profile.
    rewrite He. rewrite (pool_query_refused _ _ _ _ e Hf). reflexivity.
  - simpl. unfold put_delegation, try_catch, bind, lift, update_delegation.
    destruct (params_of X UPDATE_PARAMS (req_body req)); [ | reflexivity].
    rewrite (pool_query_refused _ _ _ _ e Hf). reflexivity.
  - simpl. unfold put_delegation, try_catch, bind, lift, update_delegation.
    destruct (params_of X UPDATE_PARAMS (req_body req)); [ | reflexivity].
    rewrite (pool_query_refused _ _ _ _ e Hf). reflexivity.
  - simpl. unfold delete_delegation_handler, try_catch, bind, delete_delegation.
    rewrite (pool_query_refused _ _ _ _ e Hf). reflexivity.
  - simpl. unfold post_delegations, try_catch, bind, lift, insert_delegation.
    destruct (params_of X CREATE_PARAMS (req_body req)); [ | reflexivity].
    rewrite (pool_query_refused _ _ _ _ e Hf). reflexivity.
Qed.

Lemma store_failure_is_answered_500_witness :
  fst (get_team sample_externals (request None JNull 0) unreachable_store)
  = Ok (status_json 500
          (JObj [("error", JStr "Server error"); ("details", JStr "connection failure")]))
  /\ fst (login sample_externals (request None (credentials "a@x.com" "pw1") 0)
            unreachable_store)
     = Ok (status_json 500 (JObj [("error", JStr "Server error")]))
  /\ w_delegations (snd (dispatch sample_externals DELETE_delegations_id
                           (request None JNull 1) unreachable_store))
     = w_delegations sample_world.
Proof.
  destruct (store_failure_is_answered_500 sample_externals (request None JNull 0)
              unreachable_store (mkError (Some "08006") "connection failure") eq_refl)
    as (_ & _ & _ & Hteam & _).
  destruct (store_failure_is_answered_500 sample_externals
              (request None (credentials "a@x.com" "pw1") 0)
              unreachable_store (mkError (Some "08006") "connection failure") eq_refl)
    as (_ & _ & _ & _ & _ & _ & Hlogin & _).
  destruct (store_failure_is_answered_500 sample_externals (request None JNull 1)
              unreachable_store (mkError (Some "08006") "connection failure") eq_refl)
    as (_ & _ & _ & _ & _ & _ & _ & _ & _ & _ & Hdelete & _).
  split; [exact Hteam | ]. split; [ | exact Hdelete].
  apply (Hlogin (JStr "a@x.com") (JStr "pw1")); reflexivity.
Defined.
